(** * ACME task orchestration engine (EdgeAPI, package [acme])

    A shallow embedding of [ACMETaskDAO] (task store, scheduling query,
    [RunTask], [runTaskWithoutLog], [RunTaskAndAutoBindServer]) together
    with the properties of its specification.

    Tables are finite maps keyed by the row id, append-only tables and
    outgoing calls are lists, Go's [error] is the text of [err.Error()].
    A procedure is a state transformer over [World]; a Go [return] from the
    middle of a function is [Exit], a nil dereference is [Panic].

    After the engine come the counting and listing queries of the task
    store, [taskutils.RunConcurrent], the [ttlcache.Manager] and the
    Huawei Cloud DNS client, each with its properties further down. *)

From stdpp Require Import gmap strings list fin_maps sorting.
From Stdlib Require Import ZArith Lia Sorting.Permutation DecimalString.

Open Scope Z_scope.

(** ** Constants *)

Definition ACMETaskStateEnabled : Z := 1.
Definition ACMETaskStateDisabled : Z := 0.

Definition ACMETaskStatusPending : Z := 0.
Definition ACMETaskStatusDone : Z := 1.
Definition ACMETaskStatusRunning : Z := 2.
Definition ACMETaskStatusIssueFailed : Z := 3.

(** Modelled from the spec: the two validation types of a task
    ([acmeutils.AuthTypeDNS], [acmeutils.AuthTypeHTTP]); the column is a
    string and may hold anything else. *)
Definition AuthTypeDNS : string := "dns".
Definition AuthTypeHTTP : string := "http".

(** Modelled from the spec: row states of the certificate and policy tables
    (enabled rows are the ones the [FindEnabled...] queries see). *)
Definition SSLCertStateEnabled : Z := 1.
Definition SSLCertStateDisabled : Z := 0.
Definition SSLPolicyStateEnabled : Z := 1.

(** ** Results of fallible calls *)

Inductive Result (A : Type) : Type :=
| Ok (a : A)
| Err (e : string).
Arguments Ok {A} a.
Arguments Err {A} e.

(** ** Rows *)

(** A row of [edgeACMETasks]. [tDomains] is the JSON text of the column. *)
Record ACMETask := mkACMETask {
  tId : Z;
  tAdminId : Z;
  tUserId : Z;
  tIsOn : bool;
  tAcmeUserId : Z;
  tDnsProviderId : Z;
  tDnsDomain : string;
  tDomains : string;
  tCreatedAt : Z;
  tState : Z;
  tStatus : Z;
  tCertId : Z;
  tAutoRenew : bool;
  tAuthType : string;
  tAuthURL : string;
  tAsync : bool
}.

Record ACMETaskLog := mkACMETaskLog {
  lTaskId : Z;
  lIsOk : bool;
  lError : string
}.

Record ACMEAuthentication := mkACMEAuthentication {
  aTaskId : Z;
  aDomain : string;
  aToken : string;
  aKey : string
}.

Record SSLCert := mkSSLCert {
  cId : Z;
  cAdminId : Z;
  cUserId : Z;
  cState : Z;
  cIsOn : bool;
  cName : string;
  cDescription : string;
  cServerName : string;
  cIsCA : bool;
  cCertData : string;
  cKeyData : string;
  cTimeBeginAt : Z;
  cTimeEndAt : Z;
  cDNSNames : list string;
  cCommonNames : list string;
  cAcmeTaskId : Z
}.

Record SSLCertRef := mkSSLCertRef {
  refIsOn : bool;
  refCertId : Z
}.

(** A row of the TLS policy table. [pOcspIsOn] and [pCipherSuitesIsOn] are
    small integers in the row (the code compares them with 1). *)
Record SSLPolicy := mkSSLPolicy {
  pId : Z;
  pAdminId : Z;
  pUserId : Z;
  pState : Z;
  pHttp2Enabled : bool;
  pHttp3Enabled : bool;
  pMinVersion : string;
  pCerts : list SSLCertRef;
  pHsts : string;
  pOcspIsOn : Z;
  pClientAuthType : Z;
  pClientCACerts : string;
  pCipherSuitesIsOn : Z;
  pCipherSuites : list string
}.

Record SSLPolicyRef := mkSSLPolicyRef {
  prIsOn : bool;
  prSSLPolicyId : Z
}.

(** [serverconfigs.HTTPSProtocolConfig]: the binding code only reads and
    writes [SSLPolicyRef]; the remaining settings travel as one value. *)
Record HTTPSProtocolConfig := mkHTTPSProtocolConfig {
  hIsOn : bool;
  hSettings : string;
  hSSLPolicyRef : option SSLPolicyRef
}.

(** A host. [sPlainServerNames] is the decoded JSON column, [None] when the
    text does not decode to a list of strings; [sHttps] is what
    [DecodeHTTPS] yields ([None] for nil). *)
Record Server := mkServer {
  sId : Z;
  sUserId : Z;
  sPlainServerNames : option (list string);
  sHttps : option HTTPSProtocolConfig
}.

(** The body of the validation webhook request. *)
Record WebhookPost := mkWebhookPost {
  wURL : string;
  wDomain : string;
  wToken : string;
  wKey : string
}.

(** The arguments of one [SSLPolicyDAO.UpdatePolicy] call. *)
Record PolicyUpdate := mkPolicyUpdate {
  uPolicyId : Z;
  uHttp2Enabled : bool;
  uHttp3Enabled : bool;
  uMinVersion : string;
  uCerts : list SSLCertRef;
  uHsts : string;
  uOcspIsOn : bool;
  uClientAuthType : Z;
  uClientCACerts : string;
  uCipherSuitesIsOn : bool;
  uCipherSuites : list string
}.

(** ** The state the engine works on *)

Record World := mkWorld {
  acmeTasks : gmap Z ACMETask;
  acmeTaskLogs : list ACMETaskLog;
  acmeAuths : list ACMEAuthentication;
  sslCerts : gmap Z SSLCert;
  sslPolicies : gmap Z SSLPolicy;
  servers : gmap Z Server;
  runningTaskMap : gset Z;
  webhookPosts : list WebhookPost;
  policyUpdates : list PolicyUpdate;
  acmeRuns : list Z;
  errorLog : list string
}.

Definition setTasks (f : gmap Z ACMETask -> gmap Z ACMETask) (w : World) : World :=
  mkWorld (f (acmeTasks w)) (acmeTaskLogs w) (acmeAuths w) (sslCerts w)
    (sslPolicies w) (servers w) (runningTaskMap w) (webhookPosts w)
    (policyUpdates w) (acmeRuns w) (errorLog w).

Definition setTaskLogs (f : list ACMETaskLog -> list ACMETaskLog) (w : World) : World :=
  mkWorld (acmeTasks w) (f (acmeTaskLogs w)) (acmeAuths w) (sslCerts w)
    (sslPolicies w) (servers w) (runningTaskMap w) (webhookPosts w)
    (policyUpdates w) (acmeRuns w) (errorLog w).

Definition setAuths (f : list ACMEAuthentication -> list ACMEAuthentication) (w : World) : World :=
  mkWorld (acmeTasks w) (acmeTaskLogs w) (f (acmeAuths w)) (sslCerts w)
    (sslPolicies w) (servers w) (runningTaskMap w) (webhookPosts w)
    (policyUpdates w) (acmeRuns w) (errorLog w).

Definition setCerts (f : gmap Z SSLCert -> gmap Z SSLCert) (w : World) : World :=
  mkWorld (acmeTasks w) (acmeTaskLogs w) (acmeAuths w) (f (sslCerts w))
    (sslPolicies w) (servers w) (runningTaskMap w) (webhookPosts w)
    (policyUpdates w) (acmeRuns w) (errorLog w).

Definition setPolicies (f : gmap Z SSLPolicy -> gmap Z SSLPolicy) (w : World) : World :=
  mkWorld (acmeTasks w) (acmeTaskLogs w) (acmeAuths w) (sslCerts w)
    (f (sslPolicies w)) (servers w) (runningTaskMap w) (webhookPosts w)
    (policyUpdates w) (acmeRuns w) (errorLog w).

Definition setServers (f : gmap Z Server -> gmap Z Server) (w : World) : World :=
  mkWorld (acmeTasks w) (acmeTaskLogs w) (acmeAuths w) (sslCerts w)
    (sslPolicies w) (f (servers w)) (runningTaskMap w) (webhookPosts w)
    (policyUpdates w) (acmeRuns w) (errorLog w).

Definition setWebhookPosts (f : list WebhookPost -> list WebhookPost) (w : World) : World :=
  mkWorld (acmeTasks w) (acmeTaskLogs w) (acmeAuths w) (sslCerts w)
    (sslPolicies w) (servers w) (runningTaskMap w) (f (webhookPosts w))
    (policyUpdates w) (acmeRuns w) (errorLog w).

Definition setPolicyUpdates (f : list PolicyUpdate -> list PolicyUpdate) (w : World) : World :=
  mkWorld (acmeTasks w) (acmeTaskLogs w) (acmeAuths w) (sslCerts w)
    (sslPolicies w) (servers w) (runningTaskMap w) (webhookPosts w)
    (f (policyUpdates w)) (acmeRuns w) (errorLog w).

Definition setAcmeRuns (f : list Z -> list Z) (w : World) : World :=
  mkWorld (acmeTasks w) (acmeTaskLogs w) (acmeAuths w) (sslCerts w)
    (sslPolicies w) (servers w) (runningTaskMap w) (webhookPosts w)
    (policyUpdates w) (f (acmeRuns w)) (errorLog w).

Definition setErrorLog (f : list string -> list string) (w : World) : World :=
  mkWorld (acmeTasks w) (acmeTaskLogs w) (acmeAuths w) (sslCerts w)
    (sslPolicies w) (servers w) (runningTaskMap w) (webhookPosts w)
    (policyUpdates w) (acmeRuns w) (f (errorLog w)).

(** ** Procedures: state, early return, panic *)

Inductive Flow (R A : Type) : Type :=
| Next (a : A)
| Exit (r : R)
| Panic (msg : string).
Arguments Next {R A} a.
Arguments Exit {R A} r.
Arguments Panic {R A} msg.

Definition Proc (R A : Type) : Type := World -> Flow R A * World.

Definition ret {R A} (a : A) : Proc R A := fun w => (Next a, w).

Definition bind {R A B} (p : Proc R A) (k : A -> Proc R B) : Proc R B :=
  fun w =>
    match p w with
    | (Next a, w') => k a w'
    | (Exit r, w') => (Exit r, w')
    | (Panic m, w') => (Panic m, w')
    end.

(** Go's [return] with the result values [r]. *)
Definition exit {R A} (r : R) : Proc R A := fun w => (Exit r, w).

(** A runtime panic (nil pointer dereference). *)
Definition panic {R A} (msg : string) : Proc R A := fun w => (Panic msg, w).

Definition gets {R A} (f : World -> A) : Proc R A := fun w => (Next (f w), w).

Definition modify {R} (f : World -> World) : Proc R unit := fun w => (Next tt, f w).

(** Calling a function: its [Exit] is the caller's ordinary result; a panic
    unwinds through the caller. *)
Definition call {R A} (p : Proc A A) : Proc R A :=
  fun w =>
    match p w with
    | (Next a, w') => (Next a, w')
    | (Exit a, w') => (Next a, w')
    | (Panic m, w') => (Panic m, w')
    end.

Notation "x <- p ;; k" := (bind p (fun x => k))
  (at level 100, p at next level, right associativity).
Notation "p ;;; k" := (bind p (fun _ => k))
  (at level 100, right associativity).

(** [for _, x := range l { body x }]; [continue] inside the body is the
    body's [exit tt]. *)
Fixpoint forEach {R A} (l : list A) (body : A -> Proc unit unit) : Proc R unit :=
  match l with
  | [] => ret tt
  | x :: l' => call (body x) ;;; forEach l' body
  end.

(** [logs.Error(err)], [remotelogs.Error(...)], [logs.Errorf(...)]. *)
Definition logError {R} (msg : string) : Proc R unit :=
  modify (setErrorLog (fun l => l ++ [msg])).

Definition logIfErr {R} (err : option string) : Proc R unit :=
  match err with
  | Some e => logError e
  | None => ret tt
  end.

Definition orExit {R A} (r : Result A) (f : string -> R) : Proc R A :=
  match r with
  | Ok a => ret a
  | Err e => exit (f e)
  end.

Definition someOrExit {R A} (o : option A) (r : R) : Proc R A :=
  match o with
  | Some a => ret a
  | None => exit r
  end.

Definition exitIf {R} (b : bool) (r : R) : Proc R unit :=
  if b then exit r else ret tt.

Definition exitIfErr {R} (err : option string) (f : string -> R) : Proc R unit :=
  match err with
  | Some e => exit (f e)
  | None => ret tt
  end.

(** [for _, x := range l] with the local variables [s] the body updates;
    the body's [exit s'] is [continue] with the locals as they are then. *)
Fixpoint foldEach {R A S} (l : list A) (s : S) (body : A -> S -> Proc S S) : Proc R S :=
  match l with
  | [] => ret s
  | x :: l' => s' <- call (body x s) ;; foldEach l' s' body
  end.

(** ** Fixed-width conversions *)

Definition int64 (z : Z) : Z := (z + 2 ^ 63) mod 2 ^ 64 - 2 ^ 63.
Definition int32 (z : Z) : Z := (z + 2 ^ 31) mod 2 ^ 32 - 2 ^ 31.

Definition strEmpty (s : string) : bool :=
  match s with
  | EmptyString => true
  | String _ _ => false
  end.

(** ** External collaborators *)

Record ACMEUser := mkACMEUser {
  auId : Z;
  auEmail : string;
  auPrivateKey : string;
  auRegistration : string;
  auProviderCode : string;
  auAccountId : Z
}.

Record ACMEProviderAccount := mkACMEProviderAccount {
  paEabKid : string;
  paEabKey : string
}.

Record DNSProvider := mkDNSProvider {
  dpId : Z;
  dpType : string;
  dpMinTTL : Z;
  dpApiParams : string
}.

(** [acmeutils.Account]. *)
Record Account := mkAccount {
  EABKid : string;
  EABKey : string
}.

(** What [runTaskWithoutLog] hands to the ACME client: [acmeutils.Task]
    with its user. [rqDomains] is the task's domains column, which the code
    passes through [DecodeDomains]. The user's callback that stores the
    registration resource writes the ACME user table only, which is not
    part of the state here. *)
Record ACMERequest := mkACMERequest {
  rqEmail : string;
  rqPrivateKey : string;
  rqRegistration : string;
  rqAuthType : string;
  rqDNSProvider : option DNSProvider;
  rqDNSDomain : string;
  rqDomains : string;
  rqProvider : string;
  rqAccount : option Account
}.

(** One challenge the certificate authority issues during a run: the
    arguments of the [OnAuth] callback. *)
Record AuthEvent := mkAuthEvent {
  evDomain : string;
  evToken : string;
  evKeyAuth : string
}.

(** What [sslConfig.Init] extracts from the issued material. *)
Record CertInfo := mkCertInfo {
  ciTimeBeginAt : Z;
  ciTimeEndAt : Z;
  ciDNSNames : list string;
  ciCommonNames : list string
}.

(** The places where a storage or library call can return an error. *)
Inductive Site : Type :=
| SEnableACMETask (id : Z)
| SDisableACMETask (id : Z)
| SFindEnabledACMETask (id : Z)
| SDisableAllTasksWithCertId (certId : Z)
| SCreateACMETask
| SUpdateACMETask (id : Z)
| SUpdateACMETaskCert (taskId certId : Z)
| SUpdateStatus (id status : Z)
| SFindIssueACMETask
| SCreateACMETaskLog (taskId : Z)
| SCreateAuth (taskId : Z) (domain token : string)
| SMarshalAuth (domain token : string)
| SHttpDo (url domain token : string)
| SFindEnabledSSLCert (certId : Z)
| SUpdateCert (certId : Z)
| SCreateCert
| SUpdateCertACME (certId : Z)
| SDisableSSLCert (certId : Z)
| SFindUserServerByServerName (domain : string)
| SComposePolicyConfig (policyId : Z)
| SMarshalCertRefs (serverId : Z)
| SCreatePolicy (userId : Z)
| SMarshalHTTPS (serverId : Z)
| SUpdateServerHTTPS (serverId : Z)
| SFindEnabledSSLPolicy (policyId : Z)
| SUpdatePolicy (policyId : Z).

(** Everything one invocation gets from outside the engine: the error (if
    any) of each storage or library call, the lookups in tables the engine
    does not write, the ACME client and the certificate parser;
    [insertCreatedAt] is what the storage layer puts in the [createdAt]
    column of a row it inserts, [sessionTimeZone] the offset from UTC, in
    seconds, of the time zone in which its session renders times. *)
Record Env := mkEnv {
  fault : Site -> option string;
  DefaultProviderCode : string;
  jsonMarshalStrings : list string -> Result string;
  insertCreatedAt : Z;
  sessionTimeZone : Z;
  FindEnabledACMEUser : Z -> Result (option ACMEUser);
  FindRandomACMEUserWithSameProvider : string -> option ACMEUser;
  FindProviderWithCode : string -> option string;
  FindEnabledACMEProviderAccount : Z -> Result (option ACMEProviderAccount);
  ParsePrivateKeyFromBase64 : string -> Result string;
  SetRegistration : string -> option string;
  FindEnabledDNSProvider : Z -> Result (option DNSProvider);
  FindProvider : string -> Z -> bool;
  DecodeAPIParams : DNSProvider -> Result string;
  Auth : DNSProvider -> string -> option string;
  httpNewRequest : string -> option string;
  acmeRun : ACMERequest -> list AuthEvent * Result (string * string);
  sslConfigInit : string -> string -> Result CertInfo;
  serverNameMatches : string -> Server -> bool
}.

(** Modelled from the spec: the storage layer numbers a new row above every
    row of its table, from 1. *)
Definition nextId {A} (m : gmap Z A) : Z :=
  1 + map_fold (fun k _ acc => Z.max k acc) 0 m.

(** Modelled from the spec: [utils.ListIsGreaterEqualThanOther], true when
    the first list covers every name of the second (set inclusion). *)
Definition ListIsGreaterEqualThanOther (list1 list2 : list string) : bool :=
  forallb (fun name => existsb (String.eqb name) list1) list2.

(** ** Field updates of rows *)

Definition taskWithState (st : Z) (t : ACMETask) : ACMETask :=
  mkACMETask (tId t) (tAdminId t) (tUserId t) (tIsOn t) (tAcmeUserId t)
    (tDnsProviderId t) (tDnsDomain t) (tDomains t) (tCreatedAt t) st
    (tStatus t) (tCertId t) (tAutoRenew t) (tAuthType t) (tAuthURL t) (tAsync t).

Definition taskWithStatus (status : Z) (t : ACMETask) : ACMETask :=
  mkACMETask (tId t) (tAdminId t) (tUserId t) (tIsOn t) (tAcmeUserId t)
    (tDnsProviderId t) (tDnsDomain t) (tDomains t) (tCreatedAt t) (tState t)
    status (tCertId t) (tAutoRenew t) (tAuthType t) (tAuthURL t) (tAsync t).

Definition taskWithCertId (certId : Z) (t : ACMETask) : ACMETask :=
  mkACMETask (tId t) (tAdminId t) (tUserId t) (tIsOn t) (tAcmeUserId t)
    (tDnsProviderId t) (tDnsDomain t) (tDomains t) (tCreatedAt t) (tState t)
    (tStatus t) certId (tAutoRenew t) (tAuthType t) (tAuthURL t) (tAsync t).

Definition taskWithSettings (acmeUserId dnsProviderId : Z) (dnsDomain domains : string)
    (autoRenew : bool) (authURL : string) (t : ACMETask) : ACMETask :=
  mkACMETask (tId t) (tAdminId t) (tUserId t) (tIsOn t) acmeUserId
    dnsProviderId dnsDomain domains (tCreatedAt t) (tState t)
    (tStatus t) (tCertId t) autoRenew (tAuthType t) authURL (tAsync t).

Definition certWithState (st : Z) (c : SSLCert) : SSLCert :=
  mkSSLCert (cId c) (cAdminId c) (cUserId c) st (cIsOn c) (cName c)
    (cDescription c) (cServerName c) (cIsCA c) (cCertData c) (cKeyData c)
    (cTimeBeginAt c) (cTimeEndAt c) (cDNSNames c) (cCommonNames c) (cAcmeTaskId c).

Definition certWithAcmeTaskId (taskId : Z) (c : SSLCert) : SSLCert :=
  mkSSLCert (cId c) (cAdminId c) (cUserId c) (cState c) (cIsOn c) (cName c)
    (cDescription c) (cServerName c) (cIsCA c) (cCertData c) (cKeyData c)
    (cTimeBeginAt c) (cTimeEndAt c) (cDNSNames c) (cCommonNames c) taskId.

Definition certWithMaterial (isOn : bool) (name description serverName : string)
    (isCA : bool) (certData keyData : string) (timeBeginAt timeEndAt : Z)
    (dnsNames commonNames : list string) (c : SSLCert) : SSLCert :=
  mkSSLCert (cId c) (cAdminId c) (cUserId c) (cState c) isOn name
    description serverName isCA certData keyData
    timeBeginAt timeEndAt dnsNames commonNames (cAcmeTaskId c).

Definition userWithProviderCode (code : string) (u : ACMEUser) : ACMEUser :=
  mkACMEUser (auId u) (auEmail u) (auPrivateKey u) (auRegistration u) code (auAccountId u).

Definition httpsWithPolicyRef (ref : SSLPolicyRef) (h : HTTPSProtocolConfig) : HTTPSProtocolConfig :=
  mkHTTPSProtocolConfig (hIsOn h) (hSettings h) (Some ref).

Definition serverWithHttps (h : HTTPSProtocolConfig) (s : Server) : Server :=
  mkServer (sId s) (sUserId s) (sPlainServerNames s) (Some h).

(** The result of running a function to its end. *)
Inductive Outcome (A : Type) : Type :=
| Returned (a : A)
| Panicked (msg : string).
Arguments Returned {A} a.
Arguments Panicked {A} msg.

Definition exec {A} (p : Proc A A) (w : World) : Outcome A * World :=
  match p w with
  | (Next a, w') => (Returned a, w')
  | (Exit a, w') => (Returned a, w')
  | (Panic m, w') => (Panicked m, w')
  end.

(** [(isOk, errMsg, resultCertId)] *)
Definition RunResult : Type := bool * string * Z.

Section Engine.

Variable E : Env.

(** ** Storage calls on other tables *)

(** Modelled from the spec: [ACMETaskLogDAO.CreateACMETaskLog] appends one
    TaskLog row (success flag and message) for the task. *)
Definition CreateACMETaskLog {R} (taskId : Z) (isOk : bool) (errMsg : string)
    : Proc R (option string) :=
  match fault E (SCreateACMETaskLog taskId) with
  | Some e => ret (Some e)
  | None =>
      modify (setTaskLogs (fun l => l ++ [mkACMETaskLog taskId isOk errMsg])) ;;;
      ret None
  end.

(** Modelled from the spec: [ACMEAuthenticationDAO.CreateAuth] persists one
    AuthenticationRecord (token and expected response) for the domain. *)
Definition CreateAuth {R} (taskId : Z) (domain token key : string)
    : Proc R (option string) :=
  match fault E (SCreateAuth taskId domain token) with
  | Some e => ret (Some e)
  | None =>
      modify (setAuths (fun l => l ++ [mkACMEAuthentication taskId domain token key])) ;;;
      ret None
  end.

(** Modelled from the spec: [SSLCertDAO.FindEnabledSSLCert] finds the
    certificate row by identity among the enabled rows. *)
Definition FindEnabledSSLCert {R} (certId : Z) : Proc R (Result (option SSLCert)) :=
  match fault E (SFindEnabledSSLCert certId) with
  | Some e => ret (Err e)
  | None =>
      gets (fun w =>
        match sslCerts w !! certId with
        | Some c => if cState c =? SSLCertStateEnabled then Ok (Some c) else Ok None
        | None => Ok None
        end)
  end.

(** Modelled from the spec: [SSLCertDAO.UpdateCert] updates the certificate
    in place (same identity, new material, validity window and names). *)
Definition UpdateCert {R} (certId : Z) (isOn : bool) (name description serverName : string)
    (isCA : bool) (certData keyData : string) (timeBeginAt timeEndAt : Z)
    (dnsNames commonNames : list string) : Proc R (option string) :=
  match fault E (SUpdateCert certId) with
  | Some e => ret (Some e)
  | None =>
      modify (setCerts (alter (certWithMaterial isOn name description serverName isCA
                                  certData keyData timeBeginAt timeEndAt dnsNames commonNames)
                               certId)) ;;;
      ret None
  end.

(** Modelled from the spec: [SSLCertDAO.CreateCert] creates a new enabled
    certificate row and returns its id ([Err] stands for [(0, err)]). *)
Definition CreateCert {R} (adminId userId : Z) (isOn : bool) (name description serverName : string)
    (isCA : bool) (certData keyData : string) (timeBeginAt timeEndAt : Z)
    (dnsNames commonNames : list string) : Proc R (Result Z) :=
  match fault E SCreateCert with
  | Some e => ret (Err e)
  | None =>
      id <- gets (fun w => nextId (sslCerts w)) ;;
      modify (setCerts (insert id
        (mkSSLCert id adminId userId SSLCertStateEnabled isOn name description serverName
           isCA certData keyData timeBeginAt timeEndAt dnsNames commonNames 0))) ;;;
      ret (Ok id)
  end.

(** Modelled from the spec: [SSLCertDAO.UpdateCertACME] records in the
    certificate the task that produced it. *)
Definition UpdateCertACME {R} (certId acmeTaskId : Z) : Proc R (option string) :=
  match fault E (SUpdateCertACME certId) with
  | Some e => ret (Some e)
  | None => modify (setCerts (alter (certWithAcmeTaskId acmeTaskId) certId)) ;;; ret None
  end.

(** Modelled from the spec: [SSLCertDAO.DisableSSLCert] disables the
    certificate row. *)
Definition DisableSSLCert {R} (certId : Z) : Proc R (option string) :=
  match fault E (SDisableSSLCert certId) with
  | Some e => ret (Some e)
  | None => modify (setCerts (alter (certWithState SSLCertStateDisabled) certId)) ;;; ret None
  end.

(** Modelled from the spec: [ServerDAO.FindUserServerByServerName] returns
    every host whose configured server names match the domain. *)
Definition FindUserServerByServerName {R} (domain : string) : Proc R (Result (list Server)) :=
  match fault E (SFindUserServerByServerName domain) with
  | Some e => ret (Err e)
  | None =>
      gets (fun w =>
        Ok (filter (fun s => serverNameMatches E domain s = true)
                   ((map_to_list (servers w)).*2)))
  end.

(** Modelled from the spec: [ServerDAO.UpdateServerHTTPS] stores the HTTPS
    configuration of the host. *)
Definition UpdateServerHTTPS {R} (serverId : Z) (https : HTTPSProtocolConfig)
    : Proc R (option string) :=
  match fault E (SUpdateServerHTTPS serverId) with
  | Some e => ret (Some e)
  | None => modify (setServers (alter (serverWithHttps https) serverId)) ;;; ret None
  end.

(** [sslconfigs.SSLPolicy] as far as the binding code reads it. *)
Record SSLPolicyConfig := mkSSLPolicyConfig {
  pcId : Z;
  pcCerts : list SSLCert
}.

(** Modelled from the spec: [SSLPolicyDAO.FindEnabledSSLPolicy] finds the
    policy row by identity among the enabled rows. *)
Definition FindEnabledSSLPolicy {R} (policyId : Z) : Proc R (Result (option SSLPolicy)) :=
  match fault E (SFindEnabledSSLPolicy policyId) with
  | Some e => ret (Err e)
  | None =>
      gets (fun w =>
        match sslPolicies w !! policyId with
        | Some p => if pState p =? SSLPolicyStateEnabled then Ok (Some p) else Ok None
        | None => Ok None
        end)
  end.

Definition enabledCert (w : World) (certId : Z) : option SSLCert :=
  match sslCerts w !! certId with
  | Some c => if cState c =? SSLCertStateEnabled then Some c else None
  | None => None
  end.

(** Modelled from the spec: [SSLPolicyDAO.ComposePolicyConfig] enumerates
    the policy's current certificate references: the enabled certificates
    its reference list names, in the order of the list. *)
Definition ComposePolicyConfig {R} (policyId : Z) : Proc R (Result (option SSLPolicyConfig)) :=
  match fault E (SComposePolicyConfig policyId) with
  | Some e => ret (Err e)
  | None =>
      gets (fun w =>
        match sslPolicies w !! policyId with
        | Some p =>
            if pState p =? SSLPolicyStateEnabled
            then Ok (Some (mkSSLPolicyConfig (pId p)
                             (omap (fun ref => enabledCert w (refCertId ref)) (pCerts p))))
            else Ok None
        | None => Ok None
        end)
  end.

(** Modelled from the spec: [SSLPolicyDAO.CreatePolicy] creates a new
    policy row with the settings it is given and returns its id. *)
Definition CreatePolicy {R} (adminId userId : Z) (http2Enabled http3Enabled : bool)
    (minVersion : string) (certs : list SSLCertRef) (hsts : string) (ocspIsOn : bool)
    (clientAuthType : Z) (clientCACerts : string) (cipherSuitesIsOn : bool)
    (cipherSuites : list string) : Proc R (Result Z) :=
  match fault E (SCreatePolicy userId) with
  | Some e => ret (Err e)
  | None =>
      id <- gets (fun w => nextId (sslPolicies w)) ;;
      modify (setPolicies (insert id
        (mkSSLPolicy id adminId userId SSLPolicyStateEnabled http2Enabled http3Enabled
           minVersion certs hsts (if ocspIsOn then 1 else 0) clientAuthType clientCACerts
           (if cipherSuitesIsOn then 1 else 0) cipherSuites))) ;;;
      ret (Ok id)
  end.

Definition policyWithUpdate (u : PolicyUpdate) (p : SSLPolicy) : SSLPolicy :=
  mkSSLPolicy (pId p) (pAdminId p) (pUserId p) (pState p) (uHttp2Enabled u) (uHttp3Enabled u)
    (uMinVersion u) (uCerts u) (uHsts u) (if uOcspIsOn u then 1 else 0) (uClientAuthType u)
    (uClientCACerts u) (if uCipherSuitesIsOn u then 1 else 0) (uCipherSuites u).

(** Modelled from the spec: [SSLPolicyDAO.UpdatePolicy] updates the policy
    in place with the settings it is given. Every call is recorded in
    [policyUpdates] with its arguments. *)
Definition UpdatePolicy {R} (u : PolicyUpdate) : Proc R (option string) :=
  modify (setPolicyUpdates (fun l => l ++ [u])) ;;;
  match fault E (SUpdatePolicy (uPolicyId u)) with
  | Some e => ret (Some e)
  | None => modify (setPolicies (alter (policyWithUpdate u) (uPolicyId u))) ;;; ret None
  end.

(** ** The task store: [ACMETaskDAO] *)

(** EnableACMETask *)
Definition EnableACMETask {R} (id : Z) : Proc R (option string) :=
  match fault E (SEnableACMETask id) with
  | Some e => ret (Some e)
  | None => modify (setTasks (alter (taskWithState ACMETaskStateEnabled) id)) ;;; ret None
  end.

(** DisableACMETask *)
Definition DisableACMETask {R} (id : Z) : Proc R (option string) :=
  match fault E (SDisableACMETask id) with
  | Some e => ret (Some e)
  | None => modify (setTasks (alter (taskWithState ACMETaskStateDisabled) id)) ;;; ret None
  end.

(** FindEnabledACMETask *)
Definition FindEnabledACMETask {R} (id : Z) : Proc R (Result (option ACMETask)) :=
  match fault E (SFindEnabledACMETask id) with
  | Some e => ret (Err e)
  | None =>
      gets (fun w =>
        match acmeTasks w !! id with
        | Some t => if tState t =? ACMETaskStateEnabled then Ok (Some t) else Ok None
        | None => Ok None
        end)
  end.

(** DisableAllTasksWithCertId *)
Definition DisableAllTasksWithCertId {R} (certId : Z) : Proc R (option string) :=
  match fault E (SDisableAllTasksWithCertId certId) with
  | Some e => ret (Some e)
  | None =>
      modify (setTasks (fmap (fun t =>
        if tCertId t =? certId then taskWithState ACMETaskStateDisabled t else t))) ;;;
      ret None
  end.

(** CreateACMETask; [Err e] stands for the result [(0, err)]. The operator
    sets the listed columns; status and certificate reference keep the
    column default 0. *)
Definition CreateACMETask (adminId userId : Z) (authType : string)
    (acmeUserId dnsProviderId : Z) (dnsDomain : string) (domains : list string)
    (autoRenew : bool) (authURL : string) (async : bool) : Proc (Result Z) (Result Z) :=
  opDomains <-
    (if (0 <? Z.of_nat (length domains)) then
       orExit (jsonMarshalStrings E domains) (fun e => Err e)
     else ret "[]") ;;
  exitIfErr (fault E SCreateACMETask) (fun e => Err e) ;;;
  id <- gets (fun w => nextId (acmeTasks w)) ;;
  modify (setTasks (insert id
    (mkACMETask id adminId userId true acmeUserId dnsProviderId dnsDomain opDomains
       (insertCreatedAt E) ACMETaskStateEnabled 0 0 autoRenew authType authURL async))) ;;;
  ret (Ok id).

(** UpdateACMETask *)
Definition UpdateACMETask (acmeTaskId acmeUserId dnsProviderId : Z) (dnsDomain : string)
    (domains : list string) (autoRenew : bool) (authURL : string)
    : Proc (option string) (option string) :=
  exitIf (acmeTaskId <=? 0) (Some "invalid acmeTaskId") ;;;
  opDomains <-
    (if (0 <? Z.of_nat (length domains)) then
       orExit (jsonMarshalStrings E domains) (fun e => Some e)
     else ret "[]") ;;
  exitIfErr (fault E (SUpdateACMETask acmeTaskId)) (fun e => Some e) ;;;
  modify (setTasks (alter (taskWithSettings acmeUserId dnsProviderId dnsDomain opDomains
                             autoRenew authURL) acmeTaskId)) ;;;
  ret None.

(** UpdateACMETaskCert *)
Definition UpdateACMETaskCert (taskId certId : Z) : Proc (option string) (option string) :=
  exitIf (taskId <=? 0) (Some "invalid taskId") ;;;
  exitIfErr (fault E (SUpdateACMETaskCert taskId certId)) (fun e => Some e) ;;;
  modify (setTasks (alter (taskWithCertId certId) taskId)) ;;;
  ret None.

(** UpdateStatus *)
Definition UpdateStatus {R} (id status : Z) : Proc R (option string) :=
  match fault E (SUpdateStatus id status) with
  | Some e => ret (Some e)
  | None => modify (setTasks (alter (taskWithStatus status) id)) ;;; ret None
  end.

(** ** Running a task *)

(** The per-domain authorization callback handed to [acmeRequest.OnAuth].
    [http.NewRequest] yields a nil request together with its error, and the
    two [req.Header.Set] calls come before the error is looked at. *)
Definition OnAuth (taskId : Z) (task : ACMETask) (ev : AuthEvent) : Proc unit unit :=
  err <- CreateAuth taskId (evDomain ev) (evToken ev) (evKeyAuth ev) ;;
  match err with
  | Some e => logError ("write authentication to database error: " +:+ e)
  | None =>
      if negb (strEmpty (tAuthURL task)) then
        match fault E (SMarshalAuth (evDomain ev) (evToken ev)) with
        | Some _ => logError ("encode auth data failed: '" +:+ tAuthURL task +:+ "'")
        | None =>
            match httpNewRequest E (tAuthURL task) with
            | Some _ => panic "nil pointer dereference: req.Header"
            | None =>
                modify (setWebhookPosts (fun l =>
                  l ++ [mkWebhookPost (tAuthURL task) (evDomain ev) (evToken ev) (evKeyAuth ev)])) ;;;
                match fault E (SHttpDo (tAuthURL task) (evDomain ev) (evToken ev)) with
                | Some e =>
                    logError ("call auth url failed '" +:+ tAuthURL task +:+ "': " +:+ e)
                | None => ret tt
                end
            end
        end
      else ret tt
  end.

(** [acmeRequest.Run()]: the client is invoked (recorded in [acmeRuns]),
    calls back once per challenge the authority issues, and returns the
    certificate and key, or an error. *)
Definition acmeRequestRun (taskId : Z) (task : ACMETask) (req : ACMERequest)
    : Proc RunResult (Result (string * string)) :=
  modify (setAcmeRuns (fun l => l ++ [taskId])) ;;;
  forEach (fst (acmeRun E req)) (OnAuth taskId task) ;;;
  ret (snd (acmeRun E req)).

(** runTaskWithoutLog, lines 325-348: load the task, check it, mark it
    running. *)
Definition runTaskLoad (taskId : Z) : Proc RunResult ACMETask :=
  r <- FindEnabledACMETask taskId ;;
  task <- orExit r (fun e => (false, "查询任务信息时出错：" +:+ e, 0)) ;;
  task <- someOrExit task (false, "找不到要执行的任务", 0) ;;
  exitIf (negb (tIsOn task)) (false, "任务没有启用", 0) ;;;
  exitIf (tStatus task =? ACMETaskStatusDone) (false, "任务已完成", 0) ;;;
  err <- UpdateStatus taskId ACMETaskStatusRunning ;;
  logIfErr err ;;;
  ret task.

(** runTaskWithoutLog, lines 350-464: account, provider and the request.
    [SetMinTTL] configures the DNS client and has no result; it is left
    out. *)
Definition runTaskPrepare (task : ACMETask) (randomAcmeAccount : bool)
    : Proc RunResult ACMERequest :=
  user <- orExit (FindEnabledACMEUser E (int64 (tAcmeUserId task)))
            (fun e => (false, "查询ACME用户时出错：" +:+ e, 0)) ;;
  user <- someOrExit user (false, "找不到ACME用户", 0) ;;
  user <- ret (if strEmpty (auProviderCode user)
               then userWithProviderCode (DefaultProviderCode E) user else user) ;;
  user <- (if randomAcmeAccount
           then someOrExit (FindRandomACMEUserWithSameProvider E (auProviderCode user))
                  (false, "找不到ACME用户", 0)
           else ret user) ;;
  acmeProvider <- someOrExit (FindProviderWithCode E (auProviderCode user))
                    (false, "服务商已不可用", 0) ;;
  acmeAccount <-
    (if 0 <? auAccountId user then
       account <- orExit (FindEnabledACMEProviderAccount E (int64 (auAccountId user)))
                    (fun e => (false, "查询ACME账号时出错：" +:+ e, 0)) ;;
       ret (match account with
            | Some a => Some (mkAccount (paEabKid a) (paEabKey a))
            | None => None
            end)
     else ret None) ;;
  privateKey <- orExit (ParsePrivateKeyFromBase64 E (auPrivateKey user))
                  (fun e => (false, "解析私钥时出错：" +:+ e, 0)) ;;
  (if negb (strEmpty (auRegistration user))
   then exitIfErr (SetRegistration E (auRegistration user))
          (fun e => (false, "设置注册信息时出错：" +:+ e, 0))
   else ret tt) ;;;
  acmeTask <-
    (if String.eqb (tAuthType task) AuthTypeDNS then
       dnsProvider <- orExit (FindEnabledDNSProvider E (int64 (tDnsProviderId task)))
                        (fun e => (false, "查找DNS服务商账号信息时出错：" +:+ e, 0)) ;;
       dnsProvider <- someOrExit dnsProvider (false, "找不到DNS服务商账号", 0) ;;
       exitIf (negb (FindProvider E (dpType dnsProvider) (int64 (dpId dnsProvider))))
         (false, "暂不支持此类型的DNS服务商 '" +:+ dpType dnsProvider +:+ "'", 0) ;;;
       apiParams <- orExit (DecodeAPIParams E dnsProvider)
                      (fun e => (false, "解析DNS服务商API参数时出错：" +:+ e, 0)) ;;
       exitIfErr (Auth E dnsProvider apiParams)
         (fun e => (false, "校验DNS服务商API参数时出错：" +:+ e, 0)) ;;;
       ret (Some (mkACMERequest (auEmail user) privateKey (auRegistration user) AuthTypeDNS
                    (Some dnsProvider) (tDnsDomain task) (tDomains task) "" None))
     else if String.eqb (tAuthType task) AuthTypeHTTP then
       ret (Some (mkACMERequest (auEmail user) privateKey (auRegistration user) AuthTypeHTTP
                    None "" (tDomains task) "" None))
     else ret None) ;;
  match acmeTask with
  | None => panic "nil pointer dereference: acmeTask.Provider"
  | Some t =>
      ret (mkACMERequest (rqEmail t) (rqPrivateKey t) (rqRegistration t) (rqAuthType t)
             (rqDNSProvider t) (rqDNSDomain t) (rqDomains t) acmeProvider acmeAccount)
  end.

(** runTaskWithoutLog, lines 517-565: save the certificate. *)
Definition runTaskSave (taskId : Z) (task : ACMETask) (certData keyData : string)
    (sslConfig : CertInfo) : Proc RunResult RunResult :=
  let resultCertId := int64 (tCertId task) in
  if 0 <? resultCertId then
    r <- FindEnabledSSLCert resultCertId ;;
    cert <- orExit r (fun e =>
              (false, "证书生成成功，但查询已绑定的证书时出错：" +:+ e, resultCertId)) ;;
    match cert with
    | None =>
        err <- DisableACMETask taskId ;;
        exit (false,
              match err with
              | Some e => "禁用失效的ACME任务出错：" +:+ e
              | None => "证书已被管理员或用户删除"
              end,
              resultCertId)
    | Some cert =>
        err <- UpdateCert resultCertId (cIsOn cert) (cName cert) (cDescription cert)
                 (cServerName cert) (cIsCA cert) certData keyData
                 (ciTimeBeginAt sslConfig) (ciTimeEndAt sslConfig)
                 (ciDNSNames sslConfig) (ciCommonNames sslConfig) ;;
        exitIfErr err (fun e =>
          (false, "证书生成成功，但是修改数据库中的证书信息时出错：" +:+ e, resultCertId)) ;;;
        ret (true, "", resultCertId)
    end
  else
    r <- CreateCert (int64 (tAdminId task)) (int64 (tUserId task)) true
           (tDnsDomain task +:+ "免费证书") "免费申请的证书" "" false certData keyData
           (ciTimeBeginAt sslConfig) (ciTimeEndAt sslConfig)
           (ciDNSNames sslConfig) (ciCommonNames sslConfig) ;;
    resultCertId <- orExit r (fun e =>
                      (false, "证书生成成功，但是保存到数据库失败：" +:+ e, 0)) ;;
    err <- UpdateCertACME resultCertId (int64 (tId task)) ;;
    exitIfErr err (fun e =>
      (false, "证书生成成功，修改证书ACME信息时出错：" +:+ e, resultCertId)) ;;;
    err <- call (UpdateACMETaskCert taskId resultCertId) ;;
    exitIfErr err (fun e =>
      (false, "证书生成成功，设置任务关联的证书时出错：" +:+ e, resultCertId)) ;;;
    ret (true, "", resultCertId).

(** runTaskWithoutLog, lines 350-565: everything after the task is marked
    running. *)
Definition runTaskIssue (taskId : Z) (randomAcmeAccount : bool) (task : ACMETask)
    : Proc RunResult RunResult :=
  req <- runTaskPrepare task randomAcmeAccount ;;
  r <- acmeRequestRun taskId task req ;;
  material <- orExit r (fun e => (false, "证书生成失败：" +:+ e, 0)) ;;
  sslConfig <- orExit (sslConfigInit E (fst material) (snd material))
                 (fun e => (false, "证书生成成功，但是分析证书信息时发生错误：" +:+ e, 0)) ;;
  runTaskSave taskId task (fst material) (snd material) sslConfig.

(** runTaskWithoutLog *)
Definition runTaskWithoutLog (taskId : Z) (randomAcmeAccount : bool)
    : Proc RunResult RunResult :=
  task <- runTaskLoad taskId ;;
  runTaskIssue taskId randomAcmeAccount task.

(** RunTask *)
Definition RunTask (taskId : Z) : Proc RunResult RunResult :=
  r <- call (runTaskWithoutLog taskId false) ;;
  err <- CreateACMETaskLog taskId (fst (fst r)) (snd (fst r)) ;;
  logIfErr err ;;;
  ret r.

(** ** The scheduling query *)

(** The query compares two renderings to the minute as text:
    [FROM_UNIXTIME(createdAt, "%Y-%m-%d %H:%i")], of the column (seconds) in
    the time zone of the session, and [Format("2006-01-02 15:04")], of the
    clock (nanoseconds) in UTC. For four-digit years the order of the texts
    is the order of the minute numbers, which is what is compared here. *)
Definition minuteOfSeconds (zone t : Z) : Z := (t + zone) / 60.
Definition minuteOfNanos (t : Z) : Z := t / 60000000000.

(** [time.Now().UTC().Add(-time.Duration(hour) * time.Hour)], [now] being
    the clock in nanoseconds since the epoch. *)
Definition hoursAgo (now hour : Z) : Z :=
  now + int64 (int64 (- hour) * 3600000000000).

(** The conditions of FindIssueACMETask on the row [t] with key [id]. *)
Definition issuable (zone now hour : Z) (excludeTasks : list Z) (id : Z) (t : ACMETask) : bool :=
  tIsOn t && tAsync t && (tState t =? ACMETaskStateEnabled)
  && (minuteOfNanos (hoursAgo now hour) <? minuteOfSeconds zone (tCreatedAt t))
  && (tCertId t =? 0)
  && negb (existsb (Z.eqb id) excludeTasks).

(** [AscPk()]: rows in ascending order of the key. *)
Definition pkLe (a b : Z * ACMETask) : Prop := a.1 <= b.1.

#[local] Instance pkLe_dec (a b : Z * ACMETask) : Decision (pkLe a b) :=
  Z_le_dec a.1 b.1.

(** FindIssueACMETask; [now] is the clock the function reads. [Limit] keeps
    the first [limit] rows (none for a limit below 1). *)
Definition FindIssueACMETask {R} (now hour limit : Z) (excludeTasks : list Z)
    : Proc R (Result (list ACMETask)) :=
  let excludeTasks := if (length excludeTasks =? 0)%nat then excludeTasks ++ [0] else excludeTasks in
  match fault E SFindIssueACMETask with
  | Some e => ret (Err e)
  | None =>
      gets (fun w =>
        Ok ((take (Z.to_nat limit)
               (merge_sort pkLe
                  (filter (fun kt => issuable (sessionTimeZone E) now hour excludeTasks kt.1 kt.2 = true)
                     (map_to_list (acmeTasks w))))).*2))
  end.

(** ** Issuing and binding to the hosts *)

Record ServerInfo := mkServerInfo {
  SSLPolicyId : Z;
  CertIds : list Z;
  UserId : Z;
  TlsConfig : HTTPSProtocolConfig
}.

(** The supersession test of line 678, for a prior certificate [cert]. *)
Definition superseded (domains : list string) (newCert : SSLCert) (cert : SSLCert) : bool :=
  ListIsGreaterEqualThanOther domains (cDNSNames cert)
  && (cTimeEndAt cert <? int64 (cTimeEndAt newCert)).

(** Lines 676-686: one prior certificate of the policy. [newCert] is nil
    when the new certificate was not found enabled; it is dereferenced only
    after the coverage test succeeded. *)
Definition mergeCert (domains : list string) (newCert : option SSLCert)
    (cert : SSLCert) (certIds : list Z) : Proc (list Z) (list Z) :=
  (if ListIsGreaterEqualThanOther domains (cDNSNames cert) then
     match newCert with
     | None => panic "nil pointer dereference: newCert.TimeEndAt"
     | Some nc =>
         if cTimeEndAt cert <? int64 (cTimeEndAt nc) then
           err <- DisableSSLCert (cId cert) ;;
           logIfErr err ;;;
           exit certIds
         else ret tt
     end
   else ret tt) ;;;
  ret (certIds ++ [cId cert]).

(** Lines 675-687: the reference list collected for a host with a policy. *)
Definition mergeCerts {R} (domains : list string) (newCert : option SSLCert)
    (resultCertId : Z) (certs : list SSLCert) : Proc R (list Z) :=
  certIds <- foldEach certs [] (mergeCert domains newCert) ;;
  ret (certIds ++ [resultCertId]).

(** The local variables of the scan: [serverMap] and [domainChecked]. *)
Definition ScanState : Type := gmap Z ServerInfo * gset string.

(** Lines 656-697: one host found for a domain. *)
Definition scanServer (domains : list string) (newCert : option SSLCert)
    (resultCertId : Z) (server : Server) (st : ScanState) : Proc ScanState ScanState :=
  serverNames <- someOrExit (sPlainServerNames server) st ;;
  let st := (st.1, st.2 ∪ list_to_set serverNames) in
  tlsConfig <- someOrExit (sHttps server) st ;;
  match hSSLPolicyRef tlsConfig with
  | Some ref =>
      r <- ComposePolicyConfig (prSSLPolicyId ref) ;;
      match r with
      | Err _ => exit st
      | Ok (Some sslPolicyConfig) =>
          certIds <- mergeCerts domains newCert resultCertId (pcCerts sslPolicyConfig) ;;
          exit (<[int64 (sId server) :=
                    mkServerInfo (pcId sslPolicyConfig) certIds (int64 (sUserId server))
                      tlsConfig]> (st.1), st.2)
      | Ok None => ret tt
      end
  | None => ret tt
  end ;;;
  ret (<[int64 (sId server) :=
           mkServerInfo 0 [resultCertId] (int64 (sUserId server)) tlsConfig]> (st.1), st.2).

(** Lines 648-698: one of the domains. *)
Definition scanDomain (domains : list string) (newCert : option SSLCert)
    (resultCertId : Z) (domain : string) (st : ScanState) : Proc ScanState ScanState :=
  exitIf (bool_decide (domain ∈ st.2)) st ;;;
  r <- FindUserServerByServerName domain ;;
  match r with
  | Err _ => exit st
  | Ok found => foldEach found st (scanServer domains newCert resultCertId)
  end.

(** Lines 701-711: the reference list without repeated ids. *)
Fixpoint composeCertRefs (certIds : list Z) (certExists : gset Z)
    (certRefs : list SSLCertRef) : list SSLCertRef :=
  match certIds with
  | [] => certRefs
  | certId :: rest =>
      if bool_decide (certId ∈ certExists)
      then composeCertRefs rest certExists certRefs
      else composeCertRefs rest ({[certId]} ∪ certExists)
             (certRefs ++ [mkSSLCertRef true certId])
  end.

(** Lines 700-753: one entry of [serverMap]. *)
Definition bindServer (serverId : Z) (serverInfo : ServerInfo) : Proc unit unit :=
  let certRefs := composeCertRefs (CertIds serverInfo) ∅ [] in
  match fault E (SMarshalCertRefs serverId) with
  | Some e => logError ("解析证书错误：" +:+ e) ;;; exit tt
  | None => ret tt
  end ;;;
  if SSLPolicyId serverInfo =? 0 then
    r <- CreatePolicy 0 (UserId serverInfo) false false "TLS 1.1" certRefs
           "" false 0 "" false [] ;;
    match r with
    | Err e => logError ("创建SSL策略错误：" +:+ e) ;;; exit tt
    | Ok policyId =>
        let httpsConfig :=
          httpsWithPolicyRef (mkSSLPolicyRef true policyId) (TlsConfig serverInfo) in
        match fault E (SMarshalHTTPS serverId) with
        | Some e => logError ("获取https信息错误：" +:+ e) ;;; exit tt
        | None => ret tt
        end ;;;
        _ <- UpdateServerHTTPS serverId httpsConfig ;;
        ret tt
    end
  else
    r <- FindEnabledSSLPolicy (SSLPolicyId serverInfo) ;;
    match r with
    | Err e => logError ("获取SSL策略错误：" +:+ e) ;;; exit tt
    | Ok None => panic "nil pointer dereference: policy.Http2Enabled"
    | Ok (Some policy) =>
        err <- UpdatePolicy
                 (mkPolicyUpdate (SSLPolicyId serverInfo) (pHttp2Enabled policy)
                    (pHttp3Enabled policy) (pMinVersion policy) certRefs (pHsts policy)
                    (pOcspIsOn policy =? 1) (int32 (pClientAuthType policy))
                    (pClientCACerts policy) (pCipherSuitesIsOn policy =? 1) []) ;;
        match err with
        | Some e => logError ("更新SSL策略错误：" +:+ e) ;;; exit tt
        | None => ret tt
        end
    end.

(** RunTaskAndAutoBindServer, lines 628-754: binding the new certificate
    to the hosts of the domains. The mutex held meanwhile is not modelled:
    an invocation runs this part in one piece. Go leaves the order of the
    last loop over [serverMap] open; it is the order of [map_to_list] here. *)
Definition bindHosts (domains : list string) (resultCertId : Z) : Proc unit unit :=
  r <- FindEnabledSSLCert resultCertId ;;
  match r with
  | Err e => logError e ;;; exit tt
  | Ok newCert =>
      st <- foldEach domains (∅, ∅) (scanDomain domains newCert resultCertId) ;;
      forEach (map_to_list st.1) (fun kv => bindServer kv.1 kv.2)
  end.

(** RunTaskAndAutoBindServer, lines 613-754: the final status, then the
    binding. *)
Definition autoBindSettle (taskId : Z) (domains : list string) (r : RunResult)
    : Proc (bool * string) (bool * string) :=
  let '(isOk, errMsg, resultCertId) := r in
  (if negb isOk then
     err <- UpdateStatus taskId ACMETaskStatusIssueFailed ;;
     logIfErr err ;;;
     exit (isOk, errMsg)
   else ret tt) ;;;
  err <- UpdateStatus taskId ACMETaskStatusDone ;;
  logIfErr err ;;;
  call (bindHosts domains resultCertId) ;;;
  ret (isOk, errMsg).

(** RunTaskAndAutoBindServer, lines 608-754: what follows the run. *)
Definition autoBindFinish (taskId : Z) (domains : list string) (r : RunResult)
    : Proc (bool * string) (bool * string) :=
  err <- CreateACMETaskLog taskId (fst (fst r)) (snd (fst r)) ;;
  logIfErr err ;;;
  autoBindSettle taskId domains r.

(** RunTaskAndAutoBindServer *)
Definition RunTaskAndAutoBindServer (taskId : Z) (domains : list string)
    : Proc (bool * string) (bool * string) :=
  ok <- gets (fun w => bool_decide (taskId ∈ runningTaskMap w)) ;;
  exitIf ok (true, "") ;;;
  r <- call (runTaskWithoutLog taskId true) ;;
  autoBindFinish taskId domains r.

End Engine.


(** ** Counting and listing the tasks

    The storage call of each of these functions either fails with an
    error, which the function returns, or runs the query; [err] is that
    error. *)

(** The selection of CountAllEnabledACMETasks and ListEnabledACMETasks by
    owner: the tasks of the user, or with [userId <= 0] the tasks of any
    user ([userOnly]) or the tasks without a user. *)
Definition ownerSelected (userId : Z) (userOnly : bool) (t : ACMETask) : bool :=
  if 0 <? userId then tUserId t =? userId
  else if userOnly then 0 <? tUserId t
  else tUserId t =? 0.

(** [certId IN (SELECT id FROM certificates WHERE ...)] *)
Definition certSatisfies (w : World) (cond : SSLCert -> bool) (t : ACMETask) : bool :=
  match sslCerts w !! tCertId t with
  | Some c => cond c
  | None => false
  end.

(** The selection by certificate; [dbNow] is [UNIX_TIMESTAMP()] of the
    storage, [now] is [time.Now().Unix()] of the caller. *)
Definition certSelected (w : World) (dbNow now : Z) (isAvailable isExpired : bool)
    (expiringDays : Z) (t : ACMETask) : bool :=
  if isAvailable || isExpired || (0 <? expiringDays) then
    (0 <? tCertId t)
    && (if isAvailable
        then certSatisfies w (fun c => (cTimeBeginAt c <=? dbNow) && (dbNow <=? cTimeEndAt c)) t
        else true)
    && (if isExpired then certSatisfies w (fun c => cTimeEndAt c <? dbNow) t else true)
    && (if 0 <? expiringDays
        then certSatisfies w
               (fun c => (dbNow <? cTimeEndAt c)
                         && (cTimeEndAt c <? int64 (now + int64 (expiringDays * 86400)))) t
        else true)
  else true.

(** [domains LIKE :keyword] with the keyword quoted by [dbutils.QuoteLike]
    is [like domains keyword]. *)
Definition keywordSelected (like : string -> string -> bool) (keyword : string)
    (t : ACMETask) : bool :=
  if (0 <? String.length keyword)%nat then like (tDomains t) keyword else true.

(** CountAllEnabledACMETasks; the condition on the keyword is added twice. *)
Definition CountAllEnabledACMETasks (err : option string) (like : string -> string -> bool)
    (dbNow now : Z) (userId : Z) (isAvailable isExpired : bool) (expiringDays : Z)
    (keyword : string) (userOnly : bool) (w : World) : Result Z :=
  match err with
  | Some e => Err e
  | None =>
      Ok (Z.of_nat (length (filter
        (fun kt : Z * ACMETask =>
           ownerSelected userId userOnly kt.2
           && certSelected w dbNow now isAvailable isExpired expiringDays kt.2
           && keywordSelected like keyword kt.2
           && keywordSelected like keyword kt.2
           && (tState kt.2 =? ACMETaskStateEnabled) = true)
        (map_to_list (acmeTasks w)))))
  end.

(** [DescPk()]: rows in descending order of the key. *)
Definition pkGe (a b : Z * ACMETask) : Prop := b.1 <= a.1.

#[local] Instance pkGe_dec (a b : Z * ACMETask) : Decision (pkGe a b) :=
  Z_le_dec b.1 a.1.

(** ListEnabledACMETasks; [Offset] skips the first [offset] rows and
    [Limit] keeps the next [size]. *)
Definition ListEnabledACMETasks (err : option string) (like : string -> string -> bool)
    (dbNow now : Z) (userId : Z) (isAvailable isExpired : bool) (expiringDays : Z)
    (keyword : string) (userOnly : bool) (offset size : Z) (w : World)
    : Result (list ACMETask) :=
  match err with
  | Some e => Err e
  | None =>
      Ok ((take (Z.to_nat size) (drop (Z.to_nat offset)
             (merge_sort pkGe (filter
                (fun kt : Z * ACMETask =>
                   ownerSelected userId userOnly kt.2
                   && certSelected w dbNow now isAvailable isExpired expiringDays kt.2
                   && keywordSelected like keyword kt.2
                   && (tState kt.2 =? ACMETaskStateEnabled) = true)
                (map_to_list (acmeTasks w)))))).*2)
  end.

(** CheckUserACMETask *)
Definition CheckUserACMETask (err : option string) (userId acmeTaskId : Z) (w : World)
    : Result bool :=
  match err with
  | Some e => Err e
  | None =>
      Ok match acmeTasks w !! acmeTaskId with
         | Some t =>
             (if 0 <? userId then tUserId t =? userId else true)
             && (tState t =? ACMETaskStateEnabled)
         | None => false
         end
  end.

(** FindACMETaskUserId; a task that is not found gives 0. *)
Definition FindACMETaskUserId (err : option string) (taskId : Z) (w : World) : Result Z :=
  match err with
  | Some e => Err e
  | None =>
      Ok match acmeTasks w !! taskId with
         | Some t => int64 (tUserId t)
         | None => 0
         end
  end.

(** ** Two invocations of RunTaskAndAutoBindServer at once

    An invocation is cut at its storage calls into four atomic steps: the
    look-up in [runningTaskMap] (line 601), loading and marking the task
    (lines 325-348), the issuance (lines 350-565) and what follows the run
    (lines 608-754). A schedule says which of two invocations takes the next
    step. *)

Inductive Thread : Type :=
| TStart
| TGuarded
| TLoaded (task : ACMETask)
| TRan (r : RunResult)
| TDone (skipped : bool) (res : bool * string)
| TPanicked (msg : string).

Definition stepThread (E : Env) (taskId : Z) (domains : list string)
    (t : Thread) (w : World) : Thread * World :=
  match t with
  | TStart =>
      if bool_decide (taskId ∈ runningTaskMap w)
      then (TDone true (true, ""), w)
      else (TGuarded, w)
  | TGuarded =>
      match runTaskLoad E taskId w with
      | (Next task, w') => (TLoaded task, w')
      | (Exit r, w') => (TRan r, w')
      | (Panic m, w') => (TPanicked m, w')
      end
  | TLoaded task =>
      match exec (runTaskIssue E taskId true task) w with
      | (Returned r, w') => (TRan r, w')
      | (Panicked m, w') => (TPanicked m, w')
      end
  | TRan r =>
      match exec (autoBindFinish E taskId domains r) w with
      | (Returned res, w') => (TDone false res, w')
      | (Panicked m, w') => (TPanicked m, w')
      end
  | TDone _ _ | TPanicked _ => (t, w)
  end.

(** The two invocations, for the same task, and the state they share. *)
Record Pair := mkPair {
  first : Thread;
  second : Thread;
  shared : World
}.

(** [false] lets the first invocation step, [true] the second. *)
Fixpoint runSchedule (E1 E2 : Env) (taskId : Z) (domains : list string)
    (schedule : list bool) (s : Pair) : Pair :=
  match schedule with
  | [] => s
  | false :: rest =>
      let '(t, w) := stepThread E1 taskId domains (first s) (shared s) in
      runSchedule E1 E2 taskId domains rest (mkPair t (second s) w)
  | true :: rest =>
      let '(t, w) := stepThread E2 taskId domains (second s) (shared s) in
      runSchedule E1 E2 taskId domains rest (mkPair (first s) t w)
  end.

(** An invocation went through the whole sequence: it was not skipped. *)
Definition executed (t : Thread) : bool :=
  match t with
  | TDone false _ => true
  | _ => false
  end.

(** An invocation returned at the in-flight check. *)
Definition skipped (t : Thread) : bool :=
  match t with
  | TDone true _ => true
  | _ => false
  end.

(** The four steps of one invocation, one after the other. *)
Definition runAlone (E : Env) (taskId : Z) (domains : list string) (w : World)
    : Thread * World :=
  let '(t1, w1) := stepThread E taskId domains TStart w in
  let '(t2, w2) := stepThread E taskId domains t1 w1 in
  let '(t3, w3) := stepThread E taskId domains t2 w2 in
  stepThread E taskId domains t3 w3.

(** * Running tasks concurrently (package [taskutils])

    [RunConcurrent] fills a buffered channel with the tasks and starts a
    number of goroutines, each of which takes tasks from the channel until
    it finds the channel empty. The goroutines interleave at their channel
    operations: a schedule says which goroutine makes the next [select]. *)

Module taskutils.

Definition DefaultConcurrent : Z := 16.

(** The argument [tasks any]: nil, a value that is not a slice, a slice. *)
Inductive Tasks (A : Type) : Type :=
| NilValue
| NotSlice
| Slice (l : list A).
Arguments NilValue {A}.
Arguments NotSlice {A}.
Arguments Slice {A} l.

(** The number of goroutines started for [countTasks] tasks. *)
Definition workers (concurrent countTasks : Z) : Z :=
  let concurrent := if concurrent <=? 0 then 8 else concurrent in
  if concurrent >? countTasks then countTasks else concurrent.

(** The state while the goroutines run: the content of [taskChan], the
    goroutines that returned (their [wg.Done()] ran), and the calls of [f]
    made so far, each with the goroutine that made it. *)
Record Pool (A : Type) : Type := mkPool {
  taskChan : list A;
  returned : gset nat;
  calls : list (nat * A)
}.
Arguments mkPool {A} taskChan returned calls.
Arguments taskChan {A} p.
Arguments returned {A} p.
Arguments calls {A} p.

Section Run.

Context {A : Type}.

(** One [select] of goroutine [i]: it receives a task and calls [f] on it,
    or finds the channel empty and returns. A goroutine that returned does
    nothing more. [f] is taken to return: what it does with the task and
    the lock is its own. *)
Definition turn (i : nat) (p : Pool A) : Pool A :=
  if bool_decide (i ∈ returned p) then p
  else
    match taskChan p with
    | task :: rest => mkPool rest (returned p) (calls p ++ [(i, task)])
    | [] => mkPool [] ({[i]} ∪ returned p) (calls p)
    end.

(** The goroutines [0 .. n-1] under a schedule; an entry of the schedule
    that names no goroutine is skipped. *)
Definition runPool (n : nat) (schedule : list nat) (p : Pool A) : Pool A :=
  fold_left (fun p i => if (i <? n)%nat then turn i p else p) schedule p.

(** [wg.Wait()] returns once all [n] goroutines returned. *)
Definition waited (n : nat) (p : Pool A) : bool :=
  forallb (fun i => bool_decide (i ∈ returned p)) (seq 0 n).

(** RunConcurrent under a schedule: the error it returns and the calls of
    [f] it made, or [None] when [wg.Wait()] still blocks at the end of the
    schedule. *)
Definition RunConcurrent (tasks : Tasks A) (concurrent : Z) (schedule : list nat)
    : option (option string * list (nat * A)) :=
  match tasks with
  | NilValue => Some (None, [])
  | NotSlice => Some (Some "ony works for slice", [])
  | Slice l =>
      let countTasks := Z.of_nat (length l) in
      if countTasks =? 0 then Some (None, [])
      else
        let n := Z.to_nat (workers concurrent countTasks) in
        let p := runPool n schedule (mkPool l ∅ []) in
        if waited n p then Some (None, calls p) else None
  end.

End Run.

End taskutils.

(** * The registry of caches (package [ttlcache], [Manager])

    The manager keeps the set of the caches registered with it, as a map
    keyed by the pointer to the cache, and on every tick of its ticker
    calls [GC] on each of them. Every method holds the manager's lock from
    its first to its last access, so concurrent calls take effect one
    after the other. *)

Module ttlcache.

(** A [*Cache]: the address of the cache. *)
Definition Cache : Type := positive.

Record Manager := mkManager { cacheMap : gset Cache }.

(** NewManager *)
Definition NewManager : Manager := mkManager ∅.

(** Add *)
Definition Add (cache : Cache) (this : Manager) : Manager :=
  mkManager ({[cache]} ∪ cacheMap this).

(** Remove *)
Definition Remove (cache : Cache) (this : Manager) : Manager :=
  mkManager (cacheMap this ∖ {[cache]}).

(** Count *)
Definition Count (this : Manager) : Z := Z.of_nat (size (cacheMap this)).

(** One tick of [init]: the caches [GC] is called on. Go leaves the order
    of the loop over the map open; it is the order of [elements] here. *)
Definition tick (this : Manager) : list Cache := elements (cacheMap this).

(** A call of Add or Remove, and a sequence of calls in the order in which
    they get the lock. *)
Inductive Call : Type :=
| CallAdd (cache : Cache)
| CallRemove (cache : Cache).

Definition call (this : Manager) (c : Call) : Manager :=
  match c with
  | CallAdd cache => Add cache this
  | CallRemove cache => Remove cache this
  end.

Definition calls (l : list Call) (this : Manager) : Manager := fold_left call l this.

End ttlcache.

(** * The Huawei Cloud DNS client (package [dnsclients], [HuaweiDNSProvider])

    Strings are byte strings, as in Go. What the provider gets from outside
    (the HTTP exchange, the JSON decoder, [url.Parse], the helpers of other
    packages) is the record [Net]. A nil dereference is [Crash]. *)

Module huaweidns.

(** ** The functions of package [strings] the provider uses *)

(** [strings.Index(s, string(c))]: the index of the first byte [c], or -1. *)
Fixpoint Index (s : string) (c : Ascii.ascii) : Z :=
  match s with
  | EmptyString => -1
  | String a rest =>
      if Ascii.eqb a c then 0
      else let i := Index rest c in if i <? 0 then -1 else i + 1
  end.

(** [s[:n]] for [n] within the string. *)
Fixpoint slice (s : string) (n : nat) : string :=
  match n, s with
  | S n', String a rest => String a (slice rest n')
  | _, _ => EmptyString
  end.

(** [strings.TrimLeft(s, string(c))] *)
Fixpoint TrimLeft (s : string) (c : Ascii.ascii) : string :=
  match s with
  | EmptyString => EmptyString
  | String a rest => if Ascii.eqb a c then TrimLeft rest c else s
  end.

(** [strings.TrimRight(s, string(c))] *)
Fixpoint TrimRight (s : string) (c : Ascii.ascii) : string :=
  match s with
  | EmptyString => EmptyString
  | String a rest =>
      match TrimRight rest c with
      | EmptyString => if Ascii.eqb a c then EmptyString else String a EmptyString
      | rest' => String a rest'
      end
  end.

(** [strings.Trim(s, string(c))] *)
Definition Trim (s : string) (c : Ascii.ascii) : string := TrimRight (TrimLeft s c) c.

(** [strings.HasSuffix(s, suffix)] *)
Fixpoint HasSuffix (s suffix : string) : bool :=
  if String.eqb s suffix then true
  else
    match s with
    | EmptyString => false
    | String _ rest => HasSuffix rest suffix
    end.

(** [strings.TrimSuffix(s, suffix)] *)
Fixpoint TrimSuffix (s suffix : string) : string :=
  if String.eqb s suffix then EmptyString
  else
    match s with
    | EmptyString => EmptyString
    | String a rest => String a (TrimSuffix rest suffix)
    end.

(** [types.String] and [strconv.Itoa] of an int: the decimal numeral. *)
Definition itoa (z : Z) : string := NilZero.string_of_int (Z.to_int z).

Definition quoteChar : Ascii.ascii := Ascii.ascii_of_nat 34.
Definition atChar : Ascii.ascii := Ascii.ascii_of_nat 64.
Definition slashChar : Ascii.ascii := Ascii.ascii_of_nat 47.
Definition dotChar : Ascii.ascii := Ascii.ascii_of_nat 46.

(** ** The regular expressions of [Auth] *)

(** [\w] and [-] *)
Definition wordOrDash (c : Ascii.ascii) : bool :=
  let n := Ascii.nat_of_ascii c in
  ((48 <=? n) && (n <=? 57))%nat || ((65 <=? n) && (n <=? 90))%nat
  || ((97 <=? n) && (n <=? 122))%nat || (n =? 95)%nat || (n =? 45)%nat.

Fixpoint allWordOrDash (s : string) : bool :=
  match s with
  | EmptyString => true
  | String a rest => wordOrDash a && allWordOrDash rest
  end.

(** [^[\w-]+$] *)
Definition endpointRegionReg (s : string) : bool :=
  negb (String.eqb s EmptyString) && allWordOrDash s.

(** The labels between the dots of [s], [cur] being the label read so far. *)
Fixpoint labels (s : string) (cur : string) : list string :=
  match s with
  | EmptyString => [cur]
  | String a rest =>
      if Ascii.eqb a dotChar then cur :: labels rest EmptyString
      else labels rest (cur +:+ String a EmptyString)
  end.

(** [^([\w-]+\.)+[\w-]+$]: two or more labels of word characters and
    dashes, none of them empty. *)
Definition endpointDomainReg (s : string) : bool :=
  (2 <=? length (labels s EmptyString))%nat
  && forallb endpointRegionReg (labels s EmptyString).

(** ** Data *)

Inductive Answer (A : Type) : Type :=
| Done (a : A)
| Failure (err : string)
| Crash (msg : string).
Arguments Done {A} a.
Arguments Failure {A} err.
Arguments Crash {A} msg.

(** [huaweidns.Zone], the record sets of the responses, and the fields of
    the responses the provider reads. *)
Record Zone := mkZone { zoneId : string; zoneName : string }.

Record RecordSet := mkRecordSet {
  rsId : string;
  rsName : string;
  rsType : string;
  rsTtl : Z;
  rsRecords : list string;
  rsLine : string
}.

Record Response := mkResponse {
  Zones : list Zone;
  RecordSets : list RecordSet;
  respId : string
}.

(** [dnstypes.Record] *)
Record Record := mkRecord {
  Id : string;
  Name : string;
  Type_ : string;
  Value : string;
  Route : string;
  TTL : Z
}.

Definition withValue (v : string) (r : Record) : Record :=
  mkRecord (Id r) (Name r) (Type_ r) v (Route r) (TTL r).

Definition withId (id : string) (r : Record) : Record :=
  mkRecord id (Name r) (Type_ r) (Value r) (Route r) (TTL r).

(** The [bodyMap] of a call: nil, the empty map, or the record set sent by
    AddRecord and UpdateRecord. *)
Inductive Body : Type :=
| NilBody
| EmptyBody
| RecordSetBody (name description type : string) (records : list string)
    (line : string) (ttl : Z).

(** The provider: the fields [Auth] sets; [regs] tells whether the two
    regular expressions are compiled (not nil). *)
Record Provider := mkProvider {
  accessKeyId : string;
  accessKeySecret : string;
  endpoint : string;
  regs : bool
}.

(** What comes from outside: [url.Parse] (its error); the HTTP exchange of
    a request, given the provider, the method, the URL, the path, the
    arguments and the body (marshalling the body, signing, sending,
    reading: an error, or the status code and the data); [json.Unmarshal]
    into the response; [types.Int32], [BaseProvider.WrapError] and
    [dnstypes.RecordTypeTXT]. *)
Record Net := mkNet {
  urlParse : string -> option string;
  exchange : Provider -> string -> string -> string -> list (string * string) -> Body
             -> Result (Z * string);
  unmarshal : string -> Result Response;
  Int32 : Z -> Z;
  WrapError : string -> string -> Record -> string;
  RecordTypeTXT : string
}.

Definition HuaweiDNSDefaultEndpoint : string := "https://dns.cn-north-4.myhuaweicloud.com/".

(** ** The provider *)

(** Auth; [params] is [params.GetString]. *)
Definition Auth (params : string -> string) (this : Provider) : option string * Provider :=
  let this := mkProvider (params "accessKeyId") (params "accessKeySecret")
                (endpoint this) (regs this) in
  if (String.length (accessKeyId this) =? 0)%nat
  then (Some "'accessKeyId' should not be empty", this)
  else if (String.length (accessKeySecret this) =? 0)%nat
  then (Some "'accessKeySecret' should not be empty", this)
  else (None, mkProvider (accessKeyId this) (accessKeySecret this) (params "endpoint") true).

Section Calls.

Variable net : Net.

(** doAPI, lines 2483-2502: the endpoint of the calls. *)
Definition resolveEndpoint (this : Provider) : Answer string :=
  if (0 <? String.length (endpoint this))%nat then
    if negb (regs this) then Crash "nil pointer dereference: endpointRegionReg"
    else if endpointRegionReg (endpoint this) then
      if String.eqb (endpoint this) "All" || String.eqb (endpoint this) "all"
      then Done "https://dns.myhuaweicloud.com/"
      else Done ("https://dns." +:+ endpoint this +:+ ".myhuaweicloud.com/")
    else if endpointDomainReg (endpoint this) then
      Done ("https://" +:+ endpoint this +:+ "/")
    else
      match urlParse net (endpoint this) with
      | Some _ => Failure ("invalid endpoint '" +:+ endpoint this +:+ "'")
      | None =>
          if HasSuffix (endpoint this) "/" then Done (endpoint this)
          else Done (endpoint this +:+ "/")
      end
  else Done HuaweiDNSDefaultEndpoint.

(** doAPI; the request goes to [endpoint + strings.TrimLeft(apiPath, "/")]. *)
Definition doAPI (this : Provider) (method apiPath : string) (args : list (string * string))
    (bodyMap : Body) : Answer Response :=
  match resolveEndpoint this with
  | Crash m => Crash m
  | Failure e => Failure e
  | Done endpoint =>
      match urlParse net endpoint with
      | Some e => Failure e
      | None =>
          match exchange net this method (endpoint +:+ TrimLeft apiPath slashChar) apiPath
                  args bodyMap with
          | Err e => Failure e
          | Ok (statusCode, data) =>
              if statusCode =? 0 then
                Failure ("invalid response status '" +:+ itoa statusCode +:+ "', response '"
                         +:+ data +:+ "'")
              else
                match unmarshal net data with
                | Err e => Failure e
                | Ok resp =>
                    if (statusCode <? 200) || (300 <=? statusCode) then
                      Failure ("response error: status code: " +:+ itoa statusCode
                               +:+ ", response data: " +:+ data)
                    else Done resp
                end
          end
      end
  end.

Variable this : Provider.

(** findZoneIdWithDomain *)
Definition findZoneIdWithDomain (domain : string) : Answer string :=
  match doAPI this "GET" "/v2/zones" [("name", domain)] NilBody with
  | Crash m => Crash m
  | Failure e => Failure e
  | Done resp =>
      match List.find (fun zone => String.eqb (zoneName zone) (domain +:+ ".")) (Zones resp) with
      | Some zone => Done (zoneId zone)
      | None => Failure ("can not find zone id for '" +:+ domain +:+ "'")
      end
  end.

(** GetDomains *)
Definition GetDomains : Answer (list string) :=
  match doAPI this "GET" "/v2/zones" [] NilBody with
  | Crash m => Crash m
  | Failure e => Failure e
  | Done resp => Done (map (fun zone => TrimSuffix (zoneName zone) ".") (Zones resp))
  end.

(** The records of one record set, as GetRecords builds them. *)
Definition recordsOfSet (domain : string) (recordSet : RecordSet) : list Record :=
  map (fun value =>
         mkRecord (rsId recordSet +:+ "@" +:+ value)
           (TrimSuffix (rsName recordSet) ("." +:+ domain +:+ "."))
           (rsType recordSet) value (rsLine recordSet) (Int32 net (rsTtl recordSet)))
      (rsRecords recordSet).

(** GetRecords, the loop over the pages [pages] (lines 157-184). *)
Fixpoint getRecordPages (domain zoneId : string) (pages : list Z) (records : list Record)
    : Answer (list Record) :=
  match pages with
  | [] => Done records
  | i :: rest =>
      match doAPI this "GET" ("/v2.1/zones/" +:+ zoneId +:+ "/recordsets")
              [("offset", itoa (i * 500)); ("limit", itoa 500)] EmptyBody with
      | Crash m => Crash m
      | Failure e => Failure e
      | Done resp =>
          if (length (RecordSets resp) =? 0)%nat then Done records
          else getRecordPages domain zoneId rest
                 (records ++ concat (map (recordsOfSet domain) (RecordSets resp)))
      end
  end.

(** GetRecords *)
Definition GetRecords (domain : string) : Answer (list Record) :=
  match findZoneIdWithDomain domain with
  | Crash m => Crash m
  | Failure e => Failure e
  | Done zoneId => getRecordPages domain zoneId (map Z.of_nat (seq 0 101)) []
  end.

(** QueryRecord; [None] is the nil record. *)
Definition QueryRecord (domain name recordType : string) : Answer (option Record) :=
  match doAPI this "GET" "/v2.1/recordsets"
          [("name", name +:+ "." +:+ domain +:+ "."); ("type", recordType)] EmptyBody with
  | Crash m => Crash m
  | Failure e => Failure e
  | Done resp =>
      match RecordSets resp with
      | [] => Done None
      | recordSet :: _ =>
          match rsRecords recordSet with
          | [] => Done None
          | value :: _ =>
              Done (Some (mkRecord (rsId recordSet +:+ "@" +:+ value) name recordType value
                             (rsLine recordSet) (Int32 net (rsTtl recordSet))))
          end
      end
  end.

(** QueryRecords; [None] is the nil slice. *)
Definition QueryRecords (domain name recordType : string) : Answer (option (list Record)) :=
  match doAPI this "GET" "/v2.1/recordsets"
          [("name", name +:+ "." +:+ domain +:+ "."); ("type", recordType)] EmptyBody with
  | Crash m => Crash m
  | Failure e => Failure e
  | Done resp =>
      match RecordSets resp with
      | [] => Done None
      | recordSets =>
          Done (Some (concat (map (fun recordSet =>
                   map (fun record =>
                          mkRecord (rsId recordSet +:+ "@" +:+ record) name recordType record
                            (rsLine recordSet) (Int32 net (rsTtl recordSet)))
                       (rsRecords recordSet)) recordSets)))
      end
  end.

(** Lines 2388-2396 and 2427-2435: the TTL sent and the value of a TXT
    record in quotes. *)
Definition ttlOf (newRecord : Record) : Z :=
  if TTL newRecord <=? 0 then 300 else TTL newRecord.

Definition quoteTXT (newRecord : Record) : Record :=
  if String.eqb (Type_ newRecord) (RecordTypeTXT net)
  then withValue (String quoteChar EmptyString +:+ Trim (Value newRecord) quoteChar
                  +:+ String quoteChar EmptyString) newRecord
  else newRecord.

(** Lines 2419-2425 and 2460-2466: the id of the record set of a record. *)
Definition recordSetIdOf (record : Record) : string :=
  let atIndex := Index (Id record) atChar in
  if 0 <? atIndex then slice (Id record) (Z.to_nat atIndex) else Id record.

Definition bodyOf (domain : string) (newRecord : Record) (ttl : Z) : Body :=
  RecordSetBody (Name newRecord +:+ "." +:+ domain +:+ ".") "CDN系统自动创建"
    (Type_ newRecord) [Value newRecord] (Route newRecord) ttl.

(** AddRecord; the second component is [newRecord] as the caller finds it
    afterwards. *)
Definition AddRecord (domain : string) (newRecord : Record) : Answer unit * Record :=
  match findZoneIdWithDomain domain with
  | Crash m => (Crash m, newRecord)
  | Failure e => (Failure (WrapError net e domain newRecord), newRecord)
  | Done zoneId =>
      let ttl := ttlOf newRecord in
      let newRecord := quoteTXT newRecord in
      match doAPI this "POST" ("/v2.1/zones/" +:+ zoneId +:+ "/recordsets") []
              (bodyOf domain newRecord ttl) with
      | Crash m => (Crash m, newRecord)
      | Failure e => (Failure (WrapError net e domain newRecord), newRecord)
      | Done resp =>
          (Done tt, withId (respId resp +:+ "@" +:+ Value newRecord) newRecord)
      end
  end.

(** UpdateRecord *)
Definition UpdateRecord (domain : string) (record newRecord : Record)
    : Answer unit * Record :=
  match findZoneIdWithDomain domain with
  | Crash m => (Crash m, newRecord)
  | Failure e => (Failure (WrapError net e domain newRecord), newRecord)
  | Done zoneId =>
      let recordId := recordSetIdOf record in
      let ttl := ttlOf newRecord in
      let newRecord := quoteTXT newRecord in
      match doAPI this "PUT" ("/v2.1/zones/" +:+ zoneId +:+ "/recordsets/" +:+ recordId) []
              (bodyOf domain newRecord ttl) with
      | Crash m => (Crash m, newRecord)
      | Failure e => (Failure (WrapError net e domain newRecord), newRecord)
      | Done _ => (Done tt, newRecord)
      end
  end.

(** DeleteRecord *)
Definition DeleteRecord (domain : string) (record : Record) : Answer unit :=
  match findZoneIdWithDomain domain with
  | Crash m => Crash m
  | Failure e => Failure (WrapError net e domain record)
  | Done zoneId =>
      let recordId := recordSetIdOf record in
      match doAPI this "DELETE" ("/v2.1/zones/" +:+ zoneId +:+ "/recordsets/" +:+ recordId) []
              EmptyBody with
      | Crash m => Crash m
      | Failure e => Failure (WrapError net e domain record)
      | Done _ => Done tt
      end
  end.

(** DefaultRoute *)
Definition DefaultRoute : string := "default_view".

End Calls.

End huaweidns.

(** * Concrete states and collaborators *)

Definition quote : string := String (Ascii.ascii_of_nat 34) EmptyString.

(** A JSON encoder for lists of names that need no escaping. *)
Definition encodeNames (l : list string) : string :=
  "[" +:+ String.concat "," (map (fun d => quote +:+ d +:+ quote) l) +:+ "]".

Definition acmeUser7 : ACMEUser :=
  mkACMEUser 7 "ops@example.com" "a2V5" "" "letsencrypt" 0.

Definition dnsProvider5 : DNSProvider := mkDNSProvider 5 "cloudflare" 600 "{}".

(** No call fails; the authority issues one challenge for [a.example.com]
    and a certificate valid from [1700000000] to [1707776000]. *)
Definition quietEnv : Env :=
  mkEnv (fun _ => None) "letsencrypt" (fun l => Ok (encodeNames l)) 1700000000 0
    (fun _ => Ok (Some acmeUser7)) (fun _ => Some acmeUser7) (fun code => Some code)
    (fun _ => Ok None) (fun key => Ok key) (fun _ => None)
    (fun _ => Ok (Some dnsProvider5)) (fun _ _ => true)
    (fun _ => Ok "{}") (fun _ _ => None) (fun _ => None)
    (fun _ => ([mkAuthEvent "a.example.com" "token-1" "key-1"], Ok ("CERT", "KEY")))
    (fun _ _ => Ok (mkCertInfo 1700000000 1707776000 ["a.example.com"] ["a.example.com"]))
    (fun d s => match sPlainServerNames s with
                | Some names => bool_decide (d ∈ names)
                | None => false
                end).

Definition envWith (f : Site -> option string) (newRequest : string -> option string) : Env :=
  mkEnv f (DefaultProviderCode quietEnv) (jsonMarshalStrings quietEnv)
    (insertCreatedAt quietEnv) (sessionTimeZone quietEnv) (FindEnabledACMEUser quietEnv)
    (FindRandomACMEUserWithSameProvider quietEnv) (FindProviderWithCode quietEnv)
    (FindEnabledACMEProviderAccount quietEnv) (ParsePrivateKeyFromBase64 quietEnv)
    (SetRegistration quietEnv) (FindEnabledDNSProvider quietEnv) (FindProvider quietEnv)
    (DecodeAPIParams quietEnv) (Auth quietEnv) newRequest
    (acmeRun quietEnv) (sslConfigInit quietEnv) (serverNameMatches quietEnv).

(** The persist step of the callback fails. *)
Definition authStoreDownEnv : Env :=
  envWith (fun s => match s with
                    | SCreateAuth _ _ _ => Some "connection refused"
                    | _ => None
                    end)
          (fun _ => None).

(** The log write fails. *)
Definition logStoreDownEnv : Env :=
  envWith (fun s => match s with
                    | SCreateACMETaskLog _ => Some "connection refused"
                    | _ => None
                    end)
          (fun _ => None).

(** [http.NewRequest] rejects the callback URL [":"]. *)
Definition badURLEnv : Env :=
  envWith (fun _ => None)
          (fun url => if String.eqb url ":" then Some "missing protocol scheme" else None).

(** A pending DNS-01 task for [a.example.com], created at [1700000000]. *)
Definition task1 : ACMETask :=
  mkACMETask 1 0 9 true 7 5 "example.com" (encodeNames ["a.example.com"])
    1700000000 ACMETaskStateEnabled ACMETaskStatusPending 0 true AuthTypeDNS "" true.

(** The same task with a validation webhook. *)
Definition task1Hook (url : string) : ACMETask :=
  mkACMETask 1 0 9 true 7 5 "example.com" (encodeNames ["a.example.com"])
    1700000000 ACMETaskStateEnabled ACMETaskStatusPending 0 true AuthTypeHTTP url true.

Definition emptyWorld : World := mkWorld ∅ [] [] ∅ ∅ ∅ ∅ [] [] [] [].

Definition world1 : World := setTasks (fun _ => {[1 := task1]}) emptyWorld.

Definition worldHook (url : string) : World :=
  setTasks (fun _ => {[1 := task1Hook url]}) emptyWorld.

(** The task id is already in the in-flight set. *)
Definition worldInFlight : World :=
  mkWorld {[1 := task1]} [] [] ∅ ∅ ∅ {[1]} [] [] [] [].

(** A host for [a.example.com] whose policy 20 references certificate 3
    and carries its own settings, among them a cipher-suite list. *)
Definition cert3 (names : list string) (timeEndAt : Z) : SSLCert :=
  mkSSLCert 3 0 9 SSLCertStateEnabled true "old" "" "" false "OLD" "OLDKEY"
    1690000000 timeEndAt names names 0.

Definition policy20 : SSLPolicy :=
  mkSSLPolicy 20 0 9 SSLPolicyStateEnabled true false "TLS 1.2" [mkSSLCertRef true 3]
    "{max-age:31536000}" 1 0 "" 1 ["TLS_AES_128_GCM_SHA256"].

Definition server10 : Server :=
  mkServer 10 9 (Some ["a.example.com"])
    (Some (mkHTTPSProtocolConfig true "listen :443" (Some (mkSSLPolicyRef true 20)))).

Definition worldBound (names : list string) (timeEndAt : Z) : World :=
  mkWorld {[1 := task1]} [] [] {[3 := cert3 names timeEndAt]} {[20 := policy20]}
    {[10 := server10]} ∅ [] [] [] [].

(** The state of [worldBound] once certificate 4 was issued for
    [a.example.com]. *)
Definition cert4 : SSLCert :=
  mkSSLCert 4 0 9 SSLCertStateEnabled true "new" "" "" false "CERT" "KEY"
    1700000000 1707776000 ["a.example.com"] ["a.example.com"] 1.

Definition worldIssued (names : list string) (timeEndAt : Z) : World :=
  setCerts (insert 4 cert4) (worldBound names timeEndAt).

(** The authority issues the certificate for [a.example.com] and
    [b.example.com]. *)
Definition twoNamesEnv : Env :=
  mkEnv (fault quietEnv) (DefaultProviderCode quietEnv) (jsonMarshalStrings quietEnv)
    (insertCreatedAt quietEnv) (sessionTimeZone quietEnv) (FindEnabledACMEUser quietEnv)
    (FindRandomACMEUserWithSameProvider quietEnv) (FindProviderWithCode quietEnv)
    (FindEnabledACMEProviderAccount quietEnv) (ParsePrivateKeyFromBase64 quietEnv)
    (SetRegistration quietEnv) (FindEnabledDNSProvider quietEnv) (FindProvider quietEnv)
    (DecodeAPIParams quietEnv) (Auth quietEnv) (httpNewRequest quietEnv)
    (fun _ => ([mkAuthEvent "a.example.com" "token-1" "key-1";
                mkAuthEvent "b.example.com" "token-2" "key-2"], Ok ("CERT", "KEY")))
    (fun _ _ => Ok (mkCertInfo 1700000000 1707776000 ["a.example.com"; "b.example.com"]
                      ["a.example.com"; "b.example.com"]))
    (serverNameMatches quietEnv).

(** A pending DNS-01 task for [a.example.com] and [b.example.com]. *)
Definition task1Two : ACMETask :=
  mkACMETask 1 0 9 true 7 5 "example.com" (encodeNames ["a.example.com"; "b.example.com"])
    1700000000 ACMETaskStateEnabled ACMETaskStatusPending 0 true AuthTypeDNS "" true.

(** Two hosts of the same user: host 12 serves [a.example.com] and
    [b.example.com] under policy 20, host 11 serves [b.example.com] under
    policy 21; both policies reference certificate 3. *)
Definition policy21 : SSLPolicy :=
  mkSSLPolicy 21 0 9 SSLPolicyStateEnabled true false "TLS 1.2" [mkSSLCertRef true 3]
    "" 0 0 "" 0 [].

Definition server12 : Server :=
  mkServer 12 9 (Some ["a.example.com"; "b.example.com"])
    (Some (mkHTTPSProtocolConfig true "listen :443" (Some (mkSSLPolicyRef true 20)))).

Definition server11 : Server :=
  mkServer 11 9 (Some ["b.example.com"])
    (Some (mkHTTPSProtocolConfig true "listen :443" (Some (mkSSLPolicyRef true 21)))).

Definition worldShared (names : list string) (timeEndAt : Z) : World :=
  mkWorld {[1 := task1Two]} [] [] {[3 := cert3 names timeEndAt]}
    {[20 := policy20; 21 := policy21]} {[12 := server12; 11 := server11]} ∅ [] [] [] [].

(** Task 1 disabled, and task 1 finished with certificate 3. *)
Definition worldDisabled : World :=
  setTasks (fun _ => {[1 := taskWithState ACMETaskStateDisabled task1]}) emptyWorld.

Definition worldDone : World :=
  setTasks (fun _ => {[1 := taskWithCertId 3 (taskWithStatus ACMETaskStatusDone task1)]})
    (worldBound ["a.example.com"] 1700000001).

(** Task 1 not finished and bound to certificate 3, which is enabled. *)
Definition worldRenew : World :=
  setTasks (fun _ => {[1 := taskWithCertId 3 task1]})
    (worldBound ["a.example.com"] 1700000001).

(** The authority rejects the order. *)
Definition rejectingEnv : Env :=
  mkEnv (fault quietEnv) (DefaultProviderCode quietEnv) (jsonMarshalStrings quietEnv)
    (insertCreatedAt quietEnv) (sessionTimeZone quietEnv) (FindEnabledACMEUser quietEnv)
    (FindRandomACMEUserWithSameProvider quietEnv) (FindProviderWithCode quietEnv)
    (FindEnabledACMEProviderAccount quietEnv) (ParsePrivateKeyFromBase64 quietEnv)
    (SetRegistration quietEnv) (FindEnabledDNSProvider quietEnv) (FindProvider quietEnv)
    (DecodeAPIParams quietEnv) (Auth quietEnv) (httpNewRequest quietEnv)
    (fun _ => ([mkAuthEvent "a.example.com" "token-1" "key-1"], Err "urn:ietf:params:acme:error:unauthorized"))
    (sslConfigInit quietEnv) (serverNameMatches quietEnv).

(** A zone [example.com.] with one page of two record sets. *)
Definition demoSets : list huaweidns.RecordSet :=
  [huaweidns.mkRecordSet "8aace3b9" "www.example.com." "A" 300 ["192.0.2.1"; "192.0.2.2"]
     "default_view";
   huaweidns.mkRecordSet "8aace3c4" "txt.example.com." "TXT" 0 ["v=spf1 -all"] "default_view"].

Definition demoNet : huaweidns.Net :=
  huaweidns.mkNet (fun _ => None)
    (fun _ _ _ apiPath args _ =>
       if String.eqb apiPath "/v2/zones" then Ok (200, "zones")
       else if String.eqb apiPath "/v2.1/zones/zone-1/recordsets" then
         match args with
         | ("offset", offset) :: _ =>
             if String.eqb offset "0" then Ok (200, "page") else Ok (200, "{}")
         | _ => Ok (404, "{}")
         end
       else Ok (404, "{}"))
    (fun data =>
       if String.eqb data "zones"
       then Ok (huaweidns.mkResponse [huaweidns.mkZone "zone-1" "example.com."] [] "")
       else if String.eqb data "page" then Ok (huaweidns.mkResponse [] demoSets "")
       else Ok (huaweidns.mkResponse [] [] ""))
    (fun z => z) (fun e _ _ => e) "TXT".

Definition demoProvider : huaweidns.Provider :=
  huaweidns.mkProvider "AK" "SK" "cn-east-2" true.


(** * Properties stated about states *)

(** The certificate ids of a reference list. *)
Definition refIds (refs : list SSLCertRef) : list Z := refCertId <$> refs.

(** The policy updates of [w'] are those of [w] followed by updates whose
    reference lists name no certificate twice. *)
Definition updatesNoDup (w w' : World) : Prop :=
  exists news, policyUpdates w' = policyUpdates w ++ news
               /\ Forall (fun u => NoDup (refIds (uCerts u))) news.

(** A policy row of [w'] is a row of [w], or its reference list names no
    certificate twice. *)
Definition policiesNoDup (w w' : World) : Prop :=
  forall id p, sslPolicies w' !! id = Some p ->
    sslPolicies w !! id = Some p \/ NoDup (refIds (pCerts p)).

Definition writesNoDup (w w' : World) : Prop := updatesNoDup w w' /\ policiesNoDup w w'.

(** The text CreateACMETask puts in the domains column. *)
Definition domainsColumn (E : Env) (domains : list string) : Result string :=
  match domains with
  | [] => Ok "[]"
  | _ :: _ => jsonMarshalStrings E domains
  end.

(** The task was created within the last [hour] hours before [now]
    (nanoseconds), to the minute: the minute of its creation (seconds,
    rendered [zone] seconds east of UTC) lies after the minute of the
    instant [hour] hours ago. *)
Definition createdWithinLastHours (zone now hour : Z) (t : ACMETask) : Prop :=
  (now - hour * 3600000000000) / 60000000000 < (tCreatedAt t + zone) / 60.

(** The exclusion list the query uses: an empty list stands for [[0]]. *)
Definition excluded (excludeTasks : list Z) (id : Z) : Prop :=
  match excludeTasks with
  | [] => id = 0
  | _ :: _ => id ∈ excludeTasks
  end.

(** What makes the row [t] with key [id] eligible for the scheduling query. *)
Definition eligible (zone now hour : Z) (excludeTasks : list Z) (id : Z) (t : ACMETask)
    : Prop :=
  tIsOn t = true /\ tAsync t = true /\ tState t = ACMETaskStateEnabled
  /\ tCertId t = 0 /\ ~ excluded excludeTasks id
  /\ createdWithinLastHours zone now hour t.

(** The part [f] of the state is the same before and after. *)
Definition sameOn {B} (f : World -> B) (w w' : World) : Prop := f w' = f w.

(** A finished task has a certificate. *)
Definition rowOK (t : ACMETask) : Prop :=
  tStatus t = ACMETaskStatusDone -> tCertId t <> 0.



(** Between the task tables [m] and [m'] only the row [taskId] changed, and
    it changed as [P] says. *)
Definition tableStep (taskId : Z) (P : ACMETask -> ACMETask -> Prop)
    (m m' : gmap Z ACMETask) : Prop :=
  (forall k, k <> taskId -> m' !! k = m !! k)
  /\ match m !! taskId with
     | Some t => exists t', m' !! taskId = Some t' /\ P t t'
     | None => m' !! taskId = None
     end.

(** How a run that ends without a panic changes the row of its task, [r]
    being the result of runTaskWithoutLog: the status stays or becomes
    Running; a successful run was for a task that was not finished and
    leaves it with the certificate it had, or binds the new certificate,
    whose id it returns; a failed run leaves the certificate reference. *)
Definition runRow (r : RunResult) (t t' : ACMETask) : Prop :=
  (tStatus t' = tStatus t \/ tStatus t' = ACMETaskStatusRunning)
  /\ if r.1.1 then
       tStatus t <> ACMETaskStatusDone
       /\ ((0 < int64 (tCertId t) /\ tCertId t' = tCertId t)
           \/ (~ 0 < int64 (tCertId t) /\ tCertId t' = r.2 /\ 0 < r.2))
     else tCertId t' = tCertId t.

(** The row of a run that panicked. *)
Definition panicRow (t t' : ACMETask) : Prop :=
  (tStatus t' = tStatus t \/ tStatus t' = ACMETaskStatusRunning)
  /\ tCertId t' = tCertId t.

(** The coverage [domains] is a superset of the coverage [names]. *)
Definition covers (domains names : list string) : Prop :=
  forall d, d ∈ names -> d ∈ domains.

(** The state after lines 676-686 ran over the certificates [certs] of a
    policy: each superseded certificate was disabled, or the error of
    disabling it logged. *)
Definition disableSuperseded (E : Env) (domains : list string) (newCert : SSLCert)
    (certs : list SSLCert) (w : World) : World :=
  fold_left
    (fun w c =>
       if superseded domains newCert c then
         match fault E (SDisableSSLCert (cId c)) with
         | Some e => setErrorLog (fun l => l ++ [e]) w
         | None => setCerts (alter (certWithState SSLCertStateDisabled) (cId c)) w
         end
       else w)
    certs w.

(** The certificates of the policy [p] that survive the merge. *)
Definition survivors (domains : list string) (newCert : SSLCert) (certs : list SSLCert)
    : list Z :=
  cId <$> filter (fun c => superseded domains newCert c = false) certs.

(** The certificates ComposePolicyConfig enumerates for the policy [p]. *)
Definition policyCerts (w : World) (p : SSLPolicy) : list SSLCert :=
  omap (fun ref => enabledCert w (refCertId ref)) (pCerts p).

(** The certificate [c] is superseded and disabling it under the key [k]
    succeeds. *)
Definition disables (E : Env) (domains : list string) (newCert : SSLCert) (k : Z)
    (c : SSLCert) : bool :=
  superseded domains newCert c && (cId c =? k)
  && match fault E (SDisableSSLCert (cId c)) with Some _ => false | None => true end.

(** The certificate table is keyed by the certificates' ids. *)
Definition keyedById (w : World) : Prop :=
  forall k c, sslCerts w !! k = Some c -> cId c = k.

(** Every certificate row of [w] is still a row of [w'], under the same
    key, with the same id, owner and state. *)
Definition certsKept (w w' : World) : Prop :=
  forall k c, sslCerts w !! k = Some c ->
    exists c', sslCerts w' !! k = Some c'
               /\ cId c' = cId c /\ cState c' = cState c
               /\ cAdminId c' = cAdminId c /\ cUserId c' = cUserId c.

(** A result is well formed when it is a success with an empty message or a
    failure with a message. *)
Definition wellFormed (r : RunResult) : Prop :=
  (r.1.1 = true /\ r.1.2 = "") \/ (r.1.1 = false /\ r.1.2 <> "").

(** The record of one challenge. *)
Definition authOf (taskId : Z) (ev : AuthEvent) : ACMEAuthentication :=
  mkACMEAuthentication taskId (evDomain ev) (evToken ev) (evKeyAuth ev).

(** The enabled policy the HTTPS configuration of a host refers to. *)
Definition hostPolicy (w : World) (tls : HTTPSProtocolConfig) : option SSLPolicy :=
  match hSSLPolicyRef tls with
  | Some ref =>
      match sslPolicies w !! prSSLPolicyId ref with
      | Some p => if pState p =? SSLPolicyStateEnabled then Some p else None
      | None => None
      end
  | None => None
  end.

(** The certificate [c] is stored under [certId], in a table keyed by id. *)
Definition holdsCert (certId : Z) (c : SSLCert) (w : World) : Prop :=
  keyedById w /\ sslCerts w !! certId = Some c.

(** What holds of the state before holds of the state after. *)
Definition keeps (I : World -> Prop) (w w' : World) : Prop := I w -> I w'.

(** The policy updates called between [w] and [w'] carry reference lists
    with the property [P], and so does every policy row that was created or
    changed. *)
Definition writesSatisfy (P : list SSLCertRef -> Prop) (w w' : World) : Prop :=
  (exists news, policyUpdates w' = policyUpdates w ++ news
                /\ Forall (fun u => P (uCerts u)) news)
  /\ (forall id p, sslPolicies w' !! id = Some p ->
        sslPolicies w !! id = Some p \/ P (pCerts p)).

(** Every entry of the scan's [serverMap] lists the certificate. *)
Definition entriesName (certId : Z) (st : ScanState) : Prop :=
  forall k info, st.1 !! k = Some info -> certId ∈ CertIds info.

(** The task [t] refers to a certificate row with the property [P]. *)
Definition certOf (w : World) (t : ACMETask) (P : SSLCert -> Prop) : Prop :=
  exists c, sslCerts w !! tCertId t = Some c /\ P c.

(** What CountAllEnabledACMETasks and ListEnabledACMETasks select: the
    enabled tasks of the owner asked for (the user [userId], or with
    [userId <= 0] any user when [userOnly] and no user otherwise); when a
    condition on the certificate is asked for, those with a certificate
    that is valid at [dbNow], expired at [dbNow], or expiring after
    [dbNow] and before [now] plus [expiringDays] days, all conditions asked
    for at once; and, with a keyword, those whose domains match it. *)
Definition listed (w : World) (like : string -> string -> bool) (dbNow now userId : Z)
    (isAvailable isExpired : bool) (expiringDays : Z) (keyword : string) (userOnly : bool)
    (t : ACMETask) : Prop :=
  tState t = ACMETaskStateEnabled
  /\ (0 < userId -> tUserId t = userId)
  /\ (userId <= 0 -> userOnly = true -> 0 < tUserId t)
  /\ (userId <= 0 -> userOnly = false -> tUserId t = 0)
  /\ (isAvailable = true \/ isExpired = true \/ 0 < expiringDays -> 0 < tCertId t)
  /\ (isAvailable = true ->
      certOf w t (fun c => cTimeBeginAt c <= dbNow /\ dbNow <= cTimeEndAt c))
  /\ (isExpired = true -> certOf w t (fun c => cTimeEndAt c < dbNow))
  /\ (0 < expiringDays ->
      certOf w t (fun c => dbNow < cTimeEndAt c
                           /\ cTimeEndAt c < int64 (now + int64 (expiringDays * 86400))))
  /\ (keyword <> "" -> like (tDomains t) keyword = true).

(** ** The other packages *)

(** The string does not begin with [c]. *)
Definition noLead (c : Ascii.ascii) (s : string) : Prop :=
  match s with
  | EmptyString => True
  | String a _ => a <> c
  end.

(** The string does not end with [c]. *)
Definition noTrail (c : Ascii.ascii) (s : string) : Prop :=
  huaweidns.TrimRight s c = s.

(** The call of GetRecords for page [i] of the zone. *)
Definition pageCall (net : huaweidns.Net) (this : huaweidns.Provider) (zoneId : string)
    (i : nat) : huaweidns.Answer huaweidns.Response :=
  huaweidns.doAPI net this "GET" ("/v2.1/zones/" +:+ zoneId +:+ "/recordsets")
    [("offset", huaweidns.itoa (Z.of_nat i * 500)); ("limit", huaweidns.itoa 500)]
    huaweidns.EmptyBody.

(** The records of the record sets of a page. *)
Definition recordsOfPage (net : huaweidns.Net) (domain : string)
    (sets : list huaweidns.RecordSet) : list huaweidns.Record :=
  concat (map (huaweidns.recordsOfSet net domain) sets).

(** A provider as [Auth] calls leave it, from the zero value on. *)
Inductive configured : huaweidns.Provider -> Prop :=
| configured_zero : configured (huaweidns.mkProvider "" "" "" false)
| configured_auth (params : string -> string) (this : huaweidns.Provider) :
    configured this -> configured (huaweidns.Auth params this).2.

(** The last call for the cache in [l] is an Add. *)
Definition lastAdded (l : list ttlcache.Call) (cache : ttlcache.Cache) : Prop :=
  exists before after,
    l = before ++ ttlcache.CallAdd cache :: after /\ ttlcache.CallRemove cache ∉ after.

(** Nothing is lost and nothing comes twice: the tasks handed to [f] so
    far, followed by the content of the channel, are the tasks; and once a
    goroutine returned the channel is empty. *)
Definition poolInv {A} (n : nat) (l : list A) (p : taskutils.Pool A) : Prop :=
  (taskutils.calls p).*2 ++ taskutils.taskChan p = l
  /\ (forall i t, (i, t) ∈ taskutils.calls p -> (i < n)%nat)
  /\ (forall i, i ∈ taskutils.returned p -> taskutils.taskChan p = []).

(** * Reasoning about procedures *)

(** ** Relations between the state before and after *)

Section Preserves.

Context (Rel : World -> World -> Prop) `{!PreOrder Rel}.

Definition preserves {X A} (p : Proc X A) : Prop := forall w, Rel w (p w).2.

Lemma preserves_ret {X A} (a : A) : preserves (ret (R:=X) a).
Proof. intros w. reflexivity. Qed.

Lemma preserves_exit {X A} (r : X) : preserves (exit (A:=A) r).
Proof. intros w. reflexivity. Qed.

Lemma preserves_panic {X A} (m : string) : preserves (panic (R:=X) (A:=A) m).
Proof. intros w. reflexivity. Qed.

Lemma preserves_gets {X A} (f : World -> A) : preserves (gets (R:=X) f).
Proof. intros w. reflexivity. Qed.

Lemma preserves_modify {X} (f : World -> World) :
  (forall w, Rel w (f w)) -> preserves (modify (R:=X) f).
Proof. intros H w. apply H. Qed.

Lemma preserves_bind {X A B} (p : Proc X A) (k : A -> Proc X B) :
  preserves p -> (forall a, preserves (k a)) -> preserves (bind p k).
Proof.
  intros Hp Hk w. unfold bind. specialize (Hp w).
  destruct (p w) as [[a | r | m] w']; simpl in *; try assumption.
  etransitivity; [eassumption | apply Hk].
Qed.

Lemma preserves_call {X A} (p : Proc A A) : preserves p -> preserves (call (R:=X) p).
Proof.
  intros Hp w. unfold call. specialize (Hp w).
  destruct (p w) as [[a | r | m] w']; simpl in *; assumption.
Qed.

Lemma preserves_forEach {X A} (l : list A) (body : A -> Proc unit unit) :
  (forall x, preserves (body x)) -> preserves (forEach (R:=X) l body).
Proof.
  intros Hb. induction l as [| x l IH]; simpl.
  - apply preserves_ret.
  - apply preserves_bind; [apply preserves_call, Hb | intros _; exact IH].
Qed.

Lemma preserves_foldEach {X A S} (l : list A) (s : S) (body : A -> S -> Proc S S) :
  (forall x s', preserves (body x s')) -> preserves (foldEach (R:=X) l s body).
Proof.
  intros Hb. revert s. induction l as [| x l IH]; intros s; simpl.
  - apply preserves_ret.
  - apply preserves_bind; [apply preserves_call, Hb | intros s'; apply IH].
Qed.

Lemma preserves_exec {A} (p : Proc A A) w : preserves p -> Rel w (exec p w).2.
Proof.
  intros Hp. unfold exec. specialize (Hp w).
  destruct (p w) as [[a | r | m] w']; simpl in *; assumption.
Qed.

End Preserves.

(** Breaks a procedure into its primitive steps; what is left are the state
    updates, as goals [forall w, Rel w (f w)]. *)
Ltac preserve_step :=
  lazymatch goal with
  | |- preserves _ (bind _ _) => refine (preserves_bind _ _ _ _ _); [| intros ?]
  | |- preserves _ (ret _) => refine (preserves_ret _ _)
  | |- preserves _ (exit _) => refine (preserves_exit _ _)
  | |- preserves _ (panic _) => refine (preserves_panic _ _)
  | |- preserves _ (gets _) => refine (preserves_gets _ _)
  | |- preserves _ (modify _) => refine (preserves_modify _ _ _)
  | |- preserves _ (call _) => refine (preserves_call _ _ _)
  | |- preserves _ (forEach _ _) => refine (preserves_forEach _ _ _ _); intros ?
  | |- preserves _ (foldEach _ _ _) => refine (preserves_foldEach _ _ _ _ _); intros ? ?
  | |- preserves _ (match ?x with _ => _ end) => destruct x
  | |- preserves _ (let '(_, _) := ?x in _) => destruct x
  end.

Ltac preserve_steps := repeat preserve_step.

(** The helpers that only branch. *)
Ltac unfold_helpers :=
  unfold logIfErr, logError, orExit, someOrExit, exitIf, exitIfErr.

(** The storage calls. *)
Ltac unfold_storage :=
  unfold CreateACMETaskLog, CreateAuth, FindEnabledSSLCert, UpdateCert, CreateCert,
    UpdateCertACME, DisableSSLCert, FindUserServerByServerName, UpdateServerHTTPS,
    FindEnabledSSLPolicy, ComposePolicyConfig, CreatePolicy, UpdatePolicy,
    EnableACMETask, DisableACMETask, FindEnabledACMETask, DisableAllTasksWithCertId,
    UpdateACMETaskCert, UpdateStatus.


(** The engine's own procedures. *)
Ltac unfold_engine :=
  unfold RunTaskAndAutoBindServer, autoBindFinish, autoBindSettle, bindHosts, RunTask, runTaskWithoutLog, runTaskLoad,
    runTaskIssue, runTaskPrepare, acmeRequestRun, runTaskSave, OnAuth, scanDomain,
    scanServer, mergeCerts, mergeCert, bindServer.

Ltac preserve_all := unfold_engine; unfold_storage; unfold_helpers; preserve_steps.

(** ** Running a procedure by cases *)

Ltac unfold_proc :=
  unfold bind, ret, exit, panic, gets, modify, call, exec in *.

(** Case analysis on an innermost [match] of the goal. *)
Ltac case_inner :=
  match goal with
  | |- context [match ?x with _ => _ end] =>
      lazymatch x with
      | context [match _ with _ => _ end] => fail
      | _ => destruct x eqn:?
      end
  | |- context [if ?x then _ else _] =>
      lazymatch x with
      | context [match _ with _ => _ end] => fail
      | context [if _ then _ else _] => fail
      | _ => destruct x eqn:?
      end
  end.

Ltac run_cases := repeat (simpl; try case_inner).

(** ** What the procedures leave untouched *)

#[local] Instance sameOn_preorder {B} (f : World -> B) : PreOrder (sameOn f).
Proof.
  split; [intros w; reflexivity |].
  intros a b c H1 H2. unfold sameOn in *. congruence.
Qed.

Ltac frame := preserve_all; intros ?; reflexivity.

Lemma runTaskWithoutLog_logs E taskId random :
  preserves (sameOn acmeTaskLogs) (runTaskWithoutLog E taskId random).
Proof. frame. Qed.

Lemma autoBindSettle_logs E taskId domains r :
  preserves (sameOn acmeTaskLogs) (autoBindSettle E taskId domains r).
Proof. frame. Qed.

Lemma runTaskLoad_running E taskId :
  preserves (sameOn runningTaskMap) (runTaskLoad E taskId).
Proof. frame. Qed.

Lemma runTaskIssue_running E taskId random task :
  preserves (sameOn runningTaskMap) (runTaskIssue E taskId random task).
Proof. frame. Qed.

Lemma autoBindFinish_running E taskId domains r :
  preserves (sameOn runningTaskMap) (autoBindFinish E taskId domains r).
Proof. frame. Qed.

Lemma RunTaskAndAutoBindServer_running E taskId domains :
  preserves (sameOn runningTaskMap) (RunTaskAndAutoBindServer E taskId domains).
Proof. frame. Qed.

Lemma acmeRequestRun_tasks E taskId task req :
  preserves (sameOn acmeTasks) (acmeRequestRun E taskId task req).
Proof. frame. Qed.

Lemma acmeRequestRun_certs E taskId task req :
  preserves (sameOn sslCerts) (acmeRequestRun E taskId task req).
Proof. frame. Qed.


Lemma runTaskLoad_certs E taskId :
  preserves (sameOn sslCerts) (runTaskLoad E taskId).
Proof. frame. Qed.

(** * The authorization callback (lines 467-499) *)

(** C10. In the per-domain authorization callback the validation webhook is
    attempted only when persisting the AuthenticationRecord succeeded: when
    [CreateAuth] returns an error, the callback only logs it (no webhook
    request is issued and no record is stored, whatever the task's callback
    URL is), it returns normally, and the run goes on with the remaining
    challenges of the issuance. *)
Theorem webhook_only_after_persist (E : Env) (taskId : Z) (task : ACMETask)
    (ev : AuthEvent) (w : World) (e : string) :
  fault E (SCreateAuth taskId (evDomain ev) (evToken ev)) = Some e ->
  let w' := setErrorLog (fun l => l ++ ["write authentication to database error: " +:+ e]) w in
  OnAuth E taskId task ev w = (Next tt, w')
  /\ webhookPosts w' = webhookPosts w
  /\ acmeAuths w' = acmeAuths w
  /\ forall rest : list AuthEvent,
       forEach (R:=RunResult) (ev :: rest) (OnAuth E taskId task) w
       = forEach rest (OnAuth E taskId task) w'.
Proof.
  intros Hfail w'.
  assert (Hcall : OnAuth E taskId task ev w = (Next tt, w')).
  { unfold OnAuth, CreateAuth, bind. rewrite Hfail. reflexivity. }
  repeat split; try assumption.
  intros rest. simpl. unfold bind, call. rewrite Hcall. reflexivity.
Qed.

Lemma webhook_only_after_persist_witness :
  fault authStoreDownEnv (SCreateAuth 1 "a.example.com" "token-1") = Some "connection refused"
  /\ OnAuth authStoreDownEnv 1 (task1Hook "http://hook.example.com/acme")
       (mkAuthEvent "a.example.com" "token-1" "key-1") (worldHook "http://hook.example.com/acme")
     = (Next tt,
        setErrorLog (fun l => l ++ ["write authentication to database error: connection refused"])
          (worldHook "http://hook.example.com/acme")).
Proof.
  split; [reflexivity |].
  apply (webhook_only_after_persist authStoreDownEnv 1
           (task1Hook "http://hook.example.com/acme")
           (mkAuthEvent "a.example.com" "token-1" "key-1")
           (worldHook "http://hook.example.com/acme") "connection refused").
  reflexivity.
Defined.

(** The webhook is posted when the record was stored and the task has a
    callback URL. *)
Example webhook_posted_after_persist :
  webhookPosts
    (OnAuth quietEnv 1 (task1Hook "http://hook.example.com/acme")
       (mkAuthEvent "a.example.com" "token-1" "key-1")
       (worldHook "http://hook.example.com/acme")).2
  = [mkWebhookPost "http://hook.example.com/acme" "a.example.com" "token-1" "key-1"].
Proof. reflexivity. Qed.

(** Whenever the record was stored, the task has a callback URL and
    [http.NewRequest] returns an error for it, the callback panics. *)
Lemma OnAuth_panics_on_rejected_url (E : Env) (taskId : Z) (task : ACMETask)
    (ev : AuthEvent) (w : World) (e : string) :
  fault E (SCreateAuth taskId (evDomain ev) (evToken ev)) = None ->
  fault E (SMarshalAuth (evDomain ev) (evToken ev)) = None ->
  strEmpty (tAuthURL task) = false ->
  httpNewRequest E (tAuthURL task) = Some e ->
  (OnAuth E taskId task ev w).1 = Panic "nil pointer dereference: req.Header".
Proof.
  intros H1 H2 H3 H4. unfold OnAuth, CreateAuth, bind, modify, ret.
  rewrite H1. simpl. rewrite H3. simpl. rewrite H2, H4. reflexivity.
Qed.

(** C9. A task whose callback URL [http.NewRequest] rejects: the callback
    dereferences the nil request, and the run ends in a panic instead of a
    result [(false, message)]; no TaskLog row is written. *)
Theorem run_panics_on_bad_callback_url :
  (exec (runTaskWithoutLog badURLEnv 1 false) (worldHook ":")).1
    = Panicked "nil pointer dereference: req.Header"
  /\ (exec (RunTask badURLEnv 1) (worldHook ":")).1
    = Panicked "nil pointer dereference: req.Header"
  /\ acmeTaskLogs (exec (RunTask badURLEnv 1) (worldHook ":")).2 = [].
Proof. vm_compute. repeat split. Qed.

(** * The reference list written to a policy (lines 700-712) *)

Lemma composeCertRefs_spec (certIds : list Z) (certExists : gset Z) (certRefs : list SSLCertRef) :
  NoDup (refIds certRefs) ->
  (forall x, x ∈ refIds certRefs <-> x ∈ certExists) ->
  NoDup (refIds (composeCertRefs certIds certExists certRefs))
  /\ forall x, x ∈ refIds (composeCertRefs certIds certExists certRefs)
               <-> x ∈ refIds certRefs \/ x ∈ certIds.
Proof.
  revert certExists certRefs.
  induction certIds as [| certId rest IH]; intros certExists certRefs Hnd Hex; simpl.
  - split; [assumption |]. intros x. rewrite elem_of_nil. tauto.
  - case_bool_decide as Hin.
    + destruct (IH certExists certRefs Hnd Hex) as [IH1 IH2].
      split; [assumption |]. intros x. rewrite IH2, elem_of_cons.
      split; [tauto |]. intros [H | [-> | H]]; [tauto | | tauto].
      left. apply Hex. assumption.
    + assert (Hfresh : certId ∉ refIds certRefs) by (rewrite Hex; assumption).
      destruct (IH ({[certId]} ∪ certExists) (certRefs ++ [mkSSLCertRef true certId])) as [IH1 IH2].
      * unfold refIds. rewrite fmap_app. simpl. apply NoDup_app. repeat split.
        -- assumption.
        -- intros x Hx Hx'. apply list_elem_of_singleton in Hx'. subst x. contradiction.
        -- apply NoDup_singleton.
      * intros x. unfold refIds. rewrite fmap_app, elem_of_app. simpl.
        rewrite list_elem_of_singleton, elem_of_union, elem_of_singleton.
        specialize (Hex x). unfold refIds in Hex. tauto.
      * split; [assumption |]. intros x. rewrite IH2. unfold refIds.
        rewrite fmap_app, elem_of_app, elem_of_cons. simpl.
        rewrite list_elem_of_singleton. tauto.
Qed.

Lemma composeCertRefs_NoDup (certIds : list Z) :
  NoDup (refIds (composeCertRefs certIds ∅ [])).
Proof.
  apply composeCertRefs_spec; [apply NoDup_nil_2 |].
  intros x. simpl. rewrite elem_of_nil. set_solver.
Qed.

Lemma composeCertRefs_elem (certIds : list Z) (x : Z) :
  x ∈ refIds (composeCertRefs certIds ∅ []) <-> x ∈ certIds.
Proof.
  destruct (composeCertRefs_spec certIds ∅ []) as [_ H].
  - apply NoDup_nil_2.
  - intros y. simpl. rewrite elem_of_nil. set_solver.
  - rewrite H. simpl. rewrite elem_of_nil. tauto.
Qed.

#[local] Instance updatesNoDup_preorder : PreOrder updatesNoDup.
Proof.
  split.
  - intros w. exists []. rewrite app_nil_r. split; [reflexivity | constructor].
  - intros a b c [n1 [H1 F1]] [n2 [H2 F2]]. exists (n1 ++ n2).
    rewrite H2, H1, app_assoc. split; [reflexivity | apply Forall_app; split; assumption].
Qed.

#[local] Instance policiesNoDup_preorder : PreOrder policiesNoDup.
Proof.
  split.
  - intros w id p H. left. assumption.
  - intros a b c H1 H2 id p Hc. destruct (H2 id p Hc) as [Hb | Hn]; [| right; assumption].
    apply H1. assumption.
Qed.

#[local] Instance writesNoDup_preorder : PreOrder writesNoDup.
Proof.
  split.
  - intros w. split; reflexivity.
  - intros a b c [H1 H1'] [H2 H2']. split; etransitivity; eassumption.
Qed.

Lemma writesNoDup_same (w w' : World) :
  policyUpdates w' = policyUpdates w -> sslPolicies w' = sslPolicies w -> writesNoDup w w'.
Proof.
  intros Hu Hp. split.
  - exists []. rewrite app_nil_r. split; [assumption | constructor].
  - intros id p H. left. rewrite <- Hp. assumption.
Qed.

Lemma writesNoDup_update (w : World) (u : PolicyUpdate) :
  NoDup (refIds (uCerts u)) ->
  writesNoDup w (setPolicyUpdates (fun l => l ++ [u]) w).
Proof.
  intros Hn. split.
  - exists [u]. split; [reflexivity | constructor; [assumption | constructor]].
  - intros id p H. left. exact H.
Qed.

Lemma writesNoDup_alter (w : World) (u : PolicyUpdate) :
  NoDup (refIds (uCerts u)) ->
  writesNoDup w (setPolicies (alter (policyWithUpdate u) (uPolicyId u)) w).
Proof.
  intros Hn. split.
  - exists []. rewrite app_nil_r. split; [reflexivity | constructor].
  - intros id p H. simpl in H. rewrite lookup_alter in H. case_decide as Heq.
    + destruct (sslPolicies w !! uPolicyId u) as [p0 |] eqn:Hp0; simpl in H; [| discriminate].
      right. injection H as <-. assumption.
    + left. assumption.
Qed.

Lemma writesNoDup_insert (w : World) (id : Z) (p : SSLPolicy) :
  NoDup (refIds (pCerts p)) ->
  writesNoDup w (setPolicies (insert id p) w).
Proof.
  intros Hn. split.
  - exists []. rewrite app_nil_r. split; [reflexivity | constructor].
  - intros id' p' H. simpl in H. rewrite lookup_insert in H. case_decide as Heq.
    + right. injection H as <-. assumption.
    + left. assumption.
Qed.

Lemma bindServer_writesNoDup E serverId serverInfo :
  preserves writesNoDup (bindServer E serverId serverInfo).
Proof.
  unfold bindServer. unfold_storage. unfold_helpers.
  preserve_steps; intros w;
    first [ apply writesNoDup_same; reflexivity
          | apply writesNoDup_update; apply composeCertRefs_NoDup
          | apply writesNoDup_alter; apply composeCertRefs_NoDup
          | apply writesNoDup_insert; apply composeCertRefs_NoDup ].
Qed.

Lemma RunTaskAndAutoBindServer_writesNoDup E taskId domains :
  preserves writesNoDup (RunTaskAndAutoBindServer E taskId domains).
Proof.
  preserve_all; intros w;
    first [ apply writesNoDup_same; reflexivity
          | apply writesNoDup_update; apply composeCertRefs_NoDup
          | apply writesNoDup_alter; apply composeCertRefs_NoDup
          | apply writesNoDup_insert; apply composeCertRefs_NoDup ].
Qed.

(** C6. Merging a certificate into a host's policy never writes a
    reference list with a repeated certificate id: for every list of
    certificate ids, also one that already holds the new certificate's id
    (even several times), the list built from it has no duplicate and names
    the same ids; and every policy update an invocation of
    RunTaskAndAutoBindServer issues, and every policy row it creates or
    changes, carries such a list. *)
Theorem merged_refs_have_no_duplicates (E : Env) (taskId : Z) (domains : list string)
    (certIds : list Z) (w : World) :
  NoDup (refIds (composeCertRefs certIds ∅ []))
  /\ (forall x, x ∈ refIds (composeCertRefs certIds ∅ []) <-> x ∈ certIds)
  /\ writesNoDup w (exec (RunTaskAndAutoBindServer E taskId domains) w).2.
Proof.
  split; [apply composeCertRefs_NoDup |].
  split; [apply composeCertRefs_elem |].
  refine (preserves_exec _ _ _ (RunTaskAndAutoBindServer_writesNoDup _ _ _)).
Qed.

(** Merging certificate 4 into a list that holds it already. *)
Example merged_refs_twice :
  composeCertRefs [3; 4; 4] ∅ [] = [mkSSLCertRef true 3; mkSSLCertRef true 4].
Proof. reflexivity. Qed.

(** * The task store *)

Lemma nextId_above {A} (m : gmap Z A) :
  0 <= map_fold (fun k (_ : A) acc => Z.max k acc) 0 m
  /\ forall k x, m !! k = Some x -> k <= map_fold (fun k (_ : A) acc => Z.max k acc) 0 m.
Proof.
  apply (map_fold_weak_ind
           (fun r (m : gmap Z A) => 0 <= r /\ forall k x, m !! k = Some x -> k <= r)).
  - split; [lia |]. intros k x H. rewrite lookup_empty in H. discriminate.
  - intros i x m' r Hi [Hr Hle]. split; [lia |].
    intros k y Hk. rewrite lookup_insert in Hk. case_decide as Heq.
    + subst. lia.
    + specialize (Hle k y Hk). lia.
Qed.

Lemma nextId_pos {A} (m : gmap Z A) : 0 < nextId m.
Proof. unfold nextId. destruct (nextId_above m) as [H _]. lia. Qed.

Lemma nextId_fresh {A} (m : gmap Z A) : m !! nextId m = None.
Proof.
  destruct (m !! nextId m) as [x |] eqn:H; [| reflexivity].
  destruct (nextId_above m) as [_ Hle]. specialize (Hle _ _ H). unfold nextId in Hle. lia.
Qed.

(** C8, as the code has it. CreateACMETask does not check that the domain
    list is non-empty: an empty list is accepted and the task is persisted
    with the domains column ["[]"] (the empty-set encoding, not null); a
    non-empty list is stored in its JSON encoding. The creation is rejected
    only when the encoding or the storage write fails, and then no task is
    persisted. The new task is a new row: enabled, pending, with no
    certificate. *)
Theorem create_task_stores_domains (E : Env) (adminId userId : Z) (authType : string)
    (acmeUserId dnsProviderId : Z) (dnsDomain : string) (domains : list string)
    (autoRenew : bool) (authURL : string) (async : bool) (w : World) :
  let id := nextId (acmeTasks w) in
  exec (CreateACMETask E adminId userId authType acmeUserId dnsProviderId dnsDomain domains
          autoRenew authURL async) w
  = match domainsColumn E domains with
    | Err e => (Returned (Err e), w)
    | Ok text =>
        match fault E SCreateACMETask with
        | Some e => (Returned (Err e), w)
        | None =>
            (Returned (Ok id),
             setTasks (insert id
               (mkACMETask id adminId userId true acmeUserId dnsProviderId dnsDomain text
                  (insertCreatedAt E) ACMETaskStateEnabled ACMETaskStatusPending 0
                  autoRenew authType authURL async)) w)
        end
    end
  /\ domainsColumn E [] = Ok "[]"
  /\ acmeTasks w !! id = None
  /\ 0 < id.
Proof.
  intros id. split; [| split; [reflexivity | split; [apply nextId_fresh | apply nextId_pos]]].
  unfold CreateACMETask, exec, bind, orExit, exitIfErr, domainsColumn.
  destruct domains as [| d ds]; simpl.
  - destruct (fault E SCreateACMETask); reflexivity.
  - destruct (jsonMarshalStrings E (d :: ds)); simpl; [| reflexivity].
    destruct (fault E SCreateACMETask); reflexivity.
Qed.

(** C8, as stated, fails: a creation with an empty domain list is not
    rejected; it returns the new id 1 and the task is persisted, with the
    domains column ["[]"]. *)
Lemma create_task_accepts_empty_domains :
  let r := exec (CreateACMETask quietEnv 0 9 AuthTypeHTTP 7 0 "" [] true "" true) emptyWorld in
  r.1 = Returned (Ok 1)
  /\ (tDomains <$> acmeTasks r.2 !! 1) = Some "[]"
  /\ ~ (exists e, r.1 = Returned (Err e) /\ acmeTasks r.2 = acmeTasks emptyWorld).
Proof.
  vm_compute. split; [reflexivity | split; [reflexivity |]].
  intros [e [H _]]. discriminate H.
Qed.

(** * The scheduling query (lines 567-588) *)

Lemma int64_id (z : Z) : - 2 ^ 63 <= z < 2 ^ 63 -> int64 z = z.
Proof. intros H. unfold int64. rewrite Z.mod_small; lia. Qed.

Lemma hoursAgo_exact (now hour : Z) :
  0 <= hour <= 2562047 -> hoursAgo now hour = now - hour * 3600000000000.
Proof.
  intros H. unfold hoursAgo.
  rewrite (int64_id (- hour)) by lia. rewrite int64_id by lia. lia.
Qed.

Lemma seconds_minute (a : Z) : a * 1000000000 / 60000000000 = a / 60.
Proof.
  assert (H : 60000000000 = 1000000000 * 60) by reflexivity.
  rewrite H, <- Z.div_div by lia. rewrite Z.div_mul by lia. reflexivity.
Qed.

Lemma existsb_Zeqb (id : Z) (l : list Z) : existsb (Z.eqb id) l = true <-> id ∈ l.
Proof.
  rewrite existsb_exists. split.
  - intros [x [Hin Heq]]. apply Z.eqb_eq in Heq. subst. apply list_elem_of_In. assumption.
  - intros Hin. exists id. split; [apply list_elem_of_In; assumption | apply Z.eqb_refl].
Qed.

Lemma issuable_eligible (zone now hour : Z) (excludeTasks : list Z) (id : Z) (t : ACMETask) :
  0 <= hour <= 2562047 ->
  issuable zone now hour
    (if (length excludeTasks =? 0)%nat then excludeTasks ++ [0] else excludeTasks) id t = true
  <-> eligible zone now hour excludeTasks id t.
Proof.
  intros Hh. unfold issuable, eligible, createdWithinLastHours, excluded,
    minuteOfNanos, minuteOfSeconds.
  rewrite hoursAgo_exact by assumption.
  rewrite !andb_true_iff, negb_true_iff, !Z.eqb_eq, Z.ltb_lt.
  assert (Hex : existsb (Z.eqb id)
                  (if (length excludeTasks =? 0)%nat then excludeTasks ++ [0] else excludeTasks)
                = false
                <-> ~ match excludeTasks with [] => id = 0 | _ :: _ => id ∈ excludeTasks end).
  { rewrite <- not_true_iff_false, existsb_Zeqb.
    destruct excludeTasks as [| x l]; simpl; [| tauto].
    rewrite list_elem_of_singleton. tauto. }
  rewrite Hex. tauto.
Qed.

#[local] Instance pkLe_total : Total pkLe.
Proof. intros a b. unfold pkLe. lia. Qed.

#[local] Instance pkLe_transitive : Transitive pkLe.
Proof. intros a b c. unfold pkLe. lia. Qed.

(** A list in ascending order of keys that holds no key twice is in
    strictly ascending order. *)
Lemma sorted_keys_strict (l : list (Z * ACMETask)) :
  StronglySorted pkLe l -> NoDup l ->
  (forall a b, a ∈ l -> b ∈ l -> a.1 = b.1 -> a = b) ->
  StronglySorted (fun a b => a.1 < b.1) l.
Proof.
  induction l as [| a l IH]; intros Hs Hn Hk; [constructor |].
  apply StronglySorted_cons in Hs as [Hall Hs]. apply NoDup_cons in Hn as [Hnot Hn].
  apply StronglySorted_cons. split.
  - rewrite Forall_forall in *. intros b Hb. specialize (Hall b Hb). unfold pkLe in Hall.
    destruct (decide (a.1 = b.1)) as [Heq | Hne]; [| lia].
    exfalso. apply Hnot. rewrite (Hk a b); [assumption | left | right; assumption | assumption].
  - apply IH; [assumption | assumption |].
    intros x y Hx Hy. apply Hk; right; assumption.
Qed.

(** The instant [hour] hours before [now] falls in an earlier minute than
    a creation at [now], and in no earlier minute than a creation [hour]
    hours or more before [now]. *)
Lemma created_now_is_recent (now hour : Z) (t : ACMETask) :
  0 <= hour <= 2562047 -> 1 <= hour -> now = tCreatedAt t * 1000000000 ->
  createdWithinLastHours 0 now hour t.
Proof.
  intros Hh Hone ->. unfold createdWithinLastHours. rewrite Z.add_0_r.
  rewrite <- (seconds_minute (tCreatedAt t)).
  assert ((tCreatedAt t * 1000000000 - hour * 3600000000000) / 60000000000
          <= (tCreatedAt t * 1000000000 + (- 60) * 60000000000) / 60000000000) as H.
  { apply Z.div_le_mono; lia. }
  rewrite Z.div_add in H by lia. lia.
Qed.

Lemma created_long_ago_is_stale (now hour : Z) (t : ACMETask) :
  0 <= hour <= 2562047 ->
  tCreatedAt t * 1000000000 + hour * 3600000000000 <= now ->
  ~ createdWithinLastHours 0 now hour t.
Proof.
  intros Hh Hpast. unfold createdWithinLastHours. rewrite Z.add_0_r.
  rewrite <- (seconds_minute (tCreatedAt t)).
  assert (tCreatedAt t * 1000000000 / 60000000000
          <= (now - hour * 3600000000000) / 60000000000); [| lia].
  apply Z.div_le_mono; lia.
Qed.

(** C2, as the code has it. The scheduling query returns only tasks created
    within the last [hour] hours (to the minute): every returned row is a
    row of the store that is on, enabled, asynchronous, without a
    certificate, not excluded, and was created after the instant [hour]
    hours ago; and every such row is returned unless the limit cuts it
    off, that is unless [limit] rows, all of them with smaller ids, are
    returned in its place. With the storage session in UTC, a task is
    therefore not returned once [hour] hours have elapsed since its
    creation, and a task created at [now] that is on, enabled,
    asynchronous, without a certificate and not excluded is returned at
    once when [hour] is at least 1 (unless the limit cuts it off). *)
Theorem issue_query_selects_recent_tasks (E : Env) (now hour limit : Z)
    (excludeTasks : list Z) (w : World) :
  fault E SFindIssueACMETask = None ->
  0 <= hour <= 2562047 ->
  exists rows : list (Z * ACMETask),
    FindIssueACMETask (R:=unit) E now hour limit excludeTasks w = (Next (Ok rows.*2), w)
    /\ (forall id t, (id, t) ∈ rows ->
          acmeTasks w !! id = Some t
          /\ eligible (sessionTimeZone E) now hour excludeTasks id t)
    /\ (0 < limit ->
        forall id t, acmeTasks w !! id = Some t ->
          eligible (sessionTimeZone E) now hour excludeTasks id t ->
          (id, t) ∈ rows
          \/ (length rows = Z.to_nat limit
              /\ forall id' t', (id', t') ∈ rows -> id' < id))
    /\ (sessionTimeZone E = 0 ->
        forall id t, tCreatedAt t * 1000000000 + hour * 3600000000000 <= now ->
          (id, t) ∉ rows)
    /\ (sessionTimeZone E = 0 -> 0 < limit -> 1 <= hour ->
        forall id t, acmeTasks w !! id = Some t ->
          now = tCreatedAt t * 1000000000 ->
          tIsOn t = true -> tState t = ACMETaskStateEnabled -> tAsync t = true ->
          tCertId t = 0 -> ~ excluded excludeTasks id ->
          (id, t) ∈ rows
          \/ (length rows = Z.to_nat limit
              /\ forall id' t', (id', t') ∈ rows -> id' < id)).
Proof.
  intros Hfault Hh. unfold FindIssueACMETask. rewrite Hfault. unfold gets.
  set (P := fun kt : Z * ACMETask =>
              issuable (sessionTimeZone E) now hour
                (if (length excludeTasks =? 0)%nat then excludeTasks ++ [0] else excludeTasks)
                kt.1 kt.2 = true).
  set (S := merge_sort pkLe (filter P (map_to_list (acmeTasks w)))).
  assert (Hmem : forall id t,
            (id, t) ∈ S
            <-> acmeTasks w !! id = Some t
                /\ eligible (sessionTimeZone E) now hour excludeTasks id t).
  { intros id t. unfold S. rewrite merge_sort_Permutation, list_elem_of_filter.
    rewrite elem_of_map_to_list. unfold P. simpl.
    rewrite issuable_eligible by assumption. tauto. }
  assert (Hstrict : StronglySorted (fun a b => a.1 < b.1) S).
  { apply sorted_keys_strict.
    - apply StronglySorted_merge_sort; apply _.
    - unfold S. rewrite merge_sort_Permutation. apply NoDup_filter, NoDup_map_to_list.
    - intros [k t] [k' t'] Ha Hb Heq. simpl in Heq. subst k'.
      apply Hmem in Ha as [Ha _]. apply Hmem in Hb as [Hb _]. congruence. }
  rewrite <- (take_drop (Z.to_nat limit) S) in Hstrict.
  apply StronglySorted_app in Hstrict as (Hcut & _ & _).
  assert (Hsound : forall id t, (id, t) ∈ take (Z.to_nat limit) S ->
            acmeTasks w !! id = Some t
            /\ eligible (sessionTimeZone E) now hour excludeTasks id t).
  { intros id t Hin. apply Hmem.
    apply elem_of_take in Hin as [i [Hi _]]. eapply list_elem_of_lookup_2. exact Hi. }
  assert (Hcomplete : forall id t, acmeTasks w !! id = Some t ->
            eligible (sessionTimeZone E) now hour excludeTasks id t ->
            (id, t) ∈ take (Z.to_nat limit) S
            \/ (length (take (Z.to_nat limit) S) = Z.to_nat limit
                /\ forall id' t', (id', t') ∈ take (Z.to_nat limit) S -> id' < id)).
  { intros id t Hrow Hel.
    assert (Hin : (id, t) ∈ S) by (apply Hmem; split; assumption).
    rewrite <- (take_drop (Z.to_nat limit) S) in Hin.
    apply elem_of_app in Hin as [Hin | Hin]; [left; assumption | right].
    split.
    - rewrite length_take. apply Nat.min_l.
      destruct (Nat.le_gt_cases (Z.to_nat limit) (length S)) as [Hle | Hgt]; [assumption |].
      rewrite drop_ge in Hin by lia. apply elem_of_nil in Hin. contradiction.
    - intros id' t' Hin'. exact (Hcut _ _ Hin' Hin). }
  exists (take (Z.to_nat limit) S). split; [reflexivity |].
  split; [exact Hsound |].
  split; [intros _; exact Hcomplete |].
  split.
  - intros Hzone id t Hpast Hin. apply Hsound in Hin as [_ Hel].
    rewrite Hzone in Hel. unfold eligible in Hel.
    apply (created_long_ago_is_stale now hour t Hh Hpast). tauto.
  - intros Hzone _ Hone id t Hrow Hnow Hon Hstate Hasync Hcert Hex.
    apply Hcomplete; [assumption |]. rewrite Hzone.
    pose proof (created_now_is_recent now hour t Hh Hone Hnow) as Hrecent.
    unfold eligible. tauto.
Qed.

Lemma issue_query_selects_recent_tasks_witness :
  fault quietEnv SFindIssueACMETask = None
  /\ 0 <= 1 <= 2562047
  /\ exists rows : list (Z * ACMETask),
       FindIssueACMETask (R:=unit) quietEnv 1700000000000000000 1 10 [] world1
       = (Next (Ok rows.*2), world1)
       /\ (1, task1) ∈ rows.
Proof.
  split; [reflexivity | split; [lia |]].
  destruct (issue_query_selects_recent_tasks quietEnv 1700000000000000000 1 10 [] world1)
    as (rows & Hrun & _ & _ & _ & Hnow); [reflexivity | lia |].
  exists rows. split; [exact Hrun |].
  destruct (Hnow eq_refl ltac:(lia) ltac:(lia) 1 task1 eq_refl eq_refl eq_refl eq_refl
              eq_refl eq_refl ltac:(discriminate)) as [Hin | [Hlen _]]; [exact Hin |].
  exfalso.
  assert (Hone : FindIssueACMETask (R:=unit) quietEnv 1700000000000000000 1 10 [] world1
                 = (Next (Ok [task1]), world1)) by (vm_compute; reflexivity).
  rewrite Hone in Hrun. injection Hrun as Hrows.
  apply (f_equal (@length _)) in Hrows. rewrite length_fmap, Hlen in Hrows.
  vm_compute in Hrows. discriminate.
Defined.

(** C2, as stated, fails: with [staleHours = 1] the task created at [now]
    is returned at once, and one hour and a minute later the same task
    (enabled, asynchronous, without a certificate, not excluded) is not
    returned any more. *)
Lemma issue_query_returns_fresh_task :
  (FindIssueACMETask (R:=unit) quietEnv (1700000000 * 1000000000) 1 10 [] world1).1
    = Next (Ok [task1])
  /\ (FindIssueACMETask (R:=unit) quietEnv ((1700000000 + 3660) * 1000000000) 1 10 [] world1).1
    = Next (Ok []).
Proof. vm_compute. split; reflexivity. Qed.

(** * The TaskLog of the auto-bind entry point (lines 600-612) *)

Lemma autoBindSettle_result E taskId domains isOk errMsg certId w res :
  (exec (autoBindSettle E taskId domains (isOk, errMsg, certId)) w).1 = Returned res ->
  res = (isOk, errMsg).
Proof.
  unfold autoBindSettle, exec, bind, UpdateStatus, logIfErr, logError, modify, ret, exit, call.
  destruct isOk; simpl.
  - destruct (fault E (SUpdateStatus taskId ACMETaskStatusDone)); simpl;
      match goal with |- context [bindHosts ?a ?b ?c ?w] => destruct (bindHosts a b c w) as [[[] | [] | m] w'] end;
      simpl; congruence.
  - destruct (fault E (SUpdateStatus taskId ACMETaskStatusIssueFailed)); simpl; congruence.
Qed.

(** C5, as the code has it. An invocation of RunTaskAndAutoBindServer that
    the in-flight check does not skip and whose run returns appends exactly
    one TaskLog entry, after the run has completed (the run itself appends
    none) and with the outcome [(isOk, errMsg)] of the run, whether the run
    succeeded or failed, provided the log write itself succeeds; when the
    log write fails no entry is appended, and the invocation goes on; in
    both cases what the invocation returns is the outcome of the run, and
    it does return when the run failed. When the run panics, the panic
    reaches the caller and no entry is appended. An invocation that finds
    its task id in the in-flight set returns [(true, "")] before the log
    write and changes nothing: it appends no entry. *)
Theorem auto_bind_logs_unless_skipped (E : Env) (taskId : Z) (domains : list string)
    (w : World) :
  (taskId ∈ runningTaskMap w ->
     exec (RunTaskAndAutoBindServer E taskId domains) w = (Returned (true, ""), w))
  /\ (taskId ∉ runningTaskMap w ->
      forall isOk errMsg certId w1,
        exec (runTaskWithoutLog E taskId true) w = (Returned (isOk, errMsg, certId), w1) ->
        acmeTaskLogs w1 = acmeTaskLogs w
        /\ acmeTaskLogs (exec (RunTaskAndAutoBindServer E taskId domains) w).2
           = match fault E (SCreateACMETaskLog taskId) with
             | None => acmeTaskLogs w ++ [mkACMETaskLog taskId isOk errMsg]
             | Some _ => acmeTaskLogs w
             end
        /\ (forall res, (exec (RunTaskAndAutoBindServer E taskId domains) w).1 = Returned res ->
                        res = (isOk, errMsg))
        /\ (isOk = false ->
            (exec (RunTaskAndAutoBindServer E taskId domains) w).1 = Returned (false, errMsg)))
  /\ (taskId ∉ runningTaskMap w ->
      forall m w1,
        exec (runTaskWithoutLog E taskId true) w = (Panicked m, w1) ->
        exec (RunTaskAndAutoBindServer E taskId domains) w = (Panicked m, w1)
        /\ acmeTaskLogs w1 = acmeTaskLogs w).
Proof.
  split; [| split].
  - intros Hin. unfold RunTaskAndAutoBindServer, exec, bind, gets, exitIf.
    rewrite bool_decide_eq_true_2 by assumption. reflexivity.
  - intros Hnot isOk errMsg certId w1 Hrun.
    assert (Hlogs1 : acmeTaskLogs w1 = acmeTaskLogs w).
    { pose proof (preserves_exec _ _ w (runTaskWithoutLog_logs E taskId true)) as H.
      rewrite Hrun in H. exact H. }
    split; [exact Hlogs1 |].
    set (w2 := match fault E (SCreateACMETaskLog taskId) with
               | None => setTaskLogs (fun l => l ++ [mkACMETaskLog taskId isOk errMsg]) w1
               | Some e => setErrorLog (fun l => l ++ [e]) w1
               end).
    assert (Hstep : exec (RunTaskAndAutoBindServer E taskId domains) w
                    = exec (autoBindSettle E taskId domains (isOk, errMsg, certId)) w2).
    { unfold w2, RunTaskAndAutoBindServer, autoBindFinish, exec, bind, gets, exitIf, call,
        CreateACMETaskLog, logIfErr, logError, modify, ret in *.
      rewrite bool_decide_eq_false_2 by assumption. simpl.
      destruct (runTaskWithoutLog E taskId true w) as [[r | r | m] w1'];
        try discriminate; injection Hrun as -> ->;
        destruct (fault E (SCreateACMETaskLog taskId)); simpl; reflexivity. }
    rewrite Hstep. split; [| split].
    + pose proof (preserves_exec _ _ w2
                    (autoBindSettle_logs E taskId domains (isOk, errMsg, certId))) as H.
      unfold sameOn in H. rewrite H. unfold w2.
      destruct (fault E (SCreateACMETaskLog taskId)); simpl; rewrite Hlogs1; reflexivity.
    + intros res. apply autoBindSettle_result.
    + intros ->. unfold autoBindSettle, exec, bind, UpdateStatus, logIfErr, logError,
        modify, ret, exit. simpl.
      destruct (fault E (SUpdateStatus taskId ACMETaskStatusIssueFailed)); reflexivity.
  - intros Hnot m w1 Hrun.
    split.
    + unfold RunTaskAndAutoBindServer, exec, bind, gets, exitIf, call, ret in *.
      rewrite bool_decide_eq_false_2 by assumption. simpl.
      destruct (runTaskWithoutLog E taskId true w) as [[r | r | m'] w1'];
        try discriminate; injection Hrun as -> ->; reflexivity.
    + pose proof (preserves_exec _ _ w (runTaskWithoutLog_logs E taskId true)) as H.
      rewrite Hrun in H. exact H.
Qed.

Lemma auto_bind_logs_unless_skipped_witness :
  (1 ∉ runningTaskMap world1)
  /\ acmeTaskLogs (exec (RunTaskAndAutoBindServer quietEnv 1 ["a.example.com"]) world1).2
     = acmeTaskLogs world1 ++ [mkACMETaskLog 1 true ""].
Proof.
  assert (Hnot : 1 ∉ runningTaskMap world1) by (vm_compute; set_solver).
  split; [exact Hnot |].
  destruct (auto_bind_logs_unless_skipped quietEnv 1 ["a.example.com"] world1)
    as (_ & Hlog & _).
  destruct (Hlog Hnot true "" 1 (exec (runTaskWithoutLog quietEnv 1 true) world1).2)
    as (_ & H & _); [vm_compute; reflexivity |].
  exact H.
Defined.

(** C5, as stated, fails: an invocation whose log write fails appends no
    TaskLog entry, whatever the run did (here it succeeded, and the
    invocation returns the success); and an invocation whose run panics on
    the validation callback appends none either. Neither invocation is
    skipped: the in-flight set is empty. *)
Lemma auto_bind_may_write_no_log :
  runningTaskMap world1 = ∅
  /\ (exec (RunTaskAndAutoBindServer logStoreDownEnv 1 ["a.example.com"]) world1).1
    = Returned (true, "")
  /\ acmeTaskLogs (exec (RunTaskAndAutoBindServer logStoreDownEnv 1 ["a.example.com"]) world1).2
    = []
  /\ runningTaskMap (worldHook ":") = ∅
  /\ (exists m,
        (exec (RunTaskAndAutoBindServer badURLEnv 1 ["a.example.com"]) (worldHook ":")).1
        = Panicked m)
  /\ acmeTaskLogs (exec (RunTaskAndAutoBindServer badURLEnv 1 ["a.example.com"]) (worldHook ":")).2
    = [].
Proof.
  split; [reflexivity |]. split; [vm_compute; reflexivity |].
  split; [vm_compute; reflexivity |]. split; [reflexivity |].
  split; [eexists; vm_compute; reflexivity | vm_compute; reflexivity].
Qed.

(** * The in-flight set (lines 57, 600-604) *)

(** The steps of the schedule model are the function: an invocation that
    takes its four steps alone ends as RunTaskAndAutoBindServer does. *)
Lemma runAlone_is_RunTaskAndAutoBindServer E taskId domains w :
  match exec (RunTaskAndAutoBindServer E taskId domains) w with
  | (Returned res, w') =>
      exists sk, runAlone E taskId domains w = (TDone sk res, w')
  | (Panicked m, w') => runAlone E taskId domains w = (TPanicked m, w')
  end.
Proof.
  unfold runAlone, RunTaskAndAutoBindServer, runTaskWithoutLog, exec, bind, call, gets, exitIf.
  simpl. case_bool_decide as Hin; simpl.
  - exists true. reflexivity.
  - destruct (runTaskLoad E taskId w) as [[task | r | m] w1]; simpl; unfold exec.
    + destruct (runTaskIssue E taskId true task w1) as [[r | r | m] w2]; simpl;
        try reflexivity; unfold exec;
        destruct (autoBindFinish E taskId domains r w2) as [[res | res | m] w3]; simpl;
        try reflexivity; exists false; reflexivity.
    + destruct (autoBindFinish E taskId domains r w1) as [[res | res | m] w3]; simpl;
        try reflexivity; exists false; reflexivity.
    + reflexivity.
Qed.

Lemma stepThread_running E taskId domains t w :
  runningTaskMap (stepThread E taskId domains t w).2 = runningTaskMap w.
Proof.
  destruct t; simpl; try reflexivity.
  - case_bool_decide; reflexivity.
  - pose proof (runTaskLoad_running E taskId w) as H. unfold sameOn in H.
    destruct (runTaskLoad E taskId w) as [[? | ? | ?] ?]; exact H.
  - pose proof (preserves_exec _ _ w (runTaskIssue_running E taskId true task)) as H.
    unfold sameOn in H.
    destruct (exec (runTaskIssue E taskId true task) w) as [[? | ?] ?]; exact H.
  - pose proof (preserves_exec _ _ w (autoBindFinish_running E taskId domains r)) as H.
    unfold sameOn in H.
    destruct (exec (autoBindFinish E taskId domains r) w) as [[? | ?] ?]; exact H.
Qed.

Lemma stepThread_not_skipped E taskId domains t w :
  taskId ∉ runningTaskMap w -> skipped t = false ->
  skipped (stepThread E taskId domains t w).1 = false.
Proof.
  intros Hnot Hsk. destruct t; simpl; try assumption.
  - rewrite bool_decide_eq_false_2 by assumption. reflexivity.
  - destruct (runTaskLoad E taskId w) as [[? | ? | ?] ?]; reflexivity.
  - destruct (exec (runTaskIssue E taskId true task) w) as [[? | ?] ?]; reflexivity.
  - destruct (exec (autoBindFinish E taskId domains r) w) as [[? | ?] ?]; reflexivity.
Qed.

(** No step of an invocation puts a task id into [runningTaskMap] (or
    takes one out), so under every schedule the check of line 601 answers
    as it would at the start: when the id is not in the set then, neither of
    two invocations for that id is ever skipped. *)
Lemma in_flight_check_never_fires E1 E2 taskId domains schedule s :
  taskId ∉ runningTaskMap (shared s) ->
  skipped (first s) = false -> skipped (second s) = false ->
  let s' := runSchedule E1 E2 taskId domains schedule s in
  skipped (first s') = false /\ skipped (second s') = false
  /\ runningTaskMap (shared s') = runningTaskMap (shared s).
Proof.
  revert s. induction schedule as [| b rest IH]; intros s Hnot H1 H2; simpl.
  - repeat split; assumption.
  - destruct b.
    + pose proof (stepThread_running E2 taskId domains (second s) (shared s)) as Hr.
      pose proof (stepThread_not_skipped E2 taskId domains (second s) (shared s) Hnot H2) as Hs.
      destruct (stepThread E2 taskId domains (second s) (shared s)) as [t w']. simpl in *.
      specialize (IH (mkPair (first s) t w')). simpl in IH.
      rewrite Hr in IH. apply IH; assumption.
    + pose proof (stepThread_running E1 taskId domains (first s) (shared s)) as Hr.
      pose proof (stepThread_not_skipped E1 taskId domains (first s) (shared s) Hnot H1) as Hs.
      destruct (stepThread E1 taskId domains (first s) (shared s)) as [t w']. simpl in *.
      specialize (IH (mkPair t (second s) w')). simpl in IH.
      rewrite Hr in IH. apply IH; assumption.
Qed.

(** C4. Two invocations for task 1, their steps taken in turn: neither is
    skipped, both run the whole challenge and issuance sequence (the ACME
    client is run twice and two certificates are stored), and both write a
    TaskLog entry. The same two invocations one after the other: the second
    is not a no-op either; it reports a failure and marks the finished task
    as failed. *)
Theorem both_invocations_execute :
  let s := runSchedule quietEnv quietEnv 1 ["a.example.com"]
             [false; true; false; true; false; true; false; true]
             (mkPair TStart TStart world1) in
  let s' := runSchedule quietEnv quietEnv 1 ["a.example.com"]
              [false; false; false; false; true; true; true; true]
              (mkPair TStart TStart world1) in
  first s = TDone false (true, "") /\ second s = TDone false (true, "")
  /\ acmeRuns (shared s) = [1; 1]
  /\ size (sslCerts (shared s)) = 2%nat
  /\ acmeTaskLogs (shared s) = [mkACMETaskLog 1 true ""; mkACMETaskLog 1 true ""]
  /\ first s' = TDone false (true, "") /\ second s' = TDone false (false, "任务已完成")
  /\ (tStatus <$> acmeTasks (shared s') !! 1) = Some ACMETaskStatusIssueFailed.
Proof. vm_compute. repeat split. Qed.

(** * Updating a host's policy (lines 739-752) *)

(** What the update of an existing policy passes to UpdatePolicy: the
    settings read from the policy row, the merged reference list, and no
    cipher suites. *)
Lemma bindServer_update_arguments E serverId serverInfo w p :
  fault E (SMarshalCertRefs serverId) = None ->
  SSLPolicyId serverInfo <> 0 ->
  fault E (SFindEnabledSSLPolicy (SSLPolicyId serverInfo)) = None ->
  sslPolicies w !! SSLPolicyId serverInfo = Some p ->
  pState p = SSLPolicyStateEnabled ->
  policyUpdates (bindServer E serverId serverInfo w).2
  = policyUpdates w
    ++ [mkPolicyUpdate (SSLPolicyId serverInfo) (pHttp2Enabled p) (pHttp3Enabled p)
          (pMinVersion p) (composeCertRefs (CertIds serverInfo) ∅ []) (pHsts p)
          (pOcspIsOn p =? 1) (int32 (pClientAuthType p)) (pClientCACerts p)
          (pCipherSuitesIsOn p =? 1) []].
Proof.
  intros Hm Hid Hf Hp Hst.
  unfold bindServer, bind, FindEnabledSSLPolicy, UpdatePolicy, gets, modify, ret, bind.
  rewrite Hm. simpl.
  rewrite (proj2 (Z.eqb_neq _ _) Hid). rewrite Hf. simpl. rewrite Hp, Hst. simpl.
  destruct (fault E (SUpdatePolicy (SSLPolicyId serverInfo))); reflexivity.
Qed.

(** C7. The host of [a.example.com] has policy 20 with the cipher-suite
    list [TLS_AES_128_GCM_SHA256]. After the new certificate is bound, the
    one UpdatePolicy call carried the policy's other settings as they were
    but an empty cipher-suite list, and the policy row has lost its cipher
    suites. *)
Theorem policy_update_drops_cipher_suites :
  let w' := (exec (RunTaskAndAutoBindServer quietEnv 1 ["a.example.com"])
               (worldBound ["b.example.com"] 1700000001)).2 in
  pCipherSuites policy20 = ["TLS_AES_128_GCM_SHA256"]
  /\ policyUpdates w'
     = [mkPolicyUpdate 20 (pHttp2Enabled policy20) (pHttp3Enabled policy20)
          (pMinVersion policy20) [mkSSLCertRef true 3; mkSSLCertRef true 4]
          (pHsts policy20) true (pClientAuthType policy20) (pClientCACerts policy20)
          true []]
  /\ (pCipherSuites <$> sslPolicies w' !! 20) = Some [].
Proof. vm_compute. repeat split. Qed.

(** * Status and certificate reference of a task *)



(** Loading the task (lines 325-348). *)
Lemma runTaskLoad_cases E taskId w :
  match runTaskLoad E taskId w with
  | (Next task, w1) =>
      acmeTasks w !! taskId = Some task
      /\ tStatus task <> ACMETaskStatusDone
      /\ (acmeTasks w1 = acmeTasks w
          \/ acmeTasks w1 = alter (taskWithStatus ACMETaskStatusRunning) taskId (acmeTasks w))
  | (Exit r, w1) => r.1.1 = false /\ acmeTasks w1 = acmeTasks w
  | (Panic _, _) => False
  end.
Proof.
  unfold runTaskLoad, FindEnabledACMETask, UpdateStatus.
  unfold_helpers. unfold_proc.
  run_cases; simplify_eq; auto.
  all: repeat split; auto; try (apply Z.eqb_neq; assumption).
Qed.

(** Preparing the request (lines 350-464) changes nothing; when it returns
    early, it reports a failure. *)
Lemma runTaskPrepare_cases E task random w :
  (runTaskPrepare E task random w).2 = w
  /\ forall r, (runTaskPrepare E task random w).1 = Exit r -> r.1.1 = false.
Proof.
  unfold runTaskPrepare. unfold_helpers. unfold_proc.
  run_cases; split; try reflexivity; intros r' Hr; simplify_eq; reflexivity.
Qed.

Lemma forEach_no_exit {X A} (l : list A) (body : A -> Proc unit unit) w (r : X) :
  (forEach l body w).1 <> Exit r.
Proof.
  revert w. induction l as [| x l IH]; intros w; simpl; [discriminate |].
  unfold bind, call. destruct (body x w) as [[[] | [] | m] w']; simpl; try apply IH; discriminate.
Qed.

(** The ACME run (line 500) returns the client's answer or panics; it does
    not touch the task table. *)
Lemma acmeRequestRun_cases E taskId task req w :
  acmeTasks (acmeRequestRun E taskId task req w).2 = acmeTasks w
  /\ ((acmeRequestRun E taskId task req w).1 = Next (acmeRun E req).2
      \/ exists m, (acmeRequestRun E taskId task req w).1 = Panic m).
Proof.
  split; [apply (acmeRequestRun_tasks E taskId task req w) |].
  unfold acmeRequestRun, bind, modify, ret. simpl.
  pose proof (forEach_no_exit (X:=RunResult) (acmeRun E req).1 (OnAuth E taskId task)
                (setAcmeRuns (fun l => l ++ [taskId]) w)) as Hne.
  destruct (forEach (acmeRun E req).1 (OnAuth E taskId task)
              (setAcmeRuns (fun l => l ++ [taskId]) w)) as [[[] | r | m] w']; simpl in *.
  - left. reflexivity.
  - exfalso. apply (Hne r). reflexivity.
  - right. exists m. reflexivity.
Qed.

(** Saving the certificate (lines 517-565): a success leaves the task with
    the certificate it had (renewal), or with the new certificate, whose id
    is returned; a failure leaves the task table alone or disables the task. *)
Lemma runTaskSave_cases E taskId task certData keyData info w :
  match runTaskSave E taskId task certData keyData info w with
  | (Next r, w1) | (Exit r, w1) =>
      if r.1.1 then
        (0 < int64 (tCertId task) /\ r.2 = int64 (tCertId task)
         /\ acmeTasks w1 = acmeTasks w)
        \/ (~ 0 < int64 (tCertId task) /\ 0 < r.2
            /\ acmeTasks w1 = alter (taskWithCertId r.2) taskId (acmeTasks w))
      else
        acmeTasks w1 = acmeTasks w
        \/ acmeTasks w1 = alter (taskWithState ACMETaskStateDisabled) taskId (acmeTasks w)
  | (Panic _, _) => False
  end.
Proof.
  unfold runTaskSave, FindEnabledSSLCert, DisableACMETask, UpdateCert, CreateCert,
    UpdateCertACME, UpdateACMETaskCert.
  unfold_helpers. unfold_proc.
  run_cases; simplify_eq; simpl; auto.
  - left. repeat split; auto. apply Z.ltb_lt. assumption.
  - right. repeat split; auto.
    + rewrite Z.ltb_ge in *. lia.
    + apply nextId_pos.
Qed.

Lemma tableStep_same taskId (P : ACMETask -> ACMETask -> Prop) m m' :
  m' = m -> (forall t, m !! taskId = Some t -> P t t) -> tableStep taskId P m m'.
Proof.
  intros -> HP. split; [reflexivity |].
  destruct (m !! taskId) as [t |] eqn:Ht; [| reflexivity].
  exists t. split; [reflexivity | apply HP; reflexivity].
Qed.

Lemma tableStep_alter taskId (P : ACMETask -> ACMETask -> Prop) f m m' :
  m' = alter f taskId m -> (forall t, m !! taskId = Some t -> P t (f t)) ->
  tableStep taskId P m m'.
Proof.
  intros -> HP. split.
  - intros k Hk. apply lookup_alter_ne. congruence.
  - rewrite lookup_alter_eq. destruct (m !! taskId) as [t |] eqn:Ht; simpl; [| reflexivity].
    exists (f t). split; [reflexivity | apply HP; reflexivity].
Qed.

Lemma tableStep_trans taskId (P Q R : ACMETask -> ACMETask -> Prop) m m' m'' :
  tableStep taskId P m m' -> tableStep taskId Q m' m'' ->
  (forall t t' t'', m !! taskId = Some t -> P t t' -> Q t' t'' -> R t t'') ->
  tableStep taskId R m m''.
Proof.
  intros [H1 H1'] [H2 H2'] HR. split.
  - intros k Hk. rewrite H2, H1 by assumption. reflexivity.
  - destruct (m !! taskId) as [t |] eqn:Ht.
    + destruct H1' as [t' [Ht' HP]]. rewrite Ht' in H2'.
      destruct H2' as [t'' [Ht'' HQ]]. exists t''. split; [assumption |].
      eapply HR; [reflexivity | eassumption | eassumption].
    + rewrite H1' in H2'. assumption.
Qed.

Lemma tableStep_weaken taskId (P Q : ACMETask -> ACMETask -> Prop) m m' :
  tableStep taskId P m m' -> (forall t t', m !! taskId = Some t -> P t t' -> Q t t') ->
  tableStep taskId Q m m'.
Proof.
  intros [H1 H1'] HQ. split; [assumption |].
  destruct (m !! taskId) as [t |] eqn:Ht; [| assumption].
  destruct H1' as [t' [Ht' HP]]. exists t'. split; [assumption | apply HQ; [reflexivity | assumption]].
Qed.


Lemma loaded_row taskId m mA :
  mA = m \/ mA = alter (taskWithStatus ACMETaskStatusRunning) taskId m ->
  tableStep taskId panicRow m mA.
Proof.
  intros [-> | ->].
  - apply tableStep_same; [reflexivity |]. intros t _. split; [left |]; reflexivity.
  - eapply tableStep_alter; [reflexivity |]. intros t _. split; [right |]; reflexivity.
Qed.

Lemma failed_row (r : RunResult) (t t' : ACMETask) :
  r.1.1 = false -> panicRow t t' -> runRow r t t'.
Proof. intros Hr [H1 H2]. split; [assumption |]. rewrite Hr. assumption. Qed.

(** How runTaskWithoutLog changes the task table. *)
Lemma runTaskWithoutLog_row E taskId random w :
  match exec (runTaskWithoutLog E taskId random) w with
  | (Returned r, w1) => tableStep taskId (runRow r) (acmeTasks w) (acmeTasks w1)
  | (Panicked _, w1) => tableStep taskId panicRow (acmeTasks w) (acmeTasks w1)
  end.
Proof.
  unfold runTaskWithoutLog, runTaskIssue, exec, bind.
  pose proof (runTaskLoad_cases E taskId w) as HA.
  destruct (runTaskLoad E taskId w) as [[task | r | m] wA]; [| | contradiction].
  2: { destruct HA as [Hr ->]. apply tableStep_same; [reflexivity |].
       intros t _. apply failed_row; [assumption |]. split; [left |]; reflexivity. }
  destruct HA as (Hm & Hst & HtA). apply loaded_row in HtA.
  pose proof (runTaskPrepare_cases E task random wA) as [HB1 HB2].
  destruct (runTaskPrepare E task random wA) as [[req | r | m] wB]; simpl in HB1; subst wB.
  2: { eapply tableStep_weaken; [eassumption |]. intros t t' _. apply failed_row.
       apply HB2. reflexivity. }
  2: { assumption. }
  pose proof (acmeRequestRun_cases E taskId task req wA) as [HC1 HC2].
  destruct (acmeRequestRun E taskId task req wA) as [[res | r | m] wC]; simpl in HC1, HC2.
  2: { destruct HC2 as [HC2 | [m' HC2]]; discriminate. }
  2: { rewrite HC1. assumption. }
  unfold orExit, ret, exit.
  destruct res as [[certData keyData] | e]; simpl.
  2: { rewrite HC1. eapply tableStep_weaken; [eassumption |]. intros t t' _.
       apply failed_row. reflexivity. }
  destruct (sslConfigInit E certData keyData) as [info | e]; simpl.
  2: { rewrite HC1. eapply tableStep_weaken; [eassumption |]. intros t t' _.
       apply failed_row. reflexivity. }
  pose proof (runTaskSave_cases E taskId task certData keyData info wC) as HD.
  rewrite HC1 in HD.
  assert (Hrow : forall (r : RunResult) (w1 : World),
            (if r.1.1 then
               (0 < int64 (tCertId task) /\ r.2 = int64 (tCertId task)
                /\ acmeTasks w1 = acmeTasks wA)
               \/ (~ 0 < int64 (tCertId task) /\ 0 < r.2
                   /\ acmeTasks w1 = alter (taskWithCertId r.2) taskId (acmeTasks wA))
             else
               acmeTasks w1 = acmeTasks wA
               \/ acmeTasks w1 = alter (taskWithState ACMETaskStateDisabled) taskId (acmeTasks wA)) ->
            tableStep taskId (runRow r) (acmeTasks w) (acmeTasks w1)).
  { intros r w1 H. destruct (r.1.1) eqn:Hok.
    - destruct H as [(Hpos & Hr2 & Ht) | (Hneg & Hr2 & Ht)].
      + rewrite Ht. eapply tableStep_weaken; [eassumption |].
        intros t t' Ht0 [Hs Hc]. rewrite Hm in Ht0. injection Ht0 as <-.
        split; [assumption |]. rewrite Hok. split; [assumption |]. left. split; assumption.
      + eapply (tableStep_trans _ _ (fun t t' => t' = taskWithCertId r.2 t));
          [eassumption | |].
        * eapply tableStep_alter; [eassumption |]. intros t _. reflexivity.
        * simpl. intros t t' t'' Ht0 [Hs Hc] ->. rewrite Hm in Ht0. injection Ht0 as <-.
          split; [assumption |]. rewrite Hok. split; [assumption |].
          right. repeat split; assumption.
    - destruct H as [Ht | Ht].
      + rewrite Ht. eapply tableStep_weaken; [eassumption |].
        intros t t' _. apply failed_row. assumption.
      + eapply (tableStep_trans _ _ (fun t t' => t' = taskWithState ACMETaskStateDisabled t));
          [eassumption | |].
        * eapply tableStep_alter; [eassumption |]. intros t _. reflexivity.
        * simpl. intros t t' t'' _ [Hs Hc] ->. apply failed_row; [assumption |].
          split; assumption. }
  destruct (runTaskSave E taskId task certData keyData info wC) as [[r | r | m] w1];
    [apply Hrow; assumption | apply Hrow; assumption | contradiction].
Qed.

Lemma int64_pos_nonzero (z : Z) : 0 < int64 z -> z <> 0.
Proof. intros H ->. vm_compute in H. discriminate. Qed.



Lemma runRow_success_cert r t t' : r.1.1 = true -> runRow r t t' -> tCertId t' <> 0.
Proof.
  intros Hr [_ Hc]. rewrite Hr in Hc.
  destruct Hc as [_ [[Hpos ->] | (_ & -> & Hpos)]]; [apply int64_pos_nonzero; assumption | lia].
Qed.

(** RunTask changes the task table as the run does: the log write does not
    touch it. *)
Lemma RunTask_row E taskId w :
  match exec (RunTask E taskId) w with
  | (Returned r, w1) => tableStep taskId (runRow r) (acmeTasks w) (acmeTasks w1)
  | (Panicked _, w1) => tableStep taskId panicRow (acmeTasks w) (acmeTasks w1)
  end.
Proof.
  pose proof (runTaskWithoutLog_row E taskId false w) as H.
  unfold RunTask, exec, bind, call, CreateACMETaskLog, logIfErr, logError, modify, ret in *.
  destruct (runTaskWithoutLog E taskId false w) as [[r | r | m] w1]; simpl; try assumption;
    destruct (fault E (SCreateACMETaskLog taskId)); simpl; assumption.
Qed.




Lemma autoBindFinish_result E taskId domains (r : RunResult) w res :
  (exec (autoBindFinish E taskId domains r) w).1 = Returned res -> res = (r.1.1, r.1.2).
Proof.
  destruct r as [[isOk errMsg] certId]. simpl.
  unfold autoBindFinish. unfold exec, bind at 1. unfold CreateACMETaskLog, logIfErr, logError.
  destruct (fault E (SCreateACMETaskLog taskId)); unfold bind, modify, ret; simpl;
    apply autoBindSettle_result.
Qed.


Lemma taskWithState_rowOK st t : rowOK t -> rowOK (taskWithState st t).
Proof. intros H. exact H. Qed.





(** * The supersession rule (lines 674-697) *)

Lemma ListIsGreaterEqualThanOther_covers (domains names : list string) :
  ListIsGreaterEqualThanOther domains names = true <-> covers domains names.
Proof.
  unfold ListIsGreaterEqualThanOther, covers. rewrite forallb_forall. split.
  - intros H d Hd. apply list_elem_of_In in Hd. specialize (H d Hd).
    apply existsb_exists in H as [x [Hx Heq]]. apply String.eqb_eq in Heq. subst x.
    apply list_elem_of_In. assumption.
  - intros H d Hd. apply list_elem_of_In in Hd. specialize (H d Hd).
    apply existsb_exists. exists d. split; [apply list_elem_of_In; assumption |].
    apply String.eqb_refl.
Qed.

Lemma superseded_rule (domains : list string) (newCert cert : SSLCert) :
  - 2 ^ 63 <= cTimeEndAt newCert < 2 ^ 63 ->
  superseded domains newCert cert = true
  <-> covers domains (cDNSNames cert) /\ cTimeEndAt cert < cTimeEndAt newCert.
Proof.
  intros Hr. unfold superseded. rewrite int64_id by assumption.
  rewrite andb_true_iff, ListIsGreaterEqualThanOther_covers, Z.ltb_lt. reflexivity.
Qed.

(** One prior certificate (lines 676-686). *)
Lemma mergeCert_step E domains newCert c certIds w :
  mergeCert E domains (Some newCert) c certIds w
  = if superseded domains newCert c
    then (Exit certIds, disableSuperseded E domains newCert [c] w)
    else (Next (certIds ++ [cId c]), w).
Proof.
  unfold mergeCert, disableSuperseded, superseded, bind, DisableSSLCert, logIfErr, logError,
    modify, ret, exit. simpl.
  destruct (ListIsGreaterEqualThanOther domains (cDNSNames c)); simpl; [| reflexivity].
  destruct (cTimeEndAt c <? int64 (cTimeEndAt newCert)); simpl; [| reflexivity].
  destruct (fault E (SDisableSSLCert (cId c))); reflexivity.
Qed.

(** The loop of lines 676-686 as a whole. *)
Lemma mergeCert_loop E domains newCert certs certIds w :
  foldEach (R:=ScanState) certs certIds (mergeCert E domains (Some newCert)) w
  = (Next (certIds ++ survivors domains newCert certs),
     disableSuperseded E domains newCert certs w).
Proof.
  revert certIds w. induction certs as [| c certs IH]; intros certIds w; simpl.
  - unfold ret, survivors. simpl. rewrite app_nil_r. reflexivity.
  - unfold bind at 1. unfold call. rewrite mergeCert_step. unfold survivors.
    destruct (superseded domains newCert c) eqn:Hs.
    + rewrite filter_cons_False by (rewrite Hs; discriminate). rewrite IH.
      unfold survivors, disableSuperseded. simpl. rewrite Hs. reflexivity.
    + rewrite filter_cons_True by assumption. rewrite IH. unfold survivors.
      rewrite fmap_cons, <- app_assoc. reflexivity.
Qed.

Lemma mergeCerts_run E domains newCert resultCertId certs w :
  mergeCerts (R:=ScanState) E domains (Some newCert) resultCertId certs w
  = (Next (survivors domains newCert certs ++ [resultCertId]),
     disableSuperseded E domains newCert certs w).
Proof.
  unfold mergeCerts, bind. rewrite mergeCert_loop. reflexivity.
Qed.

Lemma disableSuperseded_policies E domains newCert certs w :
  sslPolicies (disableSuperseded E domains newCert certs w) = sslPolicies w
  /\ policyUpdates (disableSuperseded E domains newCert certs w) = policyUpdates w.
Proof.
  revert w. unfold disableSuperseded.
  induction certs as [| c certs IH]; intros w; simpl; [split; reflexivity |].
  destruct (IH (if superseded domains newCert c
                then match fault E (SDisableSSLCert (cId c)) with
                     | Some e => setErrorLog (fun l => l ++ [e]) w
                     | None => setCerts (alter (certWithState SSLCertStateDisabled) (cId c)) w
                     end
                else w)) as [-> ->].
  destruct (superseded domains newCert c); [| split; reflexivity].
  destruct (fault E (SDisableSSLCert (cId c))); split; reflexivity.
Qed.

Lemma disableSuperseded_lookup E domains newCert certs w k :
  sslCerts (disableSuperseded E domains newCert certs w) !! k
  = (if existsb (disables E domains newCert k) certs
     then certWithState SSLCertStateDisabled else (fun c => c)) <$> sslCerts w !! k.
Proof.
  revert w. unfold disableSuperseded.
  induction certs as [| c certs IH]; intros w; simpl.
  - destruct (sslCerts w !! k); reflexivity.
  - rewrite IH.
    assert (Hd : disables E domains newCert k c
                 = superseded domains newCert c && (cId c =? k)
                   && match fault E (SDisableSSLCert (cId c)) with
                      | Some _ => false
                      | None => true
                      end) by reflexivity.
    rewrite Hd. clear Hd.
    destruct (superseded domains newCert c); simpl; [| reflexivity].
    destruct (fault E (SDisableSSLCert (cId c))); simpl.
    + rewrite andb_false_r. reflexivity.
    + rewrite andb_true_r. destruct (Z.eqb_spec (cId c) k) as [-> | Hne]; simpl.
      * rewrite lookup_alter_eq. destruct (sslCerts w !! k) as [c0 |]; simpl; [| reflexivity].
        destruct (existsb (disables E domains newCert k) certs); reflexivity.
      * rewrite lookup_alter_ne by assumption. reflexivity.
Qed.

(** A host with a policy (lines 656-693): what the scan records for it. *)
Lemma scanServer_with_policy E domains newCert resultCertId server names tls ref p st w :
  sPlainServerNames server = Some names ->
  sHttps server = Some tls ->
  hSSLPolicyRef tls = Some ref ->
  fault E (SComposePolicyConfig (prSSLPolicyId ref)) = None ->
  sslPolicies w !! prSSLPolicyId ref = Some p ->
  pState p = SSLPolicyStateEnabled ->
  scanServer E domains (Some newCert) resultCertId server st w
  = (Exit (<[int64 (sId server) :=
               mkServerInfo (pId p)
                 (survivors domains newCert (policyCerts w p) ++ [resultCertId])
                 (int64 (sUserId server)) tls]> (st.1),
           st.2 ∪ list_to_set names),
     disableSuperseded E domains newCert (policyCerts w p) w).
Proof.
  intros Hn Hh Hr Hf Hp Hs.
  unfold scanServer, bind, someOrExit, ComposePolicyConfig, gets, ret, exit.
  rewrite Hn, Hh. simpl. rewrite Hr, Hf. simpl. rewrite Hp, Hs. simpl.
  rewrite mergeCerts_run. reflexivity.
Qed.

(** The entry of an existing policy (lines 739-751): the policy row after
    the update. *)
Lemma bindServer_existing_policy E serverId serverInfo w p :
  fault E (SMarshalCertRefs serverId) = None ->
  SSLPolicyId serverInfo <> 0 ->
  fault E (SFindEnabledSSLPolicy (SSLPolicyId serverInfo)) = None ->
  fault E (SUpdatePolicy (SSLPolicyId serverInfo)) = None ->
  sslPolicies w !! SSLPolicyId serverInfo = Some p ->
  pState p = SSLPolicyStateEnabled ->
  sslCerts (bindServer E serverId serverInfo w).2 = sslCerts w
  /\ exists p', sslPolicies (bindServer E serverId serverInfo w).2 !! SSLPolicyId serverInfo
                = Some p'
                /\ pCerts p' = composeCertRefs (CertIds serverInfo) ∅ [].
Proof.
  intros Hm Hid Hf Hu Hp Hst.
  unfold bindServer, bind, FindEnabledSSLPolicy, UpdatePolicy, gets, modify, ret, bind.
  rewrite Hm. simpl.
  rewrite (proj2 (Z.eqb_neq _ _) Hid). rewrite Hf. simpl. rewrite Hp, Hst. simpl.
  rewrite Hu. simpl. split; [reflexivity |].
  rewrite lookup_alter_eq, Hp. simpl. eexists. split; reflexivity.
Qed.

Lemma policyCerts_stored w p c :
  keyedById w -> c ∈ policyCerts w p ->
  sslCerts w !! cId c = Some c /\ cState c = SSLCertStateEnabled.
Proof.
  intros Hkey Hc. unfold policyCerts in Hc.
  apply list_elem_of_omap in Hc as [ref [_ Hen]]. unfold enabledCert in Hen.
  destruct (sslCerts w !! refCertId ref) as [c0 |] eqn:H0; [| discriminate].
  destruct (Z.eqb_spec (cState c0) SSLCertStateEnabled) as [Hst | Hst]; [| discriminate].
  injection Hen as <-. rewrite (Hkey _ _ H0). split; assumption.
Qed.

Lemma survivors_elem w p domains newCert C1 :
  keyedById w -> C1 ∈ policyCerts w p ->
  cId C1 ∈ survivors domains newCert (policyCerts w p) <-> superseded domains newCert C1 = false.
Proof.
  intros Hkey HC1. unfold survivors. rewrite list_elem_of_fmap. split.
  - intros [c [Hid Hc]]. apply list_elem_of_filter in Hc as [Hs Hc].
    destruct (policyCerts_stored w p c Hkey Hc) as [Hc1 _].
    destruct (policyCerts_stored w p C1 Hkey HC1) as [Hc2 _].
    rewrite <- Hid, Hc2 in Hc1. injection Hc1 as ->. assumption.
  - intros Hs. exists C1. split; [reflexivity |]. apply list_elem_of_filter. split; assumption.
Qed.

Lemma disables_elem E w p domains newCert C1 :
  keyedById w -> C1 ∈ policyCerts w p ->
  fault E (SDisableSSLCert (cId C1)) = None ->
  existsb (disables E domains newCert (cId C1)) (policyCerts w p)
  = superseded domains newCert C1.
Proof.
  intros Hkey HC1 Hf.
  destruct (superseded domains newCert C1) eqn:Hs.
  - apply existsb_exists. exists C1. split; [apply list_elem_of_In; assumption |].
    unfold disables. rewrite Hs, Hf, Z.eqb_refl. reflexivity.
  - apply not_true_iff_false. intros H. apply existsb_exists in H as [c [Hc Hd]].
    apply list_elem_of_In in Hc. unfold disables in Hd.
    apply andb_true_iff in Hd as [Hd _]. apply andb_true_iff in Hd as [Hsc Hid].
    apply Z.eqb_eq in Hid.
    destruct (policyCerts_stored w p c Hkey Hc) as [Hc1 _].
    destruct (policyCerts_stored w p C1 Hkey HC1) as [Hc2 _].
    rewrite Hid, Hc2 in Hc1. injection Hc1 as ->. congruence.
Qed.

(** The rule of the merge on one host, as the code has it. A host with an
    existing, enabled TLS policy, a new certificate [newCert] (id
    [resultCertId]), the [domains] the entry point was given, and a prior
    certificate [C1] that the policy references (the stores being keyed by
    id and the storage calls for this host succeeding). After the scan of
    the host (lines 656-693) and the update of its policy (lines 700-751):
    the policy references the new certificate; [C1] is dropped from the
    reference list exactly when [domains] covers all names of [C1] and [C1]
    expires strictly before the new certificate, and it is disabled exactly
    then; when [domains] does not cover the names of [C1], both [C1] and
    the new certificate are referenced. *)
Lemma merge_rule_per_host (E : Env) (domains : list string) (newCert : SSLCert)
    (resultCertId : Z) (server : Server) (names : list string) (tls : HTTPSProtocolConfig)
    (ref : SSLPolicyRef) (p : SSLPolicy) (C1 : SSLCert) (st : ScanState) (w : World) :
  sPlainServerNames server = Some names ->
  sHttps server = Some tls ->
  hSSLPolicyRef tls = Some ref ->
  sslPolicies w !! prSSLPolicyId ref = Some p ->
  pState p = SSLPolicyStateEnabled ->
  pId p = prSSLPolicyId ref ->
  pId p <> 0 ->
  keyedById w ->
  sslCerts w !! resultCertId = Some newCert ->
  - 2 ^ 63 <= cTimeEndAt newCert < 2 ^ 63 ->
  C1 ∈ policyCerts w p ->
  fault E (SComposePolicyConfig (pId p)) = None ->
  fault E (SDisableSSLCert (cId C1)) = None ->
  fault E (SMarshalCertRefs (int64 (sId server))) = None ->
  fault E (SFindEnabledSSLPolicy (pId p)) = None ->
  fault E (SUpdatePolicy (pId p)) = None ->
  exists st1 serverInfo w1,
    scanServer E domains (Some newCert) resultCertId server st w = (Exit st1, w1)
    /\ st1.1 !! int64 (sId server) = Some serverInfo
    /\ exists p2,
         let w2 := (bindServer E (int64 (sId server)) serverInfo w1).2 in
         sslPolicies w2 !! pId p = Some p2
         /\ resultCertId ∈ refIds (pCerts p2)
         /\ (cId C1 ∉ refIds (pCerts p2)
             <-> covers domains (cDNSNames C1) /\ cTimeEndAt C1 < cTimeEndAt newCert)
         /\ ((cState <$> sslCerts w2 !! cId C1) = Some SSLCertStateDisabled
             <-> covers domains (cDNSNames C1) /\ cTimeEndAt C1 < cTimeEndAt newCert)
         /\ (~ covers domains (cDNSNames C1) ->
             cId C1 ∈ refIds (pCerts p2) /\ resultCertId ∈ refIds (pCerts p2)).
Proof.
  intros Hn Hh Hr Hp Hs Hpid Hnz Hkey Hnew Hrange HC1 Hf1 Hf2 Hf3 Hf4 Hf5.
  rewrite Hpid in Hf1.
  rewrite (scanServer_with_policy E domains newCert resultCertId server names tls ref p st w)
    by assumption.
  eexists _, _, _. split; [reflexivity |]. simpl. split; [apply lookup_insert_eq |].
  destruct (disableSuperseded_policies E domains newCert (policyCerts w p) w) as [Hpol _].
  destruct (bindServer_existing_policy E (int64 (sId server))
              (mkServerInfo (pId p)
                 (survivors domains newCert (policyCerts w p) ++ [resultCertId])
                 (int64 (sUserId server)) tls)
              (disableSuperseded E domains newCert (policyCerts w p) w) p)
    as [Hcerts [p2 [Hp2 Hrefs]]]; simpl; try assumption.
  { rewrite Hpol, Hpid. assumption. }
  simpl in Hp2, Hrefs.
  exists p2. split; [assumption |].
  assert (Hmem : forall x, x ∈ refIds (pCerts p2)
                           <-> x ∈ survivors domains newCert (policyCerts w p) \/ x = resultCertId).
  { intros x. rewrite Hrefs, composeCertRefs_elem, elem_of_app, list_elem_of_singleton.
    reflexivity. }
  assert (Hnewcert : cId C1 = resultCertId -> superseded domains newCert C1 = false).
  { intros Hid. destruct (policyCerts_stored w p C1 Hkey HC1) as [Hst _].
    rewrite Hid, Hnew in Hst. injection Hst as <-.
    unfold superseded. rewrite int64_id by assumption.
    rewrite (proj2 (Z.ltb_ge _ _)) by lia. apply andb_false_r. }
  assert (Hin : cId C1 ∈ refIds (pCerts p2) <-> superseded domains newCert C1 = false).
  { rewrite Hmem, (survivors_elem w p domains newCert C1 Hkey HC1). tauto. }
  pose proof (superseded_rule domains newCert C1 Hrange) as Hrule.
  split; [apply Hmem; right; reflexivity |].
  split; [| split].
  - rewrite <- Hrule, Hin. destruct (superseded domains newCert C1); split; congruence.
  - rewrite <- Hrule, Hcerts, disableSuperseded_lookup.
    rewrite (disables_elem E w p domains newCert C1 Hkey HC1 Hf2).
    destruct (policyCerts_stored w p C1 Hkey HC1) as [-> Hen].
    destruct (superseded domains newCert C1); simpl.
    + split; reflexivity.
    + rewrite Hen. split; discriminate.
  - intros Hnc. split; [| apply Hmem; right; reflexivity].
    apply Hin. destruct (superseded domains newCert C1) eqn:Hsup; [| reflexivity].
    destruct (proj1 Hrule eq_refl) as [Hc _]. contradiction.
Qed.

Lemma merge_rule_per_host_witness :
  exists st1 serverInfo w1,
    scanServer quietEnv ["a.example.com"] (Some cert4) 4 server10 (∅, ∅)
      (worldIssued ["a.example.com"] 1700000001) = (Exit st1, w1)
    /\ st1.1 !! int64 (sId server10) = Some serverInfo
    /\ exists p2,
         let w2 := (bindServer quietEnv (int64 (sId server10)) serverInfo w1).2 in
         sslPolicies w2 !! pId policy20 = Some p2
         /\ 4 ∈ refIds (pCerts p2)
         /\ (cId (cert3 ["a.example.com"] 1700000001) ∉ refIds (pCerts p2)
             <-> covers ["a.example.com"] (cDNSNames (cert3 ["a.example.com"] 1700000001))
                 /\ cTimeEndAt (cert3 ["a.example.com"] 1700000001) < cTimeEndAt cert4)
         /\ ((cState <$> sslCerts w2 !! cId (cert3 ["a.example.com"] 1700000001))
             = Some SSLCertStateDisabled
             <-> covers ["a.example.com"] (cDNSNames (cert3 ["a.example.com"] 1700000001))
                 /\ cTimeEndAt (cert3 ["a.example.com"] 1700000001) < cTimeEndAt cert4)
         /\ (~ covers ["a.example.com"] (cDNSNames (cert3 ["a.example.com"] 1700000001)) ->
             cId (cert3 ["a.example.com"] 1700000001) ∈ refIds (pCerts p2)
             /\ 4 ∈ refIds (pCerts p2)).
Proof.
  apply (merge_rule_per_host quietEnv ["a.example.com"] cert4 4 server10 ["a.example.com"]
           (mkHTTPSProtocolConfig true "listen :443" (Some (mkSSLPolicyRef true 20)))
           (mkSSLPolicyRef true 20) policy20 (cert3 ["a.example.com"] 1700000001) (∅, ∅)
           (worldIssued ["a.example.com"] 1700000001));
    try reflexivity; try (simpl; lia).
  - intros k c H. unfold worldIssued, worldBound in H. simpl in H.
    rewrite lookup_insert in H. case_decide as Hk.
    + injection H as <-. exact Hk.
    + apply lookup_singleton_Some in H as [<- <-]. reflexivity.
  - unfold policyCerts. apply list_elem_of_omap. exists (mkSSLCertRef true 3).
    split; [vm_compute; apply list_elem_of_here | vm_compute; reflexivity].
Defined.

(** The rule on the whole entry point, where the domains the entry point
    is given are the names of the new certificate: the prior certificate 3
    of the host's policy covers only [a.example.com] and expires first, so
    after RunTaskAndAutoBindServer the policy references the new
    certificate 4 alone and certificate 3 is disabled; with the name
    [b.example.com] it stays referenced next to certificate 4. *)
Example supersession_end_to_end :
  let w1 := (exec (RunTaskAndAutoBindServer quietEnv 1 ["a.example.com"])
               (worldBound ["a.example.com"] 1700000001)).2 in
  let w2 := (exec (RunTaskAndAutoBindServer quietEnv 1 ["a.example.com"])
               (worldBound ["b.example.com"] 1700000001)).2 in
  (refIds <$> (pCerts <$> sslPolicies w1 !! 20)) = Some [4]
  /\ (cState <$> sslCerts w1 !! 3) = Some SSLCertStateDisabled
  /\ (refIds <$> (pCerts <$> sslPolicies w2 !! 20)) = Some [3; 4]
  /\ (cState <$> sslCerts w2 !! 3) = Some SSLCertStateEnabled.
Proof. vm_compute. repeat split. Qed.

(** C3 fails on the entry point: the merge does not follow the supersession
    rule on the coverage of the new certificate, and not for every host.

    Host skipped. The task, the [domains] argument and the new certificate
    4 all name [a.example.com] and [b.example.com]; host 12 serves both
    names under policy 20, host 11 serves [b.example.com] under policy 21,
    and both policies reference certificate 3, for [b.example.com], which
    expires first. The scan for [a.example.com] finds host 12 and marks
    both of its names as checked, so the scan for [b.example.com] is
    skipped and host 11 is never visited: certificate 3 is disabled by the
    merge for host 12, yet policy 21 still references it and does not
    reference certificate 4.

    Test on the [domains] argument (line 678). With [domains] =
    [a.example.com; b.example.com] and a new certificate for
    [a.example.com] alone, the prior certificate for [b.example.com], which
    the new one does not cover, is dropped and disabled. With [domains] =
    [a.example.com] and a new certificate for both names, the prior
    certificate for [b.example.com], which the new one covers and outlives,
    stays referenced and enabled. *)
Theorem supersession_misses_certificate_coverage :
  let a := "a.example.com" in
  let b := "b.example.com" in
  let w1 := (exec (RunTaskAndAutoBindServer twoNamesEnv 1 [a; b])
               (worldShared [b] 1700000001)).2 in
  let w2 := (exec (RunTaskAndAutoBindServer quietEnv 1 [a; b])
               (worldBound [b] 1700000001)).2 in
  let w3 := (exec (RunTaskAndAutoBindServer twoNamesEnv 1 [a])
               (worldShared [b] 1700000001)).2 in
  ((exec (RunTaskAndAutoBindServer twoNamesEnv 1 [a; b]) (worldShared [b] 1700000001)).1
     = Returned (true, "")
   /\ serverNameMatches twoNamesEnv b server11 = true
   /\ (cDNSNames <$> sslCerts w1 !! 4) = Some [a; b]
   /\ (cTimeEndAt <$> sslCerts w1 !! 4) = Some 1707776000
   /\ (cDNSNames <$> sslCerts w1 !! 3) = Some [b]
   /\ (cTimeEndAt <$> sslCerts w1 !! 3) = Some 1700000001
   /\ (refIds <$> (pCerts <$> sslPolicies w1 !! 20)) = Some [4]
   /\ (cState <$> sslCerts w1 !! 3) = Some SSLCertStateDisabled
   /\ (refIds <$> (pCerts <$> sslPolicies w1 !! 21)) = Some [3])
  /\ ((exec (RunTaskAndAutoBindServer quietEnv 1 [a; b]) (worldBound [b] 1700000001)).1
        = Returned (true, "")
      /\ (cDNSNames <$> sslCerts w2 !! 4) = Some [a]
      /\ ~ covers [a] [b]
      /\ (cDNSNames <$> sslCerts w2 !! 3) = Some [b]
      /\ (refIds <$> (pCerts <$> sslPolicies w2 !! 20)) = Some [4]
      /\ (cState <$> sslCerts w2 !! 3) = Some SSLCertStateDisabled)
  /\ ((exec (RunTaskAndAutoBindServer twoNamesEnv 1 [a]) (worldShared [b] 1700000001)).1
        = Returned (true, "")
      /\ (cDNSNames <$> sslCerts w3 !! 4) = Some [a; b]
      /\ covers [a; b] [b]
      /\ (cTimeEndAt <$> sslCerts w3 !! 4) = Some 1707776000
      /\ (cDNSNames <$> sslCerts w3 !! 3) = Some [b]
      /\ (cTimeEndAt <$> sslCerts w3 !! 3) = Some 1700000001
      /\ (refIds <$> (pCerts <$> sslPolicies w3 !! 20)) = Some [3; 4]
      /\ (cState <$> sslCerts w3 !! 3) = Some SSLCertStateEnabled).
Proof.
  cbv zeta. split; [| split].
  - vm_compute. repeat split.
  - assert (Hnot : ~ covers ["a.example.com"] ["b.example.com"]).
    { intros H. specialize (H "b.example.com" (list_elem_of_here _ _)).
      apply list_elem_of_singleton in H. discriminate. }
    split; [vm_compute; reflexivity |]. split; [vm_compute; reflexivity |].
    split; [exact Hnot |]. vm_compute. repeat split.
  - assert (Hcov : covers ["a.example.com"; "b.example.com"] ["b.example.com"]).
    { intros d Hd. apply list_elem_of_singleton in Hd. subst d.
      apply list_elem_of_further, list_elem_of_here. }
    split; [vm_compute; reflexivity |]. split; [vm_compute; reflexivity |].
    split; [exact Hcov |]. vm_compute. repeat split.
Qed.

(** * Further properties of a run *)

(** X1. A task that is missing, disabled, switched off or finished is refused
    before anything is written: the run returns a failure, the state is the
    one before, and the ACME client was not called (lines 325-342). *)
Theorem run_refuses_unavailable_task (E : Env) (taskId : Z) (random : bool) (w : World) :
  fault E (SFindEnabledACMETask taskId) = None ->
  match acmeTasks w !! taskId with
  | None => True
  | Some t =>
      tState t <> ACMETaskStateEnabled \/ tIsOn t = false
      \/ tStatus t = ACMETaskStatusDone
  end ->
  exists msg,
    exec (runTaskWithoutLog E taskId random) w = (Returned (false, msg, 0), w)
    /\ (msg = "找不到要执行的任务" \/ msg = "任务没有启用" \/ msg = "任务已完成").
Proof.
  intros Hf Hcase.
  unfold runTaskWithoutLog, runTaskLoad, FindEnabledACMETask.
  unfold_helpers. unfold_proc. rewrite Hf.
  destruct (acmeTasks w !! taskId) as [t |]; simpl.
  - destruct (Z.eqb_spec (tState t) ACMETaskStateEnabled) as [Hs | Hs]; simpl.
    + destruct (tIsOn t) eqn:Hon; simpl.
      * destruct (Z.eqb_spec (tStatus t) ACMETaskStatusDone) as [Hd | Hd]; simpl.
        -- eexists. split; [reflexivity | auto].
        -- exfalso. destruct Hcase as [H | [H | H]]; [contradiction | discriminate | contradiction].
      * eexists. split; [reflexivity | auto].
    + eexists. split; [reflexivity | auto].
  - eexists. split; [reflexivity | auto].
Qed.

Lemma run_refuses_unavailable_task_witness :
  exists msg,
    exec (runTaskWithoutLog quietEnv 1 false) worldDisabled = (Returned (false, msg, 0), worldDisabled)
    /\ (msg = "找不到要执行的任务" \/ msg = "任务没有启用" \/ msg = "任务已完成").
Proof.
  apply (run_refuses_unavailable_task quietEnv 1 false worldDisabled).
  - reflexivity.
  - vm_compute. left. discriminate.
Defined.

Ltac well_formed :=
  first [ left; split; reflexivity
        | right; split; [reflexivity | simpl; discriminate] ].

Lemma runTaskLoad_message E taskId w r :
  (runTaskLoad E taskId w).1 = Exit r -> wellFormed r.
Proof.
  unfold runTaskLoad, FindEnabledACMETask, UpdateStatus. unfold_helpers. unfold_proc.
  run_cases; intros H; simplify_eq; well_formed.
Qed.

Lemma runTaskPrepare_message E task random w r :
  (runTaskPrepare E task random w).1 = Exit r -> wellFormed r.
Proof.
  unfold runTaskPrepare. unfold_helpers. unfold_proc.
  run_cases; intros H; simplify_eq; well_formed.
Qed.

Lemma runTaskSave_message E taskId task certData keyData info w :
  match (runTaskSave E taskId task certData keyData info w).1 with
  | Next r | Exit r => wellFormed r
  | Panic _ => True
  end.
Proof.
  unfold runTaskSave, FindEnabledSSLCert, DisableACMETask, UpdateCert, CreateCert,
    UpdateCertACME, UpdateACMETaskCert.
  unfold_helpers. unfold_proc.
  run_cases; well_formed.
Qed.

(** X2. Whatever a run returns, it is a success with an empty message or a
    failure with a non-empty message: every failure path of
    runTaskWithoutLog sets a message (lines 324-565). *)
Theorem run_failure_has_message (E : Env) (taskId : Z) (random : bool) (w : World) :
  match (exec (runTaskWithoutLog E taskId random) w).1 with
  | Returned r => (r.1.1 = true /\ r.1.2 = "") \/ (r.1.1 = false /\ r.1.2 <> "")
  | Panicked _ => True
  end.
Proof.
  unfold runTaskWithoutLog, runTaskIssue, exec, bind.
  pose proof (runTaskLoad_message E taskId w) as HA.
  destruct (runTaskLoad E taskId w) as [[task | r | m] wA]; simpl; [| apply HA; reflexivity | exact I].
  pose proof (runTaskPrepare_message E task random wA) as HB.
  destruct (runTaskPrepare E task random wA) as [[req | r | m] wB]; simpl;
    [| apply HB; reflexivity | exact I].
  pose proof (acmeRequestRun_cases E taskId task req wB) as [_ HC].
  destruct (acmeRequestRun E taskId task req wB) as [[res | r | m] wC]; simpl in *;
    [| destruct HC as [HC | [m' HC]]; discriminate | exact I].
  unfold orExit, ret, exit.
  destruct res as [[certData keyData] | e]; simpl; [| well_formed].
  destruct (sslConfigInit E certData keyData) as [info | e]; simpl; [| well_formed].
  pose proof (runTaskSave_message E taskId task certData keyData info wC) as HD.
  destruct (runTaskSave E taskId task certData keyData info wC) as [[r | r | m] w1];
    simpl in *; [exact HD | exact HD | exact I].
Qed.

(** X3. RunTask writes exactly one TaskLog entry, with the result of the run,
    and returns that result; when the log write fails the result is
    returned all the same and no entry is written (lines 310-321). *)
Theorem run_task_logs_its_result (E : Env) (taskId : Z) (w w1 : World) (r : RunResult) :
  exec (runTaskWithoutLog E taskId false) w = (Returned r, w1) ->
  (exec (RunTask E taskId) w).1 = Returned r
  /\ acmeTaskLogs (exec (RunTask E taskId) w).2
     = match fault E (SCreateACMETaskLog taskId) with
       | None => acmeTaskLogs w ++ [mkACMETaskLog taskId r.1.1 r.1.2]
       | Some _ => acmeTaskLogs w
       end.
Proof.
  intros Hrun.
  assert (Hlogs : acmeTaskLogs w1 = acmeTaskLogs w).
  { pose proof (preserves_exec _ _ w (runTaskWithoutLog_logs E taskId false)) as H.
    rewrite Hrun in H. exact H. }
  unfold RunTask, exec, bind, call, CreateACMETaskLog, logIfErr, logError, modify, ret in *.
  destruct (runTaskWithoutLog E taskId false w) as [[r' | r' | m] w1']; try discriminate;
    injection Hrun as -> ->;
    destruct (fault E (SCreateACMETaskLog taskId)); simpl; rewrite Hlogs; split; reflexivity.
Qed.

Lemma run_task_logs_its_result_witness :
  acmeTaskLogs (exec (RunTask rejectingEnv 1) world1).2
  = [mkACMETaskLog 1 false "证书生成失败：urn:ietf:params:acme:error:unauthorized"].
Proof.
  apply (run_task_logs_its_result rejectingEnv 1 world1
           (exec (runTaskWithoutLog rejectingEnv 1 false) world1).2
           (false, "证书生成失败：urn:ietf:params:acme:error:unauthorized", 0)).
  vm_compute. reflexivity.
Defined.

Lemma autoBindFinish_failed E taskId domains (r : RunResult) w :
  r.1.1 = false ->
  fault E (SUpdateStatus taskId ACMETaskStatusIssueFailed) = None ->
  acmeTasks (exec (autoBindFinish E taskId domains r) w).2
  = alter (taskWithStatus ACMETaskStatusIssueFailed) taskId (acmeTasks w).
Proof.
  destruct r as [[isOk errMsg] certId]. simpl. intros -> Hf.
  unfold autoBindFinish, autoBindSettle, exec, bind, call, CreateACMETaskLog, UpdateStatus,
    logIfErr, logError, modify, ret, exit. simpl. rewrite Hf.
  destruct (fault E (SCreateACMETaskLog taskId)); reflexivity.
Qed.

(** X4. An invocation of RunTaskAndAutoBindServer that is not skipped and
    reports a failure marks its task IssueFailed (when the status write
    succeeds) and leaves the task's certificate reference as it was: also a
    task that was refused because it is finished ends up IssueFailed
    (lines 606-620). *)
Theorem auto_bind_failure_marks_issue_failed (E : Env) (taskId : Z) (domains : list string)
    (w w' : World) (errMsg : string) (t : ACMETask) :
  taskId ∉ runningTaskMap w ->
  fault E (SUpdateStatus taskId ACMETaskStatusIssueFailed) = None ->
  exec (RunTaskAndAutoBindServer E taskId domains) w = (Returned (false, errMsg), w') ->
  acmeTasks w !! taskId = Some t ->
  exists t', acmeTasks w' !! taskId = Some t'
             /\ tStatus t' = ACMETaskStatusIssueFailed
             /\ tCertId t' = tCertId t.
Proof.
  intros Hnot Hf Hrun Ht.
  pose proof (runTaskWithoutLog_row E taskId true w) as Hrow.
  unfold RunTaskAndAutoBindServer, exec, bind, gets, exitIf, call in Hrun, Hrow.
  rewrite bool_decide_eq_false_2 in Hrun by assumption. simpl in Hrun.
  destruct (runTaskWithoutLog E taskId true w) as [[r | r | m] w1]; simpl in Hrun;
    [| | discriminate].
  all: pose proof (autoBindFinish_result E taskId domains r w1) as Hres;
    pose proof (autoBindFinish_failed E taskId domains r w1) as Hfail;
    unfold exec in Hres, Hfail;
    destruct (autoBindFinish E taskId domains r w1) as [[res | res | m] w2];
    simpl in Hrun, Hres, Hfail; try discriminate;
    injection Hrun as -> ->;
    specialize (Hres _ eq_refl); injection Hres as Hok _; symmetry in Hok;
    specialize (Hfail Hok Hf); rewrite Hfail, lookup_alter_eq;
    destruct Hrow as [_ Hrow]; rewrite Ht in Hrow;
    destruct Hrow as [t1 [Ht1 [_ Hc]]]; rewrite Hok in Hc;
    rewrite Ht1; simpl;
    (eexists; split; [reflexivity | split; [reflexivity | exact Hc]]).
Qed.

Lemma auto_bind_failure_marks_issue_failed_witness :
  exists t', acmeTasks (exec (RunTaskAndAutoBindServer quietEnv 1 ["a.example.com"]) worldDone).2
               !! 1 = Some t'
             /\ tStatus t' = ACMETaskStatusIssueFailed
             /\ tCertId t' = tCertId (taskWithCertId 3 (taskWithStatus ACMETaskStatusDone task1)).
Proof.
  apply (auto_bind_failure_marks_issue_failed quietEnv 1 ["a.example.com"] worldDone
           (exec (RunTaskAndAutoBindServer quietEnv 1 ["a.example.com"]) worldDone).2
           "任务已完成").
  - vm_compute. set_solver.
  - reflexivity.
  - vm_compute. reflexivity.
  - vm_compute. reflexivity.
Defined.

(** * Certificate rows during a run *)

Lemma runTaskSave_certs E taskId task certData keyData info w :
  let m := sslCerts w in
  let m' := sslCerts (runTaskSave E taskId task certData keyData info w).2 in
  m' = m
  \/ (0 < int64 (tCertId task)
      /\ exists f, (forall c, cId (f c) = cId c /\ cState (f c) = cState c
                              /\ cAdminId (f c) = cAdminId c /\ cUserId (f c) = cUserId c)
                   /\ m' = alter f (int64 (tCertId task)) m)
  \/ (~ 0 < int64 (tCertId task)
      /\ exists c, m' = <[nextId m := c]> m).
Proof.
  unfold runTaskSave, FindEnabledSSLCert, DisableACMETask, UpdateCert, CreateCert,
    UpdateCertACME, UpdateACMETaskCert.
  unfold_helpers. unfold_proc.
  run_cases; auto.
  all: try (right; left; split; [apply Z.ltb_lt; assumption |];
            eexists; split; [| reflexivity]; intros c; repeat split; fail).
  all: right; right; (split; [rewrite Z.ltb_ge in *; lia |]);
    eexists; try rewrite alter_insert_eq; reflexivity.
Qed.

Lemma runTaskWithoutLog_certs E taskId random w :
  let m := sslCerts w in
  let m' := sslCerts (exec (runTaskWithoutLog E taskId random) w).2 in
  m' = m
  \/ (exists t, acmeTasks w !! taskId = Some t /\ 0 < int64 (tCertId t)
      /\ exists f, (forall c, cId (f c) = cId c /\ cState (f c) = cState c
                              /\ cAdminId (f c) = cAdminId c /\ cUserId (f c) = cUserId c)
                   /\ m' = alter f (int64 (tCertId t)) m)
  \/ (exists t, acmeTasks w !! taskId = Some t /\ ~ 0 < int64 (tCertId t)
      /\ exists c, m' = <[nextId m := c]> m).
Proof.
  unfold runTaskWithoutLog, runTaskIssue, exec, bind.
  pose proof (runTaskLoad_cases E taskId w) as HA.
  pose proof (runTaskLoad_certs E taskId w) as HA'. unfold sameOn in HA'.
  destruct (runTaskLoad E taskId w) as [[task | r | m] wA]; simpl in *; [| auto | auto].
  destruct HA as (Hm & _ & _).
  pose proof (runTaskPrepare_cases E task random wA) as [HB _].
  destruct (runTaskPrepare E task random wA) as [[req | r | m] wB]; simpl in *; subst wB;
    [| auto | auto].
  pose proof (acmeRequestRun_certs E taskId task req wA) as HC. unfold sameOn in HC.
  destruct (acmeRequestRun E taskId task req wA) as [[res | r | m] wC]; simpl in *;
    [| left; congruence | left; congruence].
  unfold orExit, ret, exit.
  destruct res as [[certData keyData] | e]; simpl; [| left; congruence].
  destruct (sslConfigInit E certData keyData) as [info | e]; simpl; [| left; congruence].
  pose proof (runTaskSave_certs E taskId task certData keyData info wC) as HD. simpl in HD.
  rewrite HC, HA' in HD.
  assert (Hgoal : forall w1 : World,
            (sslCerts w1 = sslCerts w
             \/ (0 < int64 (tCertId task)
                 /\ exists f, (forall c, cId (f c) = cId c /\ cState (f c) = cState c
                                         /\ cAdminId (f c) = cAdminId c
                                         /\ cUserId (f c) = cUserId c)
                              /\ sslCerts w1 = alter f (int64 (tCertId task)) (sslCerts w))
             \/ (~ 0 < int64 (tCertId task)
                 /\ exists c, sslCerts w1 = <[nextId (sslCerts w) := c]> (sslCerts w))) ->
            sslCerts w1 = sslCerts w
            \/ (exists t, acmeTasks w !! taskId = Some t /\ 0 < int64 (tCertId t)
                /\ exists f, (forall c, cId (f c) = cId c /\ cState (f c) = cState c
                                        /\ cAdminId (f c) = cAdminId c
                                        /\ cUserId (f c) = cUserId c)
                             /\ sslCerts w1 = alter f (int64 (tCertId t)) (sslCerts w))
            \/ (exists t, acmeTasks w !! taskId = Some t /\ ~ 0 < int64 (tCertId t)
                /\ exists c, sslCerts w1 = <[nextId (sslCerts w) := c]> (sslCerts w))).
  { intros w1 [H | [[H1 H2] | [H1 H2]]]; [left; assumption | |].
    - right. left. exists task. auto.
    - right. right. exists task. auto. }
  destruct (runTaskSave E taskId task certData keyData info wC) as [[r | r | m] w1];
    simpl in *; apply Hgoal; exact HD.
Qed.

(** X5. A run never removes, disables or renumbers a certificate row. It adds
    at most one row, under the next free id, and none when the task is
    already bound to a certificate: a renewal updates the bound certificate
    in place (lines 517-565). *)
Theorem run_keeps_certificate_rows (E : Env) (taskId : Z) (random : bool) (w : World) :
  let w' := (exec (runTaskWithoutLog E taskId random) w).2 in
  certsKept w w'
  /\ (forall k, sslCerts w !! k = None ->
        sslCerts w' !! k = None \/ k = nextId (sslCerts w))
  /\ (forall t, acmeTasks w !! taskId = Some t -> 0 < int64 (tCertId t) ->
        dom (sslCerts w') = dom (sslCerts w)).
Proof.
  cbv zeta. unfold certsKept.
  pose proof (runTaskWithoutLog_certs E taskId random w) as H. cbv zeta in H.
  destruct H as [H | [(t & Ht & Hpos & f & Hf & H) | (t & Ht & Hneg & c & H)]];
    rewrite H; clear H.
  - split; [| split].
    + intros k c Hk. exists c. split; [exact Hk | repeat split].
    + intros k Hk. left. assumption.
    + intros; reflexivity.
  - split; [| split].
    + intros k c Hk. rewrite lookup_alter. case_decide as Heq.
      * subst k. rewrite Hk. simpl. exists (f c). split; [reflexivity | apply Hf].
      * exists c. split; [exact Hk | repeat split].
    + intros k Hk. left. rewrite lookup_alter. case_decide as Heq; [subst k; rewrite Hk |]; auto.
    + intros _ _ _. apply dom_alter_L.
  - split; [| split].
    + intros k c0 Hk. exists c0. split; [| repeat split].
      rewrite lookup_insert_ne; [assumption |].
      intros <-. rewrite nextId_fresh in Hk. discriminate.
    + intros k Hk. destruct (decide (k = nextId (sslCerts w))) as [-> | Hne]; [auto |].
      left. rewrite lookup_insert_ne by congruence. assumption.
    + intros t' Ht' Hpos. rewrite Ht in Ht'. injection Ht' as <-. contradiction.
Qed.

(** A renewal: task 1 is bound to certificate 3; the run returns that id,
    the row keeps its id and state and carries the new material, and no row
    is added. *)
Example renewal_updates_in_place :
  let r := exec (runTaskWithoutLog quietEnv 1 false) worldRenew in
  r.1 = Returned (true, "", 3)
  /\ ((fun c => (cId c, cState c, cCertData c, cTimeEndAt c)) <$> sslCerts r.2 !! 3)
     = Some (3, SSLCertStateEnabled, "CERT", 1707776000)
  /\ size (sslCerts r.2) = 1%nat.
Proof. vm_compute. repeat split. Qed.

(** * Further properties of the task store *)

(** X6. UpdateACMETask rejects an id that is not positive without touching the
    store. Otherwise it changes no other row, creates none, and in the row
    of the task it leaves the status, the certificate reference, the state,
    the owner and the creation columns as they were; when it returns no
    error the row carries the new settings, the domains in the encoding of
    CreateACMETask, and when it returns an error the row is unchanged
    (lines 249-274). *)
Theorem update_task_changes_settings_only (E : Env) (acmeTaskId acmeUserId dnsProviderId : Z)
    (dnsDomain : string) (domains : list string) (autoRenew : bool) (authURL : string)
    (w : World) :
  let r := exec (UpdateACMETask E acmeTaskId acmeUserId dnsProviderId dnsDomain domains
                   autoRenew authURL) w in
  (acmeTaskId <= 0 -> r = (Returned (Some "invalid acmeTaskId"), w))
  /\ (forall k, k <> acmeTaskId -> acmeTasks r.2 !! k = acmeTasks w !! k)
  /\ match acmeTasks w !! acmeTaskId with
     | None => acmeTasks r.2 !! acmeTaskId = None
     | Some t =>
         exists t',
           acmeTasks r.2 !! acmeTaskId = Some t'
           /\ tStatus t' = tStatus t /\ tCertId t' = tCertId t /\ tState t' = tState t
           /\ tIsOn t' = tIsOn t /\ tCreatedAt t' = tCreatedAt t
           /\ tAuthType t' = tAuthType t /\ tAsync t' = tAsync t
           /\ tAdminId t' = tAdminId t /\ tUserId t' = tUserId t
           /\ (r.1 = Returned None ->
               tAcmeUserId t' = acmeUserId /\ tDnsProviderId t' = dnsProviderId
               /\ tDnsDomain t' = dnsDomain /\ domainsColumn E domains = Ok (tDomains t')
               /\ tAutoRenew t' = autoRenew /\ tAuthURL t' = authURL)
           /\ (r.1 <> Returned None -> t' = t)
     end.
Proof.
  cbv zeta. unfold UpdateACMETask, domainsColumn. unfold_helpers. unfold_proc.
  destruct (Z.leb_spec acmeTaskId 0) as [Hid | Hid]; simpl.
  - split; [reflexivity |]. split; [reflexivity |].
    destruct (acmeTasks w !! acmeTaskId) as [t |]; [| reflexivity].
    exists t. repeat split; try reflexivity; congruence.
  - split; [lia |].
    destruct domains as [| d ds]; simpl;
      [| destruct (jsonMarshalStrings E (d :: ds)) as [text | e]; simpl];
      destruct (fault E (SUpdateACMETask acmeTaskId)) as [e' |]; simpl.
    all: split; [intros k Hk; try reflexivity; apply lookup_alter_ne; congruence |].
    all: destruct (acmeTasks w !! acmeTaskId) as [t |] eqn:Ht;
      try rewrite lookup_alter_eq, Ht; simpl; try reflexivity; try assumption.
    all: eexists; split; [try reflexivity; try eassumption |].
    all: repeat split; try reflexivity; congruence.
Qed.

(** X7. A disabled task is hidden from FindEnabledACMETask, whatever its other
    columns, and enabling it again brings it back with every other column
    as it was (lines 82-109). *)
Theorem disabled_task_is_hidden (E : Env) (id : Z) (t : ACMETask) (w : World) :
  acmeTasks w !! id = Some t ->
  fault E (SDisableACMETask id) = None ->
  fault E (SFindEnabledACMETask id) = None ->
  let w1 := (exec (DisableACMETask E id) w).2 in
  (exec (FindEnabledACMETask E id) w1).1 = Returned (Ok None)
  /\ (fault E (SEnableACMETask id) = None ->
      (exec (FindEnabledACMETask E id) (exec (EnableACMETask E id) w1).2).1
      = Returned (Ok (Some (taskWithState ACMETaskStateEnabled t)))).
Proof.
  intros Ht Hd Hf. cbv zeta.
  unfold DisableACMETask, EnableACMETask, FindEnabledACMETask. unfold_proc.
  rewrite Hd, Hf. simpl. rewrite lookup_alter_eq, Ht. simpl. split; [reflexivity |].
  intros He. rewrite He. simpl. rewrite !lookup_alter_eq, Ht. reflexivity.
Qed.

Lemma disabled_task_is_hidden_witness :
  (exec (FindEnabledACMETask quietEnv 1) (exec (DisableACMETask quietEnv 1) world1).2).1
  = Returned (Ok None).
Proof.
  apply (disabled_task_is_hidden quietEnv 1 task1 world1); reflexivity.
Defined.

(** X8. After DisableAllTasksWithCertId succeeded, no task bound to the
    certificate is found enabled any more, every task bound to another
    certificate is found exactly when it was found before, and no row
    changed its status or its certificate reference (lines 128-134). *)
Theorem retired_certificate_disables_its_tasks (E : Env) (certId : Z) (w : World) :
  fault E (SDisableAllTasksWithCertId certId) = None ->
  let w1 := (exec (DisableAllTasksWithCertId E certId) w).2 in
  (forall id t, (exec (FindEnabledACMETask E id) w1).1 = Returned (Ok (Some t)) ->
     tCertId t <> certId
     /\ (exec (FindEnabledACMETask E id) w).1 = Returned (Ok (Some t)))
  /\ (forall id t, (exec (FindEnabledACMETask E id) w).1 = Returned (Ok (Some t)) ->
        tCertId t <> certId ->
        (exec (FindEnabledACMETask E id) w1).1 = Returned (Ok (Some t)))
  /\ (forall id t, acmeTasks w !! id = Some t ->
        exists t', acmeTasks w1 !! id = Some t'
                   /\ tStatus t' = tStatus t /\ tCertId t' = tCertId t).
Proof.
  intros Hf. cbv zeta.
  unfold DisableAllTasksWithCertId, FindEnabledACMETask. unfold_proc. rewrite Hf. simpl.
  split; [| split].
  - intros id t. destruct (fault E (SFindEnabledACMETask id)); simpl; [discriminate |].
    rewrite lookup_fmap. destruct (acmeTasks w !! id) as [t0 |]; simpl; [| discriminate].
    destruct (Z.eqb_spec (tCertId t0) certId) as [Hc | Hc]; simpl; [discriminate |].
    destruct (tState t0 =? ACMETaskStateEnabled); simpl; [| discriminate].
    intros H. simplify_eq. split; [assumption | reflexivity].
  - intros id t. destruct (fault E (SFindEnabledACMETask id)); simpl; [discriminate |].
    rewrite lookup_fmap. destruct (acmeTasks w !! id) as [t0 |]; simpl; [| discriminate].
    destruct (tState t0 =? ACMETaskStateEnabled) eqn:Hs; simpl; [| discriminate].
    intros H Hc. simplify_eq.
    destruct (Z.eqb_spec (tCertId t) certId) as [Hc' | Hc']; [contradiction |].
    rewrite Hs. reflexivity.
  - intros id t Ht. rewrite lookup_fmap, Ht. simpl. eexists. split; [reflexivity |].
    destruct (tCertId t =? certId); split; reflexivity.
Qed.

Lemma retired_certificate_disables_its_tasks_witness :
  exists t',
    acmeTasks (exec (DisableAllTasksWithCertId quietEnv 3) worldRenew).2 !! 1 = Some t'
    /\ tStatus t' = ACMETaskStatusPending /\ tCertId t' = 3.
Proof.
  pose proof (retired_certificate_disables_its_tasks quietEnv 3 worldRenew eq_refl) as H.
  cbv zeta in H. destruct H as (_ & _ & H).
  apply (H 1 (taskWithCertId 3 task1)). reflexivity.
Defined.

(** X9. A task CreateACMETask returned the id of is found enabled under that
    id right away, with the columns it was created with, pending and
    without a certificate; the id was free before, and every other row is
    as it was (lines 217-246, 100-109). *)
Theorem created_task_is_found (E : Env) (adminId userId : Z) (authType : string)
    (acmeUserId dnsProviderId : Z) (dnsDomain : string) (domains : list string)
    (autoRenew : bool) (authURL : string) (async : bool) (w w1 : World) (id : Z) :
  exec (CreateACMETask E adminId userId authType acmeUserId dnsProviderId dnsDomain domains
          autoRenew authURL async) w = (Returned (Ok id), w1) ->
  fault E (SFindEnabledACMETask id) = None ->
  acmeTasks w !! id = None
  /\ (forall k, k <> id -> acmeTasks w1 !! k = acmeTasks w !! k)
  /\ exists t,
       (exec (FindEnabledACMETask E id) w1).1 = Returned (Ok (Some t))
       /\ tId t = id /\ tAdminId t = adminId /\ tUserId t = userId
       /\ tAuthType t = authType /\ tAcmeUserId t = acmeUserId
       /\ tDnsProviderId t = dnsProviderId /\ tDnsDomain t = dnsDomain
       /\ tAutoRenew t = autoRenew /\ tAuthURL t = authURL /\ tAsync t = async
       /\ tIsOn t = true /\ tStatus t = ACMETaskStatusPending /\ tCertId t = 0.
Proof.
  unfold CreateACMETask, FindEnabledACMETask. unfold_helpers. unfold_proc.
  intros Hrun Hf. rewrite Hf.
  destruct (0 <? Z.of_nat (length domains)); simpl in Hrun;
    [destruct (jsonMarshalStrings E domains) as [text | e]; simpl in Hrun; [| discriminate] |];
    (destruct (fault E SCreateACMETask); simpl in Hrun; [discriminate |]);
    injection Hrun as <- <-; simpl;
    (split; [apply nextId_fresh |]);
    (split; [intros k Hk; apply lookup_insert_ne; congruence |]);
    rewrite lookup_insert_eq; simpl; eexists; (split; [reflexivity |]);
    repeat split.
Qed.

Lemma created_task_is_found_witness :
  exists t,
    (exec (FindEnabledACMETask quietEnv 1)
       (exec (CreateACMETask quietEnv 0 9 AuthTypeHTTP 7 0 "" ["a.example"] true "" true)
          emptyWorld).2).1
    = Returned (Ok (Some t))
    /\ tStatus t = ACMETaskStatusPending /\ tCertId t = 0.
Proof.
  destruct (created_task_is_found quietEnv 0 9 AuthTypeHTTP 7 0 "" ["a.example"] true "" true
              emptyWorld _ 1 eq_refl eq_refl) as (_ & _ & t & Hfind & H).
  exists t. split; [exact Hfind |]. tauto.
Defined.

(** * Further properties of the scheduling query *)

(** X10. FindIssueACMETask reads the store and changes nothing. Its rows come in
    strictly ascending order of the task id, so no task comes twice; there
    are at most [limit] of them; and the limit cuts from the end: when a
    task is returned, every eligible task with a smaller id is returned as
    well (lines 568-588). *)
Theorem issue_query_returns_lowest_ids_first (E : Env) (now hour limit : Z)
    (excludeTasks : list Z) (w : World) :
  fault E SFindIssueACMETask = None ->
  0 <= hour <= 2562047 ->
  0 < limit ->
  exists rows : list (Z * ACMETask),
    FindIssueACMETask (R:=unit) E now hour limit excludeTasks w = (Next (Ok rows.*2), w)
    /\ Z.of_nat (length rows) <= limit
    /\ StronglySorted (fun a b => a.1 < b.1) rows
    /\ (forall id t, (id, t) ∈ rows -> acmeTasks w !! id = Some t)
    /\ (forall id t id' t',
          (id, t) ∈ rows -> acmeTasks w !! id' = Some t' -> id' < id ->
          eligible (sessionTimeZone E) now hour excludeTasks id' t' ->
          (id', t') ∈ rows).
Proof.
  intros Hfault Hh Hlimit. unfold FindIssueACMETask. rewrite Hfault. unfold gets.
  set (P := fun kt : Z * ACMETask =>
              issuable (sessionTimeZone E) now hour
                (if (length excludeTasks =? 0)%nat then excludeTasks ++ [0] else excludeTasks)
                kt.1 kt.2 = true).
  set (S := merge_sort pkLe (filter P (map_to_list (acmeTasks w)))).
  assert (Hmem : forall id t, (id, t) ∈ S <-> acmeTasks w !! id = Some t /\ P (id, t)).
  { intros id t. unfold S. rewrite merge_sort_Permutation, list_elem_of_filter.
    rewrite elem_of_map_to_list. tauto. }
  assert (Hstrict : StronglySorted (fun a b => a.1 < b.1) S).
  { apply sorted_keys_strict.
    - apply StronglySorted_merge_sort; apply _.
    - unfold S. rewrite merge_sort_Permutation. apply NoDup_filter, NoDup_map_to_list.
    - intros [k t] [k' t'] Ha Hb Heq. simpl in Heq. subst k'.
      apply Hmem in Ha as [Ha _]. apply Hmem in Hb as [Hb _]. congruence. }
  rewrite <- (take_drop (Z.to_nat limit) S) in Hstrict.
  apply StronglySorted_app in Hstrict as (Hcut & Hsorted & _).
  exists (take (Z.to_nat limit) S). split; [reflexivity |].
  split; [rewrite length_take; lia |].
  split; [exact Hsorted |].
  split.
  - intros id t Hin. apply (Hmem id t).
    apply elem_of_take in Hin as [i [Hi _]]. eapply list_elem_of_lookup_2. exact Hi.
  - intros id t id' t' Hin Hrow Hlt Hel.
    assert (Hin' : (id', t') ∈ S).
    { apply Hmem. split; [assumption |]. unfold P. simpl.
      apply issuable_eligible; assumption. }
    rewrite <- (take_drop (Z.to_nat limit) S) in Hin'.
    apply elem_of_app in Hin' as [Hin' | Hin']; [assumption |].
    specialize (Hcut _ _ Hin Hin'). simpl in Hcut. lia.
Qed.

Lemma issue_query_returns_lowest_ids_first_witness :
  exists rows : list (Z * ACMETask),
    FindIssueACMETask (R:=unit) quietEnv 1700000000000000000 1 10 [] world1
    = (Next (Ok rows.*2), world1)
    /\ Z.of_nat (length rows) <= 10.
Proof.
  destruct (issue_query_returns_lowest_ids_first quietEnv 1700000000000000000 1 10 [] world1)
    as (rows & H & Hlen & _); [reflexivity | lia | lia |].
  exists rows. split; assumption.
Defined.

(** X11. A task a run succeeded for is not scheduled again: after RunTask
    returned a success, the row of the task carries a certificate
    reference, and no scheduling query selects it, whatever the clock, the
    window and the exclusion list (lines 311-321, 573-577). *)
Theorem successful_run_leaves_schedule (E : Env) (taskId : Z) (w w1 : World)
    (errMsg : string) (certId : Z) (t : ACMETask) :
  exec (RunTask E taskId) w = (Returned (true, errMsg, certId), w1) ->
  acmeTasks w !! taskId = Some t ->
  exists t1,
    acmeTasks w1 !! taskId = Some t1
    /\ tCertId t1 <> 0
    /\ forall zone now hour excludeTasks,
         issuable zone now hour excludeTasks taskId t1 = false.
Proof.
  intros Hrun Ht.
  pose proof (RunTask_row E taskId w) as Hrow. rewrite Hrun in Hrow.
  destruct Hrow as [_ Hrow]. rewrite Ht in Hrow. destruct Hrow as [t1 [Ht1 Hrow]].
  apply runRow_success_cert in Hrow; [| reflexivity].
  exists t1. split; [assumption |]. split; [assumption |].
  intros zone now hour excludeTasks. unfold issuable.
  destruct (Z.eqb_spec (tCertId t1) 0) as [Hz | Hz]; [contradiction |].
  rewrite andb_false_r. reflexivity.
Qed.

Lemma successful_run_leaves_schedule_witness :
  exists t1,
    acmeTasks (exec (RunTask quietEnv 1) world1).2 !! 1 = Some t1
    /\ tCertId t1 <> 0
    /\ forall zone now hour excludeTasks,
         issuable zone now hour excludeTasks 1 t1 = false.
Proof.
  apply (successful_run_leaves_schedule quietEnv 1 world1 _ "" 1 task1); reflexivity.
Defined.

(** * Further properties of the issuance *)

(** X12. Preparing the request (account, provider, DNS credentials) reads and
    decides, it writes nothing. A request it hands to the ACME client is
    for a task of authentication type dns or http and carries that type and
    the task's domains, for dns also the task's DNS domain and a provider,
    for http no provider. When it gives up it reports a failure without a
    certificate. It panics only for a task whose authentication type is
    neither dns nor http: no request is built for such a task and the nil
    request is dereferenced (lines 350-464). *)
Theorem prepare_builds_request_for_task (E : Env) (task : ACMETask) (random : bool)
    (w : World) :
  let r := runTaskPrepare E task random w in
  r.2 = w
  /\ match r.1 with
     | Next req =>
         (tAuthType task = AuthTypeDNS \/ tAuthType task = AuthTypeHTTP)
         /\ rqAuthType req = tAuthType task
         /\ rqDomains req = tDomains task
         /\ (tAuthType task = AuthTypeDNS ->
             rqDNSDomain req = tDnsDomain task /\ rqDNSProvider req <> None)
         /\ (tAuthType task = AuthTypeHTTP -> rqDNSProvider req = None)
     | Exit res => res.1.1 = false /\ res.2 = 0
     | Panic _ => tAuthType task <> AuthTypeDNS /\ tAuthType task <> AuthTypeHTTP
     end.
Proof.
  cbv zeta. unfold runTaskPrepare. unfold_helpers. unfold_proc.
  run_cases; (split; [reflexivity |]); simpl;
    repeat match goal with
           | H : String.eqb _ _ = true |- _ => apply String.eqb_eq in H
           | H : String.eqb _ _ = false |- _ => apply String.eqb_neq in H
           end;
    try (split; reflexivity); try (split; assumption);
    repeat split; auto; try congruence;
    try (intros Hty; rewrite Hty in *; discriminate).
Qed.

(** The authorization callback for a task whose callback URL is empty or
    accepted by [http.NewRequest], when the record can be stored. *)
Lemma OnAuth_stores (E : Env) (taskId : Z) (task : ACMETask) (ev : AuthEvent) (w : World) :
  fault E (SCreateAuth taskId (evDomain ev) (evToken ev)) = None ->
  strEmpty (tAuthURL task) = true \/ httpNewRequest E (tAuthURL task) = None ->
  let r := OnAuth E taskId task ev w in
  r.1 = Next tt
  /\ acmeAuths r.2 = acmeAuths w ++ [authOf taskId ev]
  /\ acmeRuns r.2 = acmeRuns w
  /\ (strEmpty (tAuthURL task) = true -> webhookPosts r.2 = webhookPosts w)
  /\ (length (webhookPosts r.2) <= S (length (webhookPosts w)))%nat.
Proof.
  intros Hf Hurl. cbv zeta. unfold OnAuth, CreateAuth, logError. unfold_proc.
  rewrite Hf. simpl.
  destruct (strEmpty (tAuthURL task)) eqn:Hempty; simpl.
  - repeat split; auto.
  - destruct Hurl as [Hurl | Hurl]; [discriminate |]. rewrite Hurl.
    destruct (fault E (SMarshalAuth (evDomain ev) (evToken ev))); simpl.
    + repeat split; auto; discriminate.
    + destruct (fault E (SHttpDo (tAuthURL task) (evDomain ev) (evToken ev))); simpl;
        (repeat split; [discriminate | rewrite length_app; simpl; lia]).
Qed.

(** X13. One call of the ACME client records every challenge the authority
    issues, in the order of issue, and counts as one run of the client.
    Whether the webhook could be delivered makes no difference to what the
    client returns: a delivery failure is logged and nothing else. A task
    without a callback URL has no webhook request sent (lines 467-500). *)
Theorem issuance_records_every_challenge (E : Env) (taskId : Z) (task : ACMETask)
    (req : ACMERequest) (w : World) :
  (forall ev, ev ∈ (acmeRun E req).1 ->
     fault E (SCreateAuth taskId (evDomain ev) (evToken ev)) = None) ->
  strEmpty (tAuthURL task) = true \/ httpNewRequest E (tAuthURL task) = None ->
  let r := acmeRequestRun E taskId task req w in
  r.1 = Next (acmeRun E req).2
  /\ acmeAuths r.2 = acmeAuths w ++ (authOf taskId <$> (acmeRun E req).1)
  /\ acmeRuns r.2 = acmeRuns w ++ [taskId]
  /\ (strEmpty (tAuthURL task) = true -> webhookPosts r.2 = webhookPosts w)
  /\ (length (webhookPosts r.2)
      <= length (webhookPosts w) + length (acmeRun E req).1)%nat.
Proof.
  intros Hstore Hurl. cbv zeta. unfold acmeRequestRun.
  assert (Hloop : forall (l : list AuthEvent) w0,
            (forall ev, ev ∈ l ->
               fault E (SCreateAuth taskId (evDomain ev) (evToken ev)) = None) ->
            let r := forEach (R:=RunResult) l (OnAuth E taskId task) w0 in
            r.1 = Next tt
            /\ acmeAuths r.2 = acmeAuths w0 ++ (authOf taskId <$> l)
            /\ acmeRuns r.2 = acmeRuns w0
            /\ (strEmpty (tAuthURL task) = true -> webhookPosts r.2 = webhookPosts w0)
            /\ (length (webhookPosts r.2) <= length (webhookPosts w0) + length l)%nat).
  { induction l as [| ev l IH]; intros w0 Hl; cbv zeta; simpl.
    - unfold ret. simpl. rewrite app_nil_r. repeat split; auto. lia.
    - pose proof (OnAuth_stores E taskId task ev w0 (Hl ev ltac:(left)) Hurl) as Hev.
      cbv zeta in Hev. unfold bind, call.
      destruct (OnAuth E taskId task ev w0) as [[[] | [] | m] w1]; simpl in Hev;
        destruct Hev as (Hres & Hauth & Hruns & Hnone & Hposts); try discriminate.
      specialize (IH w1 (fun ev' Hin => Hl ev' ltac:(right; exact Hin))).
      cbv zeta in IH. destruct IH as (IHres & IHauth & IHruns & IHnone & IHposts).
      split; [exact IHres |].
      split; [rewrite IHauth, Hauth, <- app_assoc; reflexivity |].
      split; [congruence |].
      split; [intros He; rewrite IHnone, Hnone by assumption; reflexivity | lia]. }
  specialize (Hloop (acmeRun E req).1 (setAcmeRuns (fun l => l ++ [taskId]) w) Hstore).
  cbv zeta in Hloop. unfold bind, modify, ret. simpl.
  destruct (forEach (acmeRun E req).1 (OnAuth E taskId task)
              (setAcmeRuns (fun l => l ++ [taskId]) w)) as [[[] | res | m] w1];
    simpl in Hloop; destruct Hloop as (Hres & Hauth & Hruns & Hnone & Hposts);
    try discriminate.
  simpl. repeat split; assumption.
Qed.

Lemma issuance_records_every_challenge_witness :
  let r := acmeRequestRun quietEnv 1 task1
             (mkACMERequest "ops@example.com" "a2V5" "" AuthTypeDNS (Some dnsProvider5)
                "example.com" (tDomains task1) "letsencrypt" None) world1 in
  r.1 = Next (Ok ("CERT", "KEY"))
  /\ acmeAuths r.2 = [mkACMEAuthentication 1 "a.example.com" "token-1" "key-1"].
Proof.
  destruct (issuance_records_every_challenge quietEnv 1 task1
              (mkACMERequest "ops@example.com" "a2V5" "" AuthTypeDNS (Some dnsProvider5)
                 "example.com" (tDomains task1) "letsencrypt" None) world1)
    as (Hres & Hauth & _).
  - intros ev _. reflexivity.
  - left. reflexivity.
  - split; [exact Hres | exact Hauth].
Defined.

#[local] Instance samePolicies_preorder :
  PreOrder (fun w w' : World =>
              sslPolicies w' = sslPolicies w /\ servers w' = servers w
              /\ policyUpdates w' = policyUpdates w).
Proof.
  split; [intros w; repeat split |].
  intros a b c (H1 & H2 & H3) (H4 & H5 & H6). repeat split; congruence.
Qed.

Lemma runTaskWithoutLog_hosts E taskId random :
  preserves (fun w w' : World =>
               sslPolicies w' = sslPolicies w /\ servers w' = servers w
               /\ policyUpdates w' = policyUpdates w)
    (runTaskWithoutLog E taskId random).
Proof. preserve_all; intros ?; repeat split. Qed.

(** X14. An invocation that reports a failure changed no policy and no host and
    called no policy update: the binding is reached only after a successful
    run (lines 600-626). *)
Theorem failed_issue_binds_nothing (E : Env) (taskId : Z) (domains : list string)
    (w w' : World) (errMsg : string) :
  exec (RunTaskAndAutoBindServer E taskId domains) w = (Returned (false, errMsg), w') ->
  sslPolicies w' = sslPolicies w /\ servers w' = servers w
  /\ policyUpdates w' = policyUpdates w.
Proof.
  intros Hrun.
  pose proof (preserves_exec _ _ w (runTaskWithoutLog_hosts E taskId true)) as Hframe.
  unfold RunTaskAndAutoBindServer, exec, bind, gets, exitIf, call in Hrun, Hframe.
  case_bool_decide; simpl in Hrun; [discriminate |].
  destruct (runTaskWithoutLog E taskId true w) as [[r | r | m] w1]; simpl in Hrun, Hframe;
    [| | discriminate].
  all: destruct r as [[isOk msg] certId];
    pose proof (autoBindFinish_result E taskId domains (isOk, msg, certId) w1) as Hres;
    unfold exec in Hres; revert Hrun Hres;
    unfold autoBindFinish, autoBindSettle, exec, bind, call, CreateACMETaskLog, UpdateStatus,
      logIfErr, logError, modify, ret, exit; simpl;
    destruct isOk; simpl.
  all: try (destruct (fault E (SCreateACMETaskLog taskId)); simpl;
            destruct (fault E (SUpdateStatus taskId ACMETaskStatusIssueFailed)); simpl;
            intros Hrun _; injection Hrun as _ <-; simpl; exact Hframe).
  all: intros Hrun Hres; exfalso;
    match type of Hrun with
    | match ?x with _ => _ end = _ => destruct x as [[res | res | m] w2]
    end; simpl in Hrun; try discriminate;
    injection Hrun as Hr _; specialize (Hres _ eq_refl); congruence.
Qed.

Lemma failed_issue_binds_nothing_witness :
  sslPolicies (exec (RunTaskAndAutoBindServer quietEnv 1 ["a.example.com"]) worldDone).2
  = sslPolicies worldDone.
Proof.
  apply (failed_issue_binds_nothing quietEnv 1 ["a.example.com"] worldDone
           (exec (RunTaskAndAutoBindServer quietEnv 1 ["a.example.com"]) worldDone).2
           "任务已完成").
  vm_compute. reflexivity.
Defined.

(** * Further properties of the binding *)

#[local] Instance issuanceSame_preorder :
  PreOrder (fun w w' : World =>
              acmeTasks w' = acmeTasks w /\ acmeTaskLogs w' = acmeTaskLogs w
              /\ acmeAuths w' = acmeAuths w /\ webhookPosts w' = webhookPosts w
              /\ acmeRuns w' = acmeRuns w /\ runningTaskMap w' = runningTaskMap w).
Proof.
  split; [intros w; repeat split |].
  intros a b c (H1 & H2 & H3 & H4 & H5 & H6) (K1 & K2 & K3 & K4 & K5 & K6).
  repeat split; congruence.
Qed.

Lemma bindHosts_issuance E domains resultCertId :
  preserves (fun w w' : World =>
               acmeTasks w' = acmeTasks w /\ acmeTaskLogs w' = acmeTaskLogs w
               /\ acmeAuths w' = acmeAuths w /\ webhookPosts w' = webhookPosts w
               /\ acmeRuns w' = acmeRuns w /\ runningTaskMap w' = runningTaskMap w)
    (bindHosts E domains resultCertId).
Proof. preserve_all; intros ?; repeat split. Qed.

(** X15. Binding the certificate to the hosts works on certificates, policies
    and hosts only: it changes no task, writes no task log and no
    authentication record, sends no webhook request and does not call the
    ACME client, also when it panics (lines 628-754). *)
Theorem binding_leaves_issuance_state (E : Env) (domains : list string) (resultCertId : Z)
    (w : World) :
  let w' := (exec (bindHosts E domains resultCertId) w).2 in
  acmeTasks w' = acmeTasks w /\ acmeTaskLogs w' = acmeTaskLogs w
  /\ acmeAuths w' = acmeAuths w /\ webhookPosts w' = webhookPosts w
  /\ acmeRuns w' = acmeRuns w /\ runningTaskMap w' = runningTaskMap w.
Proof.
  cbv zeta. exact (preserves_exec _ _ w (bindHosts_issuance E domains resultCertId)).
Qed.

(** X16. A host with server names and an HTTPS configuration that refers to no
    enabled policy: the scan records it with the new certificate alone, and
    the binding creates a policy for it (new id, owned by the host's user,
    minimum version TLS 1.1, HTTP/2 and HTTP/3 off, no cipher suites) whose
    reference list is the new certificate, and points the host's HTTPS
    configuration at it, the other settings of the configuration kept. No
    other policy changes and no certificate (lines 656-697, 700-738). *)
Theorem host_without_policy_gets_new_policy (E : Env) (domains : list string)
    (newCert : option SSLCert) (resultCertId : Z) (server : Server) (names : list string)
    (tls : HTTPSProtocolConfig) (st : ScanState) (w : World) :
  sPlainServerNames server = Some names ->
  sHttps server = Some tls ->
  hostPolicy w tls = None ->
  (forall ref, hSSLPolicyRef tls = Some ref ->
     fault E (SComposePolicyConfig (prSSLPolicyId ref)) = None) ->
  fault E (SMarshalCertRefs (int64 (sId server))) = None ->
  fault E (SCreatePolicy (int64 (sUserId server))) = None ->
  fault E (SMarshalHTTPS (int64 (sId server))) = None ->
  fault E (SUpdateServerHTTPS (int64 (sId server))) = None ->
  exists serverInfo,
    scanServer E domains newCert resultCertId server st w
    = (Next (<[int64 (sId server) := serverInfo]> (st.1), st.2 ∪ list_to_set names), w)
    /\ let w2 := (bindServer E (int64 (sId server)) serverInfo w).2 in
       let policyId := nextId (sslPolicies w) in
       sslPolicies w !! policyId = None
       /\ (exists p,
             sslPolicies w2 !! policyId = Some p
             /\ refIds (pCerts p) = [resultCertId]
             /\ pMinVersion p = "TLS 1.1"
             /\ pUserId p = int64 (sUserId server) /\ pAdminId p = 0
             /\ pState p = SSLPolicyStateEnabled
             /\ pHttp2Enabled p = false /\ pHttp3Enabled p = false
             /\ pCipherSuitesIsOn p = 0 /\ pCipherSuites p = [])
       /\ (forall k, k <> policyId -> sslPolicies w2 !! k = sslPolicies w !! k)
       /\ servers w2
          = alter (serverWithHttps
                     (mkHTTPSProtocolConfig (hIsOn tls) (hSettings tls)
                        (Some (mkSSLPolicyRef true policyId))))
              (int64 (sId server)) (servers w)
       /\ sslCerts w2 = sslCerts w
       /\ policyUpdates w2 = policyUpdates w.
Proof.
  intros Hn Hh Hnone Hcompose Hf1 Hf2 Hf3 Hf4.
  eexists. split.
  - unfold scanServer, bind, someOrExit, ComposePolicyConfig, gets, ret, exit.
    rewrite Hn, Hh. simpl. unfold hostPolicy in Hnone.
    destruct (hSSLPolicyRef tls) as [ref |]; simpl; [| reflexivity].
    rewrite (Hcompose ref eq_refl). simpl.
    destruct (sslPolicies w !! prSSLPolicyId ref) as [p |]; simpl; [| reflexivity].
    destruct (pState p =? SSLPolicyStateEnabled); [discriminate | reflexivity].
  - cbv zeta. unfold bindServer, CreatePolicy, UpdateServerHTTPS, bind, gets, modify, ret.
    simpl. rewrite Hf1. simpl. rewrite Hf2. simpl. rewrite Hf3. simpl. rewrite Hf4. simpl.
    split; [apply nextId_fresh |].
    split.
    { rewrite lookup_insert_eq. eexists. split; [reflexivity |]. simpl.
      repeat split; reflexivity. }
    split; [intros k Hk; apply lookup_insert_ne; congruence |].
    repeat split.
Qed.

Lemma host_without_policy_gets_new_policy_witness :
  exists serverInfo,
    scanServer quietEnv ["a.example.com"] (Some cert4) 4
      (mkServer 10 9 (Some ["a.example.com"]) (Some (mkHTTPSProtocolConfig true "listen :443" None)))
      (∅, ∅) emptyWorld
    = (Next (<[10 := serverInfo]> ∅, ∅ ∪ list_to_set ["a.example.com"]), emptyWorld)
    /\ exists p,
         sslPolicies (bindServer quietEnv 10 serverInfo emptyWorld).2 !! 1 = Some p
         /\ refIds (pCerts p) = [4] /\ pMinVersion p = "TLS 1.1".
Proof.
  destruct (host_without_policy_gets_new_policy quietEnv ["a.example.com"] (Some cert4) 4
              (mkServer 10 9 (Some ["a.example.com"])
                 (Some (mkHTTPSProtocolConfig true "listen :443" None)))
              ["a.example.com"] (mkHTTPSProtocolConfig true "listen :443" None)
              (∅, ∅) emptyWorld)
    as (info & Hscan & Hbind); try reflexivity.
  exists info. split; [exact Hscan |].
  cbv zeta in Hbind. destruct Hbind as (_ & (p & Hp & Hrefs & Hmin & _) & _).
  exists p. split; [exact Hp | split; assumption].
Defined.

(** ** The new certificate stays as it is *)

#[local] Instance keeps_preorder (I : World -> Prop) : PreOrder (keeps I).
Proof. split; [intros w H; exact H | intros a b c H1 H2 H; auto]. Qed.

Lemma holdsCert_same certId c w w' :
  sslCerts w' = sslCerts w -> keeps (holdsCert certId c) w w'.
Proof. intros H [Hk Hc]. unfold holdsCert, keyedById. rewrite H. split; assumption. Qed.

Lemma superseded_self domains (newCert : SSLCert) :
  - 2 ^ 63 <= cTimeEndAt newCert < 2 ^ 63 -> superseded domains newCert newCert = false.
Proof.
  intros Hr. unfold superseded. rewrite int64_id by assumption.
  rewrite Z.ltb_irrefl. apply andb_false_r.
Qed.

Lemma disableSuperseded_holds E domains newCert certId certs w :
  - 2 ^ 63 <= cTimeEndAt newCert < 2 ^ 63 ->
  Forall (fun c => cId c = certId -> c = newCert) certs ->
  keeps (holdsCert certId newCert) w (disableSuperseded E domains newCert certs w).
Proof.
  intros Hr Hcerts [Hkey Hnew]. split.
  - intros k c Hk. rewrite disableSuperseded_lookup in Hk.
    destruct (sslCerts w !! k) as [c0 |] eqn:H0; simpl in Hk; [| discriminate].
    injection Hk as <-. specialize (Hkey _ _ H0).
    destruct (existsb (disables E domains newCert k) certs); exact Hkey.
  - rewrite disableSuperseded_lookup.
    assert (Hno : existsb (disables E domains newCert certId) certs = false).
    { apply not_true_iff_false. intros H. apply existsb_exists in H as [c [Hin Hd]].
      unfold disables in Hd. apply andb_true_iff in Hd as [Hd _].
      apply andb_true_iff in Hd as [Hs Hid]. apply Z.eqb_eq in Hid.
      rewrite Forall_forall in Hcerts.
      rewrite (Hcerts c (proj2 (list_elem_of_In _ _) Hin) Hid) in Hs.
      rewrite superseded_self in Hs by assumption. discriminate. }
    rewrite Hno, Hnew. reflexivity.
Qed.

Lemma policyCerts_same_id certId newCert w p :
  holdsCert certId newCert w ->
  Forall (fun c => cId c = certId -> c = newCert) (policyCerts w p).
Proof.
  intros [Hkey Hnew]. apply Forall_forall. intros c Hc Hid.
  destruct (policyCerts_stored w p c Hkey Hc) as [Hst _].
  rewrite Hid, Hnew in Hst. congruence.
Qed.

Lemma scanServer_holds E domains newCert certId server st :
  - 2 ^ 63 <= cTimeEndAt newCert < 2 ^ 63 ->
  preserves (keeps (holdsCert certId newCert))
    (scanServer E domains (Some newCert) certId server st).
Proof.
  intros Hr w Hinv.
  unfold scanServer, bind, someOrExit, ComposePolicyConfig, gets, ret, exit.
  destruct (sPlainServerNames server); simpl; [| exact Hinv].
  destruct (sHttps server) as [tls |]; simpl; [| exact Hinv].
  destruct (hSSLPolicyRef tls) as [ref |]; simpl; [| exact Hinv].
  destruct (fault E (SComposePolicyConfig (prSSLPolicyId ref))); simpl; [exact Hinv |].
  destruct (sslPolicies w !! prSSLPolicyId ref) as [p |]; simpl; [| exact Hinv].
  destruct (pState p =? SSLPolicyStateEnabled); simpl; [| exact Hinv].
  rewrite mergeCerts_run. simpl.
  apply (disableSuperseded_holds E domains newCert certId (policyCerts w p) w Hr);
    [apply policyCerts_same_id |]; assumption.
Qed.

Lemma scanDomain_holds E domains newCert certId domain st :
  - 2 ^ 63 <= cTimeEndAt newCert < 2 ^ 63 ->
  preserves (keeps (holdsCert certId newCert))
    (scanDomain E domains (Some newCert) certId domain st).
Proof.
  intros Hr. unfold scanDomain, FindUserServerByServerName. unfold_helpers.
  preserve_steps. apply scanServer_holds. assumption.
Qed.

Lemma scanDomain_nil_certs E domains certId domain st :
  preserves (sameOn sslCerts) (scanDomain E domains None certId domain st).
Proof.
  unfold scanDomain, scanServer, mergeCerts, mergeCert. unfold_storage. unfold_helpers.
  preserve_steps; intros ?; reflexivity.
Qed.

Lemma bindServer_certs E serverId serverInfo :
  preserves (sameOn sslCerts) (bindServer E serverId serverInfo).
Proof. frame. Qed.

Lemma keeps_of_same {X A} (p : Proc X A) certId c :
  preserves (sameOn sslCerts) p -> preserves (keeps (holdsCert certId c)) p.
Proof. intros H w. apply holdsCert_same. apply H. Qed.

Lemma bindLoop_holds E domains (found : option SSLCert) certId newCert w :
  - 2 ^ 63 <= cTimeEndAt newCert < 2 ^ 63 ->
  found = Some newCert \/ found = None ->
  holdsCert certId newCert w ->
  holdsCert certId newCert
    ((st <- foldEach (R:=unit) domains (∅, ∅) (scanDomain E domains found certId) ;;
      forEach (map_to_list st.1) (fun kv => bindServer E kv.1 kv.2)) w).2.
Proof.
  intros Hr Hfound. revert w.
  change (preserves (keeps (holdsCert certId newCert))
            (st <- foldEach (R:=unit) domains (∅, ∅) (scanDomain E domains found certId) ;;
             forEach (map_to_list st.1) (fun kv => bindServer E kv.1 kv.2))).
  destruct Hfound as [-> | ->].
  - refine (preserves_bind _ _ _ _ _); [| intros st].
    + refine (preserves_foldEach _ _ _ _ _). intros d st.
      apply scanDomain_holds. assumption.
    + refine (preserves_forEach _ _ _ _). intros kv.
      apply keeps_of_same, bindServer_certs.
  - apply keeps_of_same.
    refine (preserves_bind _ _ _ _ _); [| intros st].
    + refine (preserves_foldEach _ _ _ _ _). intros d st. apply scanDomain_nil_certs.
    + refine (preserves_forEach _ _ _ _). intros kv. apply bindServer_certs.
Qed.

(** X17. Binding never disables or changes the certificate it binds: whatever
    the hosts and their policies are, also when a policy already refers to
    the certificate, its row is after the binding what it was before
    (lines 628-697). *)
Theorem binding_keeps_new_certificate (E : Env) (domains : list string) (resultCertId : Z)
    (newCert : SSLCert) (w : World) :
  keyedById w ->
  sslCerts w !! resultCertId = Some newCert ->
  - 2 ^ 63 <= cTimeEndAt newCert < 2 ^ 63 ->
  let w' := (exec (bindHosts E domains resultCertId) w).2 in
  sslCerts w' !! resultCertId = Some newCert /\ keyedById w'.
Proof.
  intros Hkey Hnew Hr. cbv zeta.
  assert (Hinv : holdsCert resultCertId newCert w) by (split; assumption).
  assert (Hrun : holdsCert resultCertId newCert (bindHosts E domains resultCertId w).2).
  { unfold bindHosts, FindEnabledSSLCert.
    destruct (fault E (SFindEnabledSSLCert resultCertId)) as [e |].
    - unfold bind, ret, logError, modify, exit. simpl.
      apply (holdsCert_same resultCertId newCert w); [reflexivity | exact Hinv].
    - unfold bind at 1. unfold gets. rewrite Hnew.
      destruct (cState newCert =? SSLCertStateEnabled);
        apply bindLoop_holds; auto. }
  unfold exec. destruct (bindHosts E domains resultCertId w) as [[[] | [] | m] w'];
    simpl in *; destruct Hrun as [Hk Hc]; split; assumption.
Qed.

Lemma binding_keeps_new_certificate_witness :
  sslCerts (exec (bindHosts quietEnv ["a.example.com"] 4)
              (worldIssued ["a.example.com"] 1700000001)).2 !! 4
  = Some cert4.
Proof.
  apply (binding_keeps_new_certificate quietEnv ["a.example.com"] 4 cert4
           (worldIssued ["a.example.com"] 1700000001)).
  - intros k c H. unfold worldIssued, worldBound in H. simpl in H.
    rewrite lookup_insert in H. case_decide as Hk.
    + injection H as <-. exact Hk.
    + apply lookup_singleton_Some in H as [<- <-]. reflexivity.
  - reflexivity.
  - simpl. lia.
Defined.

(** ** Every policy written names the new certificate *)

#[local] Instance writesSatisfy_preorder (P : list SSLCertRef -> Prop) :
  PreOrder (writesSatisfy P).
Proof.
  split.
  - intros w. split.
    + exists []. rewrite app_nil_r. split; [reflexivity | constructor].
    + intros id p H. left. assumption.
  - intros a b c [[n1 [H1 F1]] G1] [[n2 [H2 F2]] G2]. split.
    + exists (n1 ++ n2). rewrite H2, H1, app_assoc.
      split; [reflexivity | apply Forall_app; split; assumption].
    + intros id p Hc. destruct (G2 id p Hc) as [Hb | Hp]; [| right; assumption].
      apply G1. assumption.
Qed.

Lemma writesSatisfy_same P (w w' : World) :
  policyUpdates w' = policyUpdates w -> sslPolicies w' = sslPolicies w ->
  writesSatisfy P w w'.
Proof.
  intros Hu Hp. split.
  - exists []. rewrite app_nil_r. split; [assumption | constructor].
  - intros id p H. left. rewrite <- Hp. assumption.
Qed.

Lemma writesSatisfy_update P (w : World) (u : PolicyUpdate) :
  P (uCerts u) -> writesSatisfy P w (setPolicyUpdates (fun l => l ++ [u]) w).
Proof.
  intros Hn. split.
  - exists [u]. split; [reflexivity | constructor; [assumption | constructor]].
  - intros id p H. left. exact H.
Qed.

Lemma writesSatisfy_alter P (w : World) (u : PolicyUpdate) :
  P (uCerts u) -> writesSatisfy P w (setPolicies (alter (policyWithUpdate u) (uPolicyId u)) w).
Proof.
  intros Hn. split.
  - exists []. rewrite app_nil_r. split; [reflexivity | constructor].
  - intros id p H. simpl in H. rewrite lookup_alter in H. case_decide as Heq.
    + destruct (sslPolicies w !! uPolicyId u) as [p0 |] eqn:Hp0; simpl in H; [| discriminate].
      right. injection H as <-. assumption.
    + left. assumption.
Qed.

Lemma writesSatisfy_insert P (w : World) (id : Z) (p : SSLPolicy) :
  P (pCerts p) -> writesSatisfy P w (setPolicies (insert id p) w).
Proof.
  intros Hn. split.
  - exists []. rewrite app_nil_r. split; [reflexivity | constructor].
  - intros id' p' H. simpl in H. rewrite lookup_insert in H. case_decide as Heq.
    + right. injection H as <-. assumption.
    + left. assumption.
Qed.

Lemma bindServer_writes P E serverId serverInfo :
  P (composeCertRefs (CertIds serverInfo) ∅ []) ->
  preserves (writesSatisfy P) (bindServer E serverId serverInfo).
Proof.
  intros HP. unfold bindServer. unfold_storage. unfold_helpers.
  preserve_steps; intros w;
    first [ apply writesSatisfy_same; reflexivity
          | apply writesSatisfy_update; exact HP
          | apply writesSatisfy_alter; exact HP
          | apply writesSatisfy_insert; exact HP ].
Qed.

Lemma scanDomain_writes P E domains newCert certId domain st :
  preserves (writesSatisfy P) (scanDomain E domains newCert certId domain st).
Proof.
  unfold scanDomain, scanServer, mergeCerts, mergeCert. unfold_storage. unfold_helpers.
  preserve_steps; intros w; apply writesSatisfy_same; reflexivity.
Qed.

(** What a loop with locals leaves in its locals. *)
Lemma foldEach_result {X A S} (Inv : S -> Prop) (l : list A) (body : A -> S -> Proc S S) :
  (forall x s w, Inv s ->
     match (body x s w).1 with Next s' | Exit s' => Inv s' | Panic _ => True end) ->
  forall s w, Inv s ->
    match (foldEach (R:=X) l s body w).1 with
    | Next s' => Inv s'
    | Exit _ => False
    | Panic _ => True
    end.
Proof.
  intros Hb. induction l as [| x l IH]; intros s w Hs; simpl; [exact Hs |].
  unfold bind, call. specialize (Hb x s w Hs).
  destruct (body x s w) as [[s' | s' | m] w']; simpl in *; [apply IH | apply IH | exact I];
    assumption.
Qed.

Lemma mergeCerts_result {X} E domains newCert certId certs w :
  match (mergeCerts (R:=X) E domains newCert certId certs w).1 with
  | Next certIds => certId ∈ certIds
  | Exit _ => False
  | Panic _ => True
  end.
Proof.
  unfold mergeCerts, bind.
  pose proof (foldEach_result (X:=X) (fun _ => True) certs (mergeCert E domains newCert)
                (fun x s w' _ => match (mergeCert E domains newCert x s w').1 as f
                                       return match f with
                                              | Next _ | Exit _ => True
                                              | Panic _ => True
                                              end
                                 with Next _ | Exit _ | Panic _ => I end)
                [] w I) as Hf.
  destruct (foldEach certs [] (mergeCert E domains newCert) w) as [[ids | ids | m] w'];
    simpl in *; [| contradiction | exact I].
  apply elem_of_app. right. apply list_elem_of_singleton. reflexivity.
Qed.

Lemma entriesName_insert certId st k info names :
  entriesName certId st -> certId ∈ CertIds info ->
  entriesName certId (<[k := info]> (st.1), names).
Proof.
  intros Hst Hin k' info' H. simpl in H. rewrite lookup_insert in H. case_decide as Heq.
  - injection H as <-. assumption.
  - apply (Hst k' info' H).
Qed.

Lemma scanServer_result E domains newCert certId server st w :
  entriesName certId st ->
  match (scanServer E domains newCert certId server st w).1 with
  | Next st' | Exit st' => entriesName certId st'
  | Panic _ => True
  end.
Proof.
  intros Hst.
  unfold scanServer, bind, someOrExit, ComposePolicyConfig, gets, ret, exit.
  destruct (sPlainServerNames server) as [names |]; simpl; [| exact Hst].
  destruct (sHttps server) as [tls |]; simpl; [| exact Hst].
  assert (Hnew : entriesName certId
                   (<[int64 (sId server) :=
                        mkServerInfo 0 [certId] (int64 (sUserId server)) tls]> (st.1),
                    st.2 ∪ list_to_set names)).
  { apply entriesName_insert; [exact Hst | apply list_elem_of_singleton; reflexivity]. }
  destruct (hSSLPolicyRef tls) as [ref |]; simpl; [| exact Hnew].
  destruct (fault E (SComposePolicyConfig (prSSLPolicyId ref))); simpl; [exact Hst |].
  destruct (sslPolicies w !! prSSLPolicyId ref) as [p |]; simpl; [| exact Hnew].
  destruct (pState p =? SSLPolicyStateEnabled); simpl; [| exact Hnew].
  match goal with
  | |- context [@mergeCerts ?a ?r ?b ?c ?d ?e ?f] =>
      pose proof (@mergeCerts_result r a b c d e f) as Hm;
      destruct (@mergeCerts a r b c d e f) as [[ids | ids | m] w']
  end; simpl in *; [| contradiction | exact I].
  apply entriesName_insert; [exact Hst | exact Hm].
Qed.

Lemma scanDomain_result E domains newCert certId domain st w :
  entriesName certId st ->
  match (scanDomain E domains newCert certId domain st w).1 with
  | Next st' | Exit st' => entriesName certId st'
  | Panic _ => True
  end.
Proof.
  intros Hst. unfold scanDomain, exitIf, FindUserServerByServerName, bind, gets, ret, exit.
  case_bool_decide; simpl; [exact Hst |].
  destruct (fault E (SFindUserServerByServerName domain)); simpl; [exact Hst |].
  match goal with
  | |- context [@foldEach ?r ?a ?t ?l ?s ?b ?w0] =>
      pose proof (@foldEach_result r a t (entriesName certId) l b
                    (fun x s' w' => scanServer_result E domains newCert certId x s' w')
                    s w0 Hst) as Hf;
      destruct (@foldEach r a t l s b w0) as [[st' | st' | m] w']
  end; simpl in *; [exact Hf | contradiction | exact I].
Qed.

Lemma preserves_bind_result (Rel : World -> World -> Prop) `{!PreOrder Rel} {X A B}
    (Q : A -> Prop) (p : Proc X A) (k : A -> Proc X B) :
  preserves Rel p ->
  (forall w, match (p w).1 with Next a => Q a | Exit _ => False | Panic _ => True end) ->
  (forall a, Q a -> preserves Rel (k a)) ->
  preserves Rel (bind p k).
Proof.
  intros Hp Hq Hk w. unfold bind. specialize (Hp w). specialize (Hq w).
  destruct (p w) as [[a | r | m] w']; simpl in *; try assumption.
  etransitivity; [eassumption | apply Hk; assumption].
Qed.

Lemma preserves_forEach_Forall (Rel : World -> World -> Prop) `{!PreOrder Rel} {X A}
    (l : list A) (body : A -> Proc unit unit) :
  Forall (fun x => preserves Rel (body x)) l -> preserves Rel (forEach (R:=X) l body).
Proof.
  induction 1 as [| x l Hx Hl IH]; simpl.
  - apply preserves_ret; assumption.
  - apply preserves_bind; [assumption | apply preserves_call; assumption | intros _; exact IH].
Qed.

Lemma bindHosts_writes E domains certId :
  preserves (writesSatisfy (fun refs => certId ∈ refIds refs)) (bindHosts E domains certId).
Proof.
  unfold bindHosts, FindEnabledSSLCert.
  refine (preserves_bind _ _ _ _ _); [| intros r].
  { unfold_helpers. preserve_steps. }
  destruct r as [newCert | e].
  2: { unfold logError. preserve_steps. intros w. apply writesSatisfy_same; reflexivity. }
  refine (preserves_bind_result _ (entriesName certId) _ _ _ _ _).
  - refine (preserves_foldEach _ _ _ _ _). intros d st. apply scanDomain_writes.
  - intros w. apply foldEach_result.
    + intros x s w' Hs. apply scanDomain_result. exact Hs.
    + intros k info H. simpl in H. rewrite lookup_empty in H. discriminate.
  - intros st Hst. apply preserves_forEach_Forall; [apply _ |].
    apply Forall_forall. intros [k info] Hin. simpl.
    apply bindServer_writes. apply composeCertRefs_elem.
    apply (Hst k info). apply elem_of_map_to_list. exact Hin.
Qed.

(** X18. Whatever binding writes to a policy names the new certificate: every
    policy update it calls carries a reference list with the certificate,
    and every policy row it creates or changes refers to it afterwards,
    for all hosts and also when single storage calls fail (lines 628-754). *)
Theorem binding_installs_new_certificate (E : Env) (domains : list string)
    (resultCertId : Z) (w : World) :
  let w' := (exec (bindHosts E domains resultCertId) w).2 in
  (exists news, policyUpdates w' = policyUpdates w ++ news
                /\ Forall (fun u => resultCertId ∈ refIds (uCerts u)) news)
  /\ (forall id p, sslPolicies w' !! id = Some p ->
        sslPolicies w !! id = Some p \/ resultCertId ∈ refIds (pCerts p)).
Proof.
  cbv zeta. exact (preserves_exec _ _ w (bindHosts_writes E domains resultCertId)).
Qed.

(** * Properties of [taskutils.RunConcurrent] *)

Lemma turn_poolInv {A} n (l : list A) i p :
  (i < n)%nat -> poolInv n l p -> poolInv n l (taskutils.turn i p).
Proof.
  intros Hi (Hall & Hwho & Hempty). unfold taskutils.turn.
  case_bool_decide as Hret; [repeat split; assumption |].
  destruct (taskutils.taskChan p) as [| task rest] eqn:Hchan; unfold poolInv;
    cbn [taskutils.calls taskutils.taskChan taskutils.returned].
  - split; [exact Hall |].
    split; [exact Hwho | reflexivity].
  - split; [| split].
    + rewrite fmap_app, <- app_assoc. simpl. exact Hall.
    + intros j t Hin. apply elem_of_app in Hin as [Hin | Hin]; [eapply Hwho; eassumption |].
      apply list_elem_of_singleton in Hin. injection Hin as -> _. exact Hi.
    + intros j Hj. specialize (Hempty j Hj). discriminate.
Qed.

Lemma runPool_poolInv {A} n (l : list A) schedule p :
  poolInv n l p -> poolInv n l (taskutils.runPool n schedule p).
Proof.
  revert p. unfold taskutils.runPool.
  induction schedule as [| i schedule IH]; intros p Hp; simpl; [exact Hp |].
  apply IH. destruct (Nat.ltb_spec i n) as [Hi | Hi]; [apply turn_poolInv |]; assumption.
Qed.

Lemma workers_range (concurrent countTasks : Z) :
  0 < countTasks ->
  1 <= taskutils.workers concurrent countTasks <= countTasks
  /\ taskutils.workers concurrent countTasks
     = Z.min countTasks (if concurrent <=? 0 then 8 else concurrent).
Proof.
  intros Hpos. unfold taskutils.workers.
  destruct (Z.leb_spec concurrent 0); destruct (Z.gtb_spec 8 countTasks);
    try destruct (Z.gtb_spec concurrent countTasks); lia.
Qed.

(** X19. Whatever the interleaving of the goroutines, when RunConcurrent returns
    for a slice it returns no error and has called [f] exactly once for
    each task: the tasks of the calls, in the order in which they were
    received, are the tasks of the slice in their order, and every call
    was made by one of the goroutines started. For a slice that is not
    empty their number is the smaller of the number of tasks and
    [concurrent], with 8 standing for a [concurrent] that is not positive
    (lines 13-61). *)
Theorem run_concurrent_calls_each_task_once {A} (l : list A) (concurrent : Z)
    (schedule : list nat) (err : option string) (made : list (nat * A)) :
  taskutils.RunConcurrent (taskutils.Slice l) concurrent schedule = Some (err, made) ->
  err = None
  /\ made.*2 = l
  /\ (forall i t, (i, t) ∈ made ->
        Z.of_nat i < taskutils.workers concurrent (Z.of_nat (length l)))
  /\ (l <> [] ->
      taskutils.workers concurrent (Z.of_nat (length l))
      = Z.min (Z.of_nat (length l)) (if concurrent <=? 0 then 8 else concurrent)).
Proof.
  intros Hrun.
  assert (Hcount : l <> [] ->
            taskutils.workers concurrent (Z.of_nat (length l))
            = Z.min (Z.of_nat (length l)) (if concurrent <=? 0 then 8 else concurrent)).
  { intros Hne. apply workers_range. destruct l; [contradiction | simpl; lia]. }
  revert Hrun. unfold taskutils.RunConcurrent.
  destruct (Z.eqb_spec (Z.of_nat (length l)) 0) as [Hz | Hnz].
  - intros H. injection H as <- <-. destruct l; [| discriminate].
    repeat split; [| exact Hcount]. intros i t Hin. apply elem_of_nil in Hin. contradiction.
  - set (n := Z.to_nat (taskutils.workers concurrent (Z.of_nat (length l)))).
    destruct (workers_range concurrent (Z.of_nat (length l))) as [Hn _]; [lia |].
    pose proof (runPool_poolInv n l schedule (taskutils.mkPool l ∅ [])) as Hinv.
    destruct (taskutils.waited n (taskutils.runPool n schedule (taskutils.mkPool l ∅ [])))
      eqn:Hwait; [| discriminate].
    intros H. injection H as <- <-.
    destruct Hinv as (Hall & Hwho & Hempty).
    { split; [reflexivity |]. split; intros i; [intros t Hin | intros Hin].
      - apply elem_of_nil in Hin. contradiction.
      - apply elem_of_empty in Hin. contradiction. }
    split; [reflexivity |]. split; [| split; [| exact Hcount]].
    + unfold taskutils.waited in Hwait. rewrite forallb_forall in Hwait.
      assert (H0 : In 0%nat (seq 0 n)) by (apply in_seq; lia).
      specialize (Hwait _ H0). apply bool_decide_eq_true in Hwait.
      rewrite (Hempty _ Hwait), app_nil_r in Hall. exact Hall.
    + intros i t Hin. specialize (Hwho i t Hin). lia.
Qed.

Lemma run_concurrent_calls_each_task_once_witness :
  taskutils.RunConcurrent (taskutils.Slice ["a"; "b"; "c"]) 2 [0; 1; 0; 1; 0]%nat
  = Some (None, [(0%nat, "a"); (1%nat, "b"); (0%nat, "c")])
  /\ ([(0%nat, "a"); (1%nat, "b"); (0%nat, "c")] : list (nat * string)).*2 = ["a"; "b"; "c"].
Proof.
  assert (H : taskutils.RunConcurrent (taskutils.Slice ["a"; "b"; "c"]) 2 [0; 1; 0; 1; 0]%nat
              = Some (None, [(0%nat, "a"); (1%nat, "b"); (0%nat, "c")]))
    by (vm_compute; reflexivity).
  split; [exact H |].
  exact (proj1 (proj2 (run_concurrent_calls_each_task_once _ _ _ _ _ H))).
Defined.

Lemma turn_returned {A} i j (p : taskutils.Pool A) :
  j ∈ taskutils.returned p -> j ∈ taskutils.returned (taskutils.turn i p).
Proof.
  intros Hj. unfold taskutils.turn. case_bool_decide; [exact Hj |].
  destruct (taskutils.taskChan p); cbn [taskutils.returned]; [set_solver | exact Hj].
Qed.

Lemma runPool_returned {A} n schedule j (p : taskutils.Pool A) :
  j ∈ taskutils.returned p -> j ∈ taskutils.returned (taskutils.runPool n schedule p).
Proof.
  revert p. unfold taskutils.runPool.
  induction schedule as [| i schedule IH]; intros p Hj; simpl; [exact Hj |].
  apply IH. destruct (i <? n)%nat; [apply turn_returned |]; exact Hj.
Qed.

Lemma turn_taskChan {A} i (p : taskutils.Pool A) :
  (length (taskutils.taskChan (taskutils.turn i p)) <= length (taskutils.taskChan p))%nat.
Proof.
  unfold taskutils.turn. case_bool_decide; [lia |].
  destruct (taskutils.taskChan p); cbn [taskutils.taskChan]; simpl; lia.
Qed.

(** A goroutine that gets more turns than there are tasks in the channel
    has returned. *)
Lemma enough_turns {A} n schedule i (p : taskutils.Pool A) :
  (i < n)%nat ->
  (length (taskutils.taskChan p) < count_occ Nat.eq_dec schedule i)%nat ->
  i ∈ taskutils.returned (taskutils.runPool n schedule p).
Proof.
  intros Hi. revert p.
  induction schedule as [| j schedule IH]; intros p Hcount; simpl in Hcount; [lia |].
  change (taskutils.runPool n (j :: schedule) p)
    with (taskutils.runPool n schedule (if (j <? n)%nat then taskutils.turn j p else p)).
  destruct (Nat.eq_dec j i) as [-> | Hne].
  - rewrite (proj2 (Nat.ltb_lt i n) Hi).
    unfold taskutils.turn. case_bool_decide as Hret; [apply runPool_returned; exact Hret |].
    destruct (taskutils.taskChan p) as [| task rest] eqn:Hchan.
    + apply runPool_returned. cbn [taskutils.returned]. set_solver.
    + apply IH. cbn [taskutils.taskChan]. simpl in Hcount. lia.
  - apply IH. destruct (j <? n)%nat; [| exact Hcount].
    pose proof (turn_taskChan j p). lia.
Qed.

(** X20. RunConcurrent returns under every schedule that gives each of its
    goroutines more turns than there are tasks: [wg.Wait()] does not block
    for ever, and no error is returned. The number of goroutines is the
    smaller of the number of tasks and [concurrent], with 8 standing for a
    [concurrent] that is not positive (lines 27-58). *)
Theorem run_concurrent_returns {A} (l : list A) (concurrent : Z) (schedule : list nat) :
  (forall i, Z.of_nat i < Z.min (Z.of_nat (length l)) (if concurrent <=? 0 then 8 else concurrent) ->
     (length l < count_occ Nat.eq_dec schedule i)%nat) ->
  exists made, taskutils.RunConcurrent (taskutils.Slice l) concurrent schedule
               = Some (None, made).
Proof.
  intros Hfair. unfold taskutils.RunConcurrent.
  destruct (Z.eqb_spec (Z.of_nat (length l)) 0) as [Hz | Hnz]; [eexists; reflexivity |].
  destruct (workers_range concurrent (Z.of_nat (length l))) as [Hn Hmin]; [lia |].
  set (n := Z.to_nat (taskutils.workers concurrent (Z.of_nat (length l)))).
  assert (Hwait : taskutils.waited n
                    (taskutils.runPool n schedule (taskutils.mkPool l ∅ [])) = true).
  { unfold taskutils.waited. apply forallb_forall. intros i Hin.
    apply in_seq in Hin. apply bool_decide_eq_true.
    apply enough_turns; [lia |]. cbn [taskutils.taskChan].
    apply Hfair. rewrite <- Hmin. lia. }
  rewrite Hwait. eexists. reflexivity.
Qed.

Lemma run_concurrent_returns_witness :
  exists made, taskutils.RunConcurrent (taskutils.Slice ["a"; "b"]) 0
                 [0; 1; 0; 1; 0; 1]%nat
               = Some (None, made).
Proof.
  apply (run_concurrent_returns ["a"; "b"] 0 [0; 1; 0; 1; 0; 1]%nat).
  intros i Hi. simpl in Hi.
  destruct i as [| [| i]]; [vm_compute; lia | vm_compute; lia | lia].
Defined.

(** * Properties of [ttlcache.Manager] *)

Lemma calls_registered (l : list ttlcache.Call) (cache : ttlcache.Cache) :
  cache ∈ ttlcache.cacheMap (ttlcache.calls l ttlcache.NewManager) <-> lastAdded l cache.
Proof.
  unfold ttlcache.calls, lastAdded.
  induction l as [| c l IH] using rev_ind.
  - simpl. split; [set_solver |]. intros (before & after & H & _).
    destruct before; discriminate.
  - rewrite fold_left_app. simpl.
    set (this := fold_left ttlcache.call l ttlcache.NewManager) in *.
    destruct c as [x | x]; simpl.
    + rewrite elem_of_union, elem_of_singleton, IH. split.
      * intros [-> | (before & after & -> & Hno)].
        -- exists l, []. split; [reflexivity | apply not_elem_of_nil].
        -- exists before, (after ++ [ttlcache.CallAdd x]).
           split; [rewrite <- app_assoc; reflexivity |].
           rewrite elem_of_app, list_elem_of_singleton. intros [H | H]; [auto | discriminate].
      * intros (before & after & Heq & Hno).
        destruct after as [| a after _] using rev_ind.
        -- apply app_inj_tail in Heq as [_ Heq]. injection Heq as ->. left. reflexivity.
        -- rewrite app_comm_cons, app_assoc in Heq. apply app_inj_tail in Heq as [-> _].
           right. exists before, after. split; [reflexivity |].
           intros Hin. apply Hno. apply elem_of_app. left. exact Hin.
    + rewrite elem_of_difference, elem_of_singleton, IH. split.
      * intros [(before & after & -> & Hno) Hne].
        exists before, (after ++ [ttlcache.CallRemove x]).
        split; [rewrite <- app_assoc; reflexivity |].
        rewrite elem_of_app, list_elem_of_singleton.
        intros [H | H]; [auto | injection H as ->; contradiction].
      * intros (before & after & Heq & Hno).
        destruct after as [| a after _] using rev_ind.
        -- apply app_inj_tail in Heq as [_ Heq]. discriminate.
        -- rewrite app_comm_cons, app_assoc in Heq. apply app_inj_tail in Heq as [-> <-].
           split.
           ++ exists before, after. split; [reflexivity |].
              intros Hin. apply Hno. apply elem_of_app. left. exact Hin.
           ++ intros ->. apply Hno. apply elem_of_app. right. apply list_elem_of_here.
Qed.

(** X21. After any sequence of Add and Remove calls on a new manager, the
    caches registered are those whose last call was an Add: a tick calls
    [GC] on each of them once and on no other cache, and Count is their
    number; adding a cache twice registers it once (lines 22-61). *)
Theorem manager_registers_last_added (l : list ttlcache.Call) :
  let this := ttlcache.calls l ttlcache.NewManager in
  (forall cache, cache ∈ ttlcache.tick this <-> lastAdded l cache)
  /\ NoDup (ttlcache.tick this)
  /\ ttlcache.Count this = Z.of_nat (length (ttlcache.tick this)).
Proof.
  cbv zeta. unfold ttlcache.tick, ttlcache.Count. split; [| split].
  - intros cache. rewrite elem_of_elements. apply calls_registered.
  - apply NoDup_elements.
  - reflexivity.
Qed.

(** * Properties of the Huawei Cloud DNS client *)

Lemma string_length_app (a b : string) :
  String.length (a +:+ b) = (String.length a + String.length b)%nat.
Proof. induction a as [| c a IH]; simpl; [reflexivity | rewrite IH; reflexivity]. Qed.

Lemma string_cons_app_neq (c : Ascii.ascii) (a suffix : string) :
  String.eqb (String c (a +:+ suffix)) suffix = false.
Proof.
  apply String.eqb_neq. intros H.
  apply (f_equal String.length) in H. simpl in H. rewrite string_length_app in H. lia.
Qed.

Lemma TrimSuffix_app (a suffix : string) :
  huaweidns.TrimSuffix (a +:+ suffix) suffix = a.
Proof.
  induction a as [| c a IH].
  - simpl. destruct suffix; simpl; [reflexivity |].
    rewrite Ascii.eqb_refl, String.eqb_refl. reflexivity.
  - change ((String c a) +:+ suffix) with (String c (a +:+ suffix)).
    cbn [huaweidns.TrimSuffix]. rewrite string_cons_app_neq, IH. reflexivity.
Qed.

Lemma HasSuffix_app (a suffix : string) :
  huaweidns.HasSuffix (a +:+ suffix) suffix = true.
Proof.
  induction a as [| c a IH].
  - simpl. destruct suffix; simpl; [reflexivity |].
    rewrite Ascii.eqb_refl, String.eqb_refl. reflexivity.
  - change ((String c a) +:+ suffix) with (String c (a +:+ suffix)).
    cbn [huaweidns.HasSuffix]. rewrite string_cons_app_neq, IH. reflexivity.
Qed.

Lemma Index_bounds (s : string) (c : Ascii.ascii) : -1 <= huaweidns.Index s c.
Proof.
  induction s as [| a s IH]; simpl; [lia |].
  destruct (Ascii.eqb a c); [lia |].
  destruct (Z.ltb_spec (huaweidns.Index s c) 0); lia.
Qed.

Lemma Index_app_absent (s t : string) (c : Ascii.ascii) :
  huaweidns.Index s c = -1 ->
  huaweidns.Index (s +:+ String c t) c = Z.of_nat (String.length s).
Proof.
  induction s as [| a s IH]; simpl.
  - intros _. rewrite Ascii.eqb_refl. reflexivity.
  - destruct (Ascii.eqb a c); [discriminate |].
    destruct (Z.ltb_spec (huaweidns.Index s c) 0) as [Hneg | Hpos].
    + intros _. pose proof (Index_bounds s c). rewrite IH by lia.
      destruct (Z.ltb_spec (Z.of_nat (String.length s)) 0); lia.
    + lia.
Qed.

Lemma slice_app (s t : string) : huaweidns.slice (s +:+ t) (String.length s) = s.
Proof. induction s as [| a s IH]; simpl; [destruct t | rewrite IH]; reflexivity. Qed.

(** The id of the record set is found again in the id of a record: the
    text before the first [@]. *)
Lemma recordSetIdOf_joined (id value : string) (name type route : string) (ttl : Z) :
  id <> "" ->
  huaweidns.Index id huaweidns.atChar = -1 ->
  huaweidns.recordSetIdOf (huaweidns.mkRecord (id +:+ "@" +:+ value) name type value route ttl)
  = id.
Proof.
  intros Hne Hat. unfold huaweidns.recordSetIdOf. cbn [huaweidns.Id].
  change (id +:+ "@" +:+ value) with (id +:+ String huaweidns.atChar value).
  rewrite Index_app_absent by assumption.
  destruct id as [| a s] eqn:Hid; [contradiction |].
  rewrite <- Hid. assert (Hpos : 0 < Z.of_nat (String.length id)).
  { rewrite Hid. simpl. lia. }
  rewrite (proj2 (Z.ltb_lt _ _) Hpos), Nat2Z.id. apply slice_app.
Qed.

(** Every record GetRecords returns was built from a record set of the
    answer to one of its page calls. *)
Lemma getRecordPages_elem net this domain zoneId (record : huaweidns.Record) :
  forall (pages : list Z) (acc records : list huaweidns.Record),
    huaweidns.getRecordPages net this domain zoneId pages acc = huaweidns.Done records ->
    record ∈ records ->
    record ∈ acc
    \/ exists i resp recordSet,
         i ∈ pages
         /\ huaweidns.doAPI net this "GET" ("/v2.1/zones/" +:+ zoneId +:+ "/recordsets")
              [("offset", huaweidns.itoa (i * 500)); ("limit", huaweidns.itoa 500)]
              huaweidns.EmptyBody = huaweidns.Done resp
         /\ recordSet ∈ huaweidns.RecordSets resp
         /\ record ∈ huaweidns.recordsOfSet net domain recordSet.
Proof.
  induction pages as [| i rest IH]; intros acc records Hrun Hin.
  - injection Hrun as <-. left. exact Hin.
  - cbn [huaweidns.getRecordPages] in Hrun.
    destruct (huaweidns.doAPI net this "GET" ("/v2.1/zones/" +:+ zoneId +:+ "/recordsets")
                [("offset", huaweidns.itoa (i * 500)); ("limit", huaweidns.itoa 500)]
                huaweidns.EmptyBody) as [resp | e | m] eqn:Hcall; try discriminate.
    destruct (length (huaweidns.RecordSets resp) =? 0)%nat.
    + injection Hrun as <-. left. exact Hin.
    + destruct (IH _ _ Hrun Hin) as [Hacc | (i' & resp' & recordSet & Hi & Hc & Hs & Hr)].
      * apply elem_of_app in Hacc as [Hacc | Hnew]; [left; exact Hacc | right].
        apply list_elem_of_In, in_concat in Hnew as [l [Hl Hrec]].
        apply in_map_iff in Hl as [recordSet [<- Hset]].
        exists i, resp, recordSet.
        split; [left |]. split; [exact Hcall |].
        split; apply list_elem_of_In; assumption.
      * right. exists i', resp', recordSet.
        split; [right; exact Hi |]. auto.
Qed.

(** X22. Record ids round-trip. A record GetRecords returns was built from a
    record set of the answer to one of its page calls and one of the
    values of that record set: its id is the id of the record set, [@]
    and the value, its value is that value, and its name is the name
    AddRecord was given for it. Whenever later, DeleteRecord and
    UpdateRecord get the id of the record set back from it, whatever the
    value is (it may hold an [@]), as long as the id of the record set is
    not empty and holds no [@]: their request goes to the path of the
    zone's record set with that id (lines 151-187, 2413-2475). *)
Theorem record_id_round_trip (net : huaweidns.Net) (this : huaweidns.Provider)
    (domain : string) (records : list huaweidns.Record) (record : huaweidns.Record) :
  huaweidns.GetRecords net this domain = huaweidns.Done records ->
  record ∈ records ->
  exists (zoneId : string) (i : nat) (resp : huaweidns.Response)
         (recordSet : huaweidns.RecordSet) (value : string),
    huaweidns.findZoneIdWithDomain net this domain = huaweidns.Done zoneId
    /\ pageCall net this zoneId i = huaweidns.Done resp
    /\ recordSet ∈ huaweidns.RecordSets resp
    /\ value ∈ huaweidns.rsRecords recordSet
    /\ huaweidns.Id record = huaweidns.rsId recordSet +:+ "@" +:+ value
    /\ huaweidns.Value record = value
    /\ huaweidns.Type_ record = huaweidns.rsType recordSet
    /\ huaweidns.Route record = huaweidns.rsLine recordSet
    /\ (forall name, huaweidns.rsName recordSet = name +:+ "." +:+ domain +:+ "." ->
          huaweidns.Name record = name)
    /\ (huaweidns.rsId recordSet <> "" ->
        huaweidns.Index (huaweidns.rsId recordSet) huaweidns.atChar = -1 ->
        forall (net' : huaweidns.Net) (this' : huaweidns.Provider) (domain' zoneId' : string),
          huaweidns.findZoneIdWithDomain net' this' domain' = huaweidns.Done zoneId' ->
          huaweidns.DeleteRecord net' this' domain' record
          = match huaweidns.doAPI net' this' "DELETE"
                    ("/v2.1/zones/" +:+ zoneId' +:+ "/recordsets/" +:+ huaweidns.rsId recordSet)
                    [] huaweidns.EmptyBody with
            | huaweidns.Done _ => huaweidns.Done tt
            | huaweidns.Failure e =>
                huaweidns.Failure (huaweidns.WrapError net' e domain' record)
            | huaweidns.Crash m => huaweidns.Crash m
            end
          /\ forall newRecord, exists body sent,
               huaweidns.UpdateRecord net' this' domain' record newRecord
               = match huaweidns.doAPI net' this' "PUT"
                         ("/v2.1/zones/" +:+ zoneId' +:+ "/recordsets/"
                          +:+ huaweidns.rsId recordSet) [] body with
                 | huaweidns.Done _ => (huaweidns.Done tt, sent)
                 | huaweidns.Failure e =>
                     (huaweidns.Failure (huaweidns.WrapError net' e domain' sent), sent)
                 | huaweidns.Crash m => (huaweidns.Crash m, sent)
                 end).
Proof.
  intros Hget Hin. unfold huaweidns.GetRecords in Hget.
  destruct (huaweidns.findZoneIdWithDomain net this domain) as [zoneId | e | m] eqn:Hzone;
    try discriminate.
  destruct (getRecordPages_elem net this domain zoneId record _ _ _ Hget Hin)
    as [Hnil | (i & resp & recordSet & Hi & Hcall & Hset & Hrec)];
    [apply elem_of_nil in Hnil; contradiction |].
  apply list_elem_of_In, in_map_iff in Hi as [n [<- _]].
  unfold huaweidns.recordsOfSet in Hrec.
  apply list_elem_of_In, in_map_iff in Hrec as [value [<- Hvalue]].
  exists zoneId, n, resp, recordSet, value.
  split; [reflexivity |]. split; [exact Hcall |]. split; [exact Hset |].
  split; [apply list_elem_of_In; exact Hvalue |].
  cbn [huaweidns.Id huaweidns.Name huaweidns.Value huaweidns.Type_ huaweidns.Route].
  split; [reflexivity |]. split; [reflexivity |]. split; [reflexivity |].
  split; [reflexivity |].
  split; [intros name ->; apply TrimSuffix_app |].
  intros Hne Hat net' this' domain' zoneId' Hzone'.
  unfold huaweidns.DeleteRecord, huaweidns.UpdateRecord. rewrite Hzone'.
  rewrite recordSetIdOf_joined by assumption.
  split; [reflexivity |].
  intros newRecord. eexists _, _. reflexivity.
Qed.

Lemma record_id_round_trip_witness :
  exists (zoneId : string) (i : nat) (resp : huaweidns.Response)
         (recordSet : huaweidns.RecordSet) (value : string),
    huaweidns.findZoneIdWithDomain demoNet demoProvider "example.com" = huaweidns.Done zoneId
    /\ pageCall demoNet demoProvider zoneId i = huaweidns.Done resp
    /\ recordSet ∈ huaweidns.RecordSets resp
    /\ value ∈ huaweidns.rsRecords recordSet
    /\ "8aace3b9@192.0.2.2" = huaweidns.rsId recordSet +:+ "@" +:+ value.
Proof.
  destruct (record_id_round_trip demoNet demoProvider "example.com"
              (recordsOfPage demoNet "example.com" demoSets)
              (huaweidns.mkRecord "8aace3b9@192.0.2.2" "www" "A" "192.0.2.2" "default_view" 300))
    as (zoneId & i & resp & recordSet & value & Hz & Hc & Hs & Hv & Hid & _).
  - vm_compute. reflexivity.
  - vm_compute. apply list_elem_of_further, list_elem_of_here.
  - exists zoneId, i, resp, recordSet, value. auto.
Defined.

(** ** The value of a TXT record *)

Lemma TrimLeft_noLead (s : string) (c : Ascii.ascii) : noLead c (huaweidns.TrimLeft s c).
Proof.
  induction s as [| a s IH]; simpl; [exact I |].
  destruct (Ascii.eqb_spec a c) as [-> | Hne]; [exact IH | exact Hne].
Qed.

Lemma TrimLeft_id (s : string) (c : Ascii.ascii) : noLead c s -> huaweidns.TrimLeft s c = s.
Proof.
  destruct s as [| a s]; simpl; [reflexivity |].
  intros Hne. destruct (Ascii.eqb_spec a c); [contradiction | reflexivity].
Qed.

Lemma TrimRight_noLead (s : string) (c : Ascii.ascii) :
  noLead c s -> noLead c (huaweidns.TrimRight s c).
Proof.
  destruct s as [| a s]; simpl; [exact (fun H => H) |].
  intros Hne. destruct (huaweidns.TrimRight s c); simpl; [| exact Hne].
  destruct (Ascii.eqb_spec a c); [exact I | exact Hne].
Qed.

Lemma TrimRight_cons (a : Ascii.ascii) (s : string) (c : Ascii.ascii) :
  huaweidns.TrimRight (String a s) c
  = match huaweidns.TrimRight s c with
    | EmptyString => if Ascii.eqb a c then EmptyString else String a EmptyString
    | String b r => String a (String b r)
    end.
Proof. reflexivity. Qed.

Lemma TrimRight_idem (s : string) (c : Ascii.ascii) :
  huaweidns.TrimRight (huaweidns.TrimRight s c) c = huaweidns.TrimRight s c.
Proof.
  induction s as [| a s IH]; [reflexivity |].
  rewrite TrimRight_cons.
  destruct (huaweidns.TrimRight s c) as [| b r] eqn:Hr.
  - destruct (Ascii.eqb_spec a c) as [-> | Hne]; [reflexivity |].
    rewrite TrimRight_cons. simpl.
    destruct (Ascii.eqb_spec a c); [contradiction | reflexivity].
  - rewrite TrimRight_cons, IH. reflexivity.
Qed.

Lemma TrimRight_snoc (s : string) (c : Ascii.ascii) :
  huaweidns.TrimRight (s +:+ String c EmptyString) c = huaweidns.TrimRight s c.
Proof.
  induction s as [| a s IH]; simpl.
  - rewrite Ascii.eqb_refl. reflexivity.
  - rewrite IH. reflexivity.
Qed.

Lemma Trim_quoted (s : string) (c : Ascii.ascii) :
  huaweidns.Trim (String c (huaweidns.Trim s c +:+ String c EmptyString)) c
  = huaweidns.Trim s c.
Proof.
  unfold huaweidns.Trim at 1. cbn [huaweidns.TrimLeft]. rewrite Ascii.eqb_refl.
  assert (Hlead : noLead c (huaweidns.Trim s c))
    by (apply TrimRight_noLead, TrimLeft_noLead).
  destruct (huaweidns.Trim s c) as [| a t] eqn:Ht.
  - simpl. rewrite Ascii.eqb_refl. reflexivity.
  - rewrite TrimLeft_id by exact Hlead.
    rewrite TrimRight_snoc, <- Ht. apply TrimRight_idem.
Qed.

(** X23. AddRecord and UpdateRecord send the value of a TXT record between one
    pair of quotes, whatever quotes it came with: the value is stripped of
    the quotes at its ends and put in quotes; the value of a record of
    another type is sent as it is. The TTL they send is positive: 300
    stands for a TTL that is not. With the zone found, the request of
    AddRecord is a POST to the record sets of the zone and that of
    UpdateRecord a PUT to a record set of the zone, both with the name of
    the record under the domain, that one value, the route and that TTL;
    the caller finds the record with the value as it was sent, and after
    AddRecord succeeded with the id the service answered, [@] and that
    value. Sending the record again as the caller found it sends the same
    request: quoting a value that was quoted already changes nothing
    (lines 2378-2451). *)
Theorem txt_value_is_quoted_once (net : huaweidns.Net) (this : huaweidns.Provider)
    (domain : string) (record newRecord : huaweidns.Record) :
  let quote := String huaweidns.quoteChar EmptyString in
  exists (value : string) (ttl : Z),
    (huaweidns.Type_ newRecord = huaweidns.RecordTypeTXT net ->
       exists inner,
         value = quote +:+ inner +:+ quote
         /\ inner = huaweidns.Trim (huaweidns.Value newRecord) huaweidns.quoteChar
         /\ noLead huaweidns.quoteChar inner /\ noTrail huaweidns.quoteChar inner)
    /\ (huaweidns.Type_ newRecord <> huaweidns.RecordTypeTXT net ->
        value = huaweidns.Value newRecord)
    /\ 0 < ttl
    /\ (0 < huaweidns.TTL newRecord -> ttl = huaweidns.TTL newRecord)
    /\ (huaweidns.TTL newRecord <= 0 -> ttl = 300)
    /\ let sent := huaweidns.mkRecord (huaweidns.Id newRecord) (huaweidns.Name newRecord)
                     (huaweidns.Type_ newRecord) value (huaweidns.Route newRecord)
                     (huaweidns.TTL newRecord) in
       let body := huaweidns.RecordSetBody
                     (huaweidns.Name newRecord +:+ "." +:+ domain +:+ ".") "CDN系统自动创建"
                     (huaweidns.Type_ newRecord) [value] (huaweidns.Route newRecord) ttl in
       forall zoneId,
         huaweidns.findZoneIdWithDomain net this domain = huaweidns.Done zoneId ->
         huaweidns.AddRecord net this domain newRecord
         = match huaweidns.doAPI net this "POST"
                   ("/v2.1/zones/" +:+ zoneId +:+ "/recordsets") [] body with
           | huaweidns.Done resp =>
               (huaweidns.Done tt,
                huaweidns.mkRecord (huaweidns.respId resp +:+ "@" +:+ value)
                  (huaweidns.Name newRecord) (huaweidns.Type_ newRecord) value
                  (huaweidns.Route newRecord) (huaweidns.TTL newRecord))
           | huaweidns.Failure e =>
               (huaweidns.Failure (huaweidns.WrapError net e domain sent), sent)
           | huaweidns.Crash m => (huaweidns.Crash m, sent)
           end
         /\ (exists recordId,
               huaweidns.UpdateRecord net this domain record newRecord
               = match huaweidns.doAPI net this "PUT"
                         ("/v2.1/zones/" +:+ zoneId +:+ "/recordsets/" +:+ recordId) []
                         body with
                 | huaweidns.Done _ => (huaweidns.Done tt, sent)
                 | huaweidns.Failure e =>
                     (huaweidns.Failure (huaweidns.WrapError net e domain sent), sent)
                 | huaweidns.Crash m => (huaweidns.Crash m, sent)
                 end)
         /\ huaweidns.AddRecord net this domain sent
            = huaweidns.AddRecord net this domain newRecord
         /\ huaweidns.UpdateRecord net this domain record sent
            = huaweidns.UpdateRecord net this domain record newRecord.
Proof.
  cbv zeta.
  exists (huaweidns.Value (huaweidns.quoteTXT net newRecord)), (huaweidns.ttlOf newRecord).
  assert (Hidem : huaweidns.quoteTXT net (huaweidns.quoteTXT net newRecord)
                  = huaweidns.quoteTXT net newRecord).
  { unfold huaweidns.quoteTXT.
    destruct (String.eqb_spec (huaweidns.Type_ newRecord) (huaweidns.RecordTypeTXT net))
      as [Htxt | Hother].
    - cbn [huaweidns.withValue huaweidns.Type_ huaweidns.Value].
      rewrite Htxt, String.eqb_refl.
      unfold huaweidns.withValue. cbn [huaweidns.Id huaweidns.Name huaweidns.Type_
        huaweidns.Value huaweidns.Route huaweidns.TTL].
      change (String huaweidns.quoteChar "" +:+
              huaweidns.Trim (huaweidns.Value newRecord) huaweidns.quoteChar +:+
              String huaweidns.quoteChar "")
        with (String huaweidns.quoteChar
                (huaweidns.Trim (huaweidns.Value newRecord) huaweidns.quoteChar +:+
                 String huaweidns.quoteChar "")).
      rewrite Trim_quoted. reflexivity.
    - rewrite (proj2 (String.eqb_neq _ _) Hother). reflexivity. }
  assert (Hsent : huaweidns.mkRecord (huaweidns.Id newRecord) (huaweidns.Name newRecord)
                    (huaweidns.Type_ newRecord)
                    (huaweidns.Value (huaweidns.quoteTXT net newRecord))
                    (huaweidns.Route newRecord) (huaweidns.TTL newRecord)
                  = huaweidns.quoteTXT net newRecord).
  { unfold huaweidns.quoteTXT, huaweidns.withValue.
    destruct (huaweidns.Type_ newRecord =? huaweidns.RecordTypeTXT net)%string;
      destruct newRecord; reflexivity. }
  assert (Hwith : forall id,
            huaweidns.mkRecord id (huaweidns.Name newRecord) (huaweidns.Type_ newRecord)
              (huaweidns.Value (huaweidns.quoteTXT net newRecord))
              (huaweidns.Route newRecord) (huaweidns.TTL newRecord)
            = huaweidns.withId id (huaweidns.quoteTXT net newRecord)).
  { intros id. unfold huaweidns.quoteTXT, huaweidns.withValue, huaweidns.withId.
    destruct (huaweidns.Type_ newRecord =? huaweidns.RecordTypeTXT net)%string;
      destruct newRecord; reflexivity. }
  split; [| split; [| split; [| split; [| split]]]].
  - intros Htxt. unfold huaweidns.quoteTXT. rewrite Htxt, String.eqb_refl.
    cbn [huaweidns.withValue huaweidns.Value].
    eexists. split; [reflexivity |]. split; [reflexivity |]. split.
    + apply TrimRight_noLead, TrimLeft_noLead.
    + apply TrimRight_idem.
  - intros Hother. unfold huaweidns.quoteTXT.
    rewrite (proj2 (String.eqb_neq _ _) Hother). reflexivity.
  - unfold huaweidns.ttlOf. destruct (Z.leb_spec (huaweidns.TTL newRecord) 0); lia.
  - intros Hpos. unfold huaweidns.ttlOf.
    destruct (Z.leb_spec (huaweidns.TTL newRecord) 0); [lia | reflexivity].
  - intros Hneg. unfold huaweidns.ttlOf.
    destruct (Z.leb_spec (huaweidns.TTL newRecord) 0); [reflexivity | lia].
  - intros zoneId Hzone. rewrite Hsent.
    assert (Hbody : huaweidns.RecordSetBody
                      (huaweidns.Name newRecord +:+ "." +:+ domain +:+ ".") "CDN系统自动创建"
                      (huaweidns.Type_ newRecord)
                      [huaweidns.Value (huaweidns.quoteTXT net newRecord)]
                      (huaweidns.Route newRecord) (huaweidns.ttlOf newRecord)
                    = huaweidns.bodyOf domain (huaweidns.quoteTXT net newRecord)
                        (huaweidns.ttlOf newRecord)).
    { rewrite <- Hsent at 2. reflexivity. }
    rewrite Hbody.
    assert (Httl : huaweidns.ttlOf (huaweidns.quoteTXT net newRecord)
                   = huaweidns.ttlOf newRecord).
    { rewrite <- Hsent. reflexivity. }
    unfold huaweidns.AddRecord, huaweidns.UpdateRecord. rewrite Hzone. cbv zeta.
    rewrite Hidem, Httl.
    split; [| split; [| split]].
    + destruct (huaweidns.doAPI net this "POST" _ [] _); try reflexivity.
      rewrite Hwith. reflexivity.
    + eexists. reflexivity.
    + reflexivity.
    + reflexivity.
Qed.

Lemma txt_value_is_quoted_once_witness :
  huaweidns.Value
    (huaweidns.AddRecord demoNet demoProvider "example.com"
       (huaweidns.mkRecord "" "txt" "TXT" "v=spf1 -all" "default_view" 0)).2
  = String huaweidns.quoteChar "v=spf1 -all" +:+ String huaweidns.quoteChar EmptyString.
Proof.
  destruct (txt_value_is_quoted_once demoNet demoProvider "example.com"
              (huaweidns.mkRecord "" "txt" "TXT" "v=spf1 -all" "default_view" 0)
              (huaweidns.mkRecord "" "txt" "TXT" "v=spf1 -all" "default_view" 0))
    as (value & ttl & Htxt & _ & _ & _ & _ & Hsend).
  destruct (Htxt eq_refl) as (inner & -> & -> & _).
  destruct (Hsend "zone-1" ltac:(vm_compute; reflexivity)) as [Hadd _].
  rewrite Hadd. vm_compute. reflexivity.
Defined.

(** ** The pages of GetRecords *)

Lemma getRecordPages_full net this domain zoneId (sets : nat -> list huaweidns.RecordSet)
    (n : nat) :
  forall (a : nat) (rest : list Z) (records : list huaweidns.Record),
    (forall i, (a <= i < a + n)%nat ->
       exists resp, pageCall net this zoneId i = huaweidns.Done resp
                    /\ huaweidns.RecordSets resp = sets i /\ sets i <> []) ->
    huaweidns.getRecordPages net this domain zoneId (map Z.of_nat (seq a n) ++ rest) records
    = huaweidns.getRecordPages net this domain zoneId rest
        (records ++ concat (map (fun i => recordsOfPage net domain (sets i)) (seq a n))).
Proof.
  induction n as [| n IH]; intros a rest records Hpages.
  - simpl. rewrite app_nil_r. reflexivity.
  - destruct (Hpages a ltac:(lia)) as (resp & Hcall & Hsets & Hne).
    cbn [seq map app huaweidns.getRecordPages]. unfold pageCall in Hcall. rewrite Hcall.
    rewrite Hsets.
    assert (Hlen : (length (sets a) =? 0)%nat = false)
      by (destruct (sets a); [contradiction | reflexivity]).
    rewrite Hlen. rewrite IH by (intros i Hi; apply Hpages; lia).
    cbn [concat]. rewrite <- app_assoc. reflexivity.
Qed.

(** X24. GetRecords asks for the pages 0, 1, 2, ... of 500 record sets and
    returns the records of all pages before the first empty one, page by
    page and in the order of the answers, one record for each value of a
    record set. It asks for 101 pages at most: when none of them is empty
    it returns their records and does not look further. An error of a
    page call is returned without any record (lines 151-187). *)
Theorem get_records_reads_pages_until_empty (net : huaweidns.Net) (this : huaweidns.Provider)
    (domain zoneId : string) (sets : nat -> list huaweidns.RecordSet) (n : nat) :
  huaweidns.findZoneIdWithDomain net this domain = huaweidns.Done zoneId ->
  (n <= 101)%nat ->
  (forall i, (i < n)%nat ->
     exists resp, pageCall net this zoneId i = huaweidns.Done resp
                  /\ huaweidns.RecordSets resp = sets i /\ sets i <> []) ->
  let found := concat (map (fun i => recordsOfPage net domain (sets i)) (seq 0 n)) in
  (n = 101%nat -> huaweidns.GetRecords net this domain = huaweidns.Done found)
  /\ (forall resp, (n < 101)%nat ->
        pageCall net this zoneId n = huaweidns.Done resp ->
        huaweidns.RecordSets resp = [] ->
        huaweidns.GetRecords net this domain = huaweidns.Done found)
  /\ (forall e, (n < 101)%nat ->
        pageCall net this zoneId n = huaweidns.Failure e ->
        huaweidns.GetRecords net this domain = huaweidns.Failure e).
Proof.
  intros Hzone Hn Hpages found. unfold huaweidns.GetRecords. rewrite Hzone.
  assert (Hsplit : forall m, (n + m = 101)%nat ->
            huaweidns.getRecordPages net this domain zoneId (map Z.of_nat (seq 0 101)) []
            = huaweidns.getRecordPages net this domain zoneId (map Z.of_nat (seq n m)) found).
  { intros m Hm. rewrite <- Hm, seq_app, map_app.
    rewrite (getRecordPages_full net this domain zoneId sets n 0); [reflexivity |].
    intros i Hi. apply Hpages. lia. }
  split; [| split].
  - intros ->. rewrite (Hsplit 0%nat) by reflexivity. reflexivity.
  - intros resp Hlt Hcall Hempty.
    rewrite (Hsplit (101 - n)%nat) by lia.
    destruct (101 - n)%nat as [| m] eqn:Hm; [lia |].
    cbn [seq map huaweidns.getRecordPages]. unfold pageCall in Hcall.
    rewrite Hcall, Hempty. reflexivity.
  - intros e Hlt Hcall.
    rewrite (Hsplit (101 - n)%nat) by lia.
    destruct (101 - n)%nat as [| m] eqn:Hm; [lia |].
    cbn [seq map huaweidns.getRecordPages]. unfold pageCall in Hcall.
    rewrite Hcall. reflexivity.
Qed.

Lemma get_records_reads_pages_until_empty_witness :
  huaweidns.GetRecords demoNet demoProvider "example.com"
  = huaweidns.Done (recordsOfPage demoNet "example.com" demoSets ++ []).
Proof.
  refine (proj1 (proj2 (get_records_reads_pages_until_empty demoNet demoProvider
                          "example.com" "zone-1"
                          (fun i => match i with O => demoSets | S _ => [] end) 1 _ _ _))
            (huaweidns.mkResponse [] [] "") _ _ _).
  - vm_compute. reflexivity.
  - lia.
  - intros i Hi. destruct i as [| i]; [| lia].
    exists (huaweidns.mkResponse [] demoSets "").
    split; [vm_compute; reflexivity | split; [reflexivity | discriminate]].
  - lia.
  - vm_compute. reflexivity.
  - reflexivity.
Defined.

(** ** The calls *)

Lemma HasSuffix_app_r (a b suffix : string) :
  huaweidns.HasSuffix b suffix = true -> huaweidns.HasSuffix (a +:+ b) suffix = true.
Proof.
  intros Hb. induction a as [| c a IH]; [exact Hb |].
  change ((String c a) +:+ b) with (String c (a +:+ b)).
  cbn [huaweidns.HasSuffix]. rewrite IH. destruct (String.eqb _ _); reflexivity.
Qed.

Lemma resolveEndpoint_slash (net : huaweidns.Net) (this : huaweidns.Provider) (url : string) :
  huaweidns.resolveEndpoint net this = huaweidns.Done url ->
  huaweidns.HasSuffix url "/" = true.
Proof.
  unfold huaweidns.resolveEndpoint.
  destruct (0 <? String.length (huaweidns.endpoint this))%nat;
    [| intros H; injection H as <-; reflexivity].
  destruct (huaweidns.regs this); simpl; [| discriminate].
  destruct (huaweidns.endpointRegionReg (huaweidns.endpoint this)).
  { destruct (String.eqb (huaweidns.endpoint this) "All"
              || String.eqb (huaweidns.endpoint this) "all");
      intros H; injection H as <-; [reflexivity |].
    apply (HasSuffix_app_r "https://dns."), HasSuffix_app_r. reflexivity. }
  destruct (huaweidns.endpointDomainReg (huaweidns.endpoint this)).
  { intros H; injection H as <-.
    apply (HasSuffix_app_r "https://"), HasSuffix_app_r. reflexivity. }
  destruct (huaweidns.urlParse net (huaweidns.endpoint this)); [discriminate |].
  destruct (huaweidns.HasSuffix (huaweidns.endpoint this) "/") eqn:Hs;
    intros H; injection H as <-; [exact Hs |].
  apply HasSuffix_app_r. reflexivity.
Qed.

(** X25. A call answers only when the service answered with a status from 200
    to 299 and data that decodes: every other status, also after decodable
    data, is an error. The request went to the endpoint, which ends with a
    slash, followed by the path without the slashes at its beginning
    (lines 2482-2596). *)
Theorem call_answers_only_on_2xx (net : huaweidns.Net) (this : huaweidns.Provider)
    (method apiPath : string) (args : list (string * string)) (bodyMap : huaweidns.Body)
    (resp : huaweidns.Response) :
  huaweidns.doAPI net this method apiPath args bodyMap = huaweidns.Done resp ->
  exists url path statusCode data,
    huaweidns.resolveEndpoint net this = huaweidns.Done url
    /\ huaweidns.HasSuffix url "/" = true
    /\ path = huaweidns.TrimLeft apiPath huaweidns.slashChar
    /\ noLead huaweidns.slashChar path
    /\ huaweidns.exchange net this method (url +:+ path) apiPath args bodyMap
       = Ok (statusCode, data)
    /\ 200 <= statusCode < 300
    /\ huaweidns.unmarshal net data = Ok resp.
Proof.
  unfold huaweidns.doAPI.
  destruct (huaweidns.resolveEndpoint net this) as [url | e | m] eqn:Hurl; try discriminate.
  destruct (huaweidns.urlParse net url); [discriminate |].
  destruct (huaweidns.exchange net this method
              (url +:+ huaweidns.TrimLeft apiPath huaweidns.slashChar) apiPath args bodyMap)
    as [[statusCode data] | e] eqn:Hex; [| discriminate].
  destruct (statusCode =? 0); [discriminate |].
  destruct (huaweidns.unmarshal net data) as [resp' | e] eqn:Hdata; [| discriminate].
  destruct (Z.ltb_spec statusCode 200); simpl; [discriminate |].
  destruct (Z.leb_spec 300 statusCode); simpl; [discriminate |].
  intros Heq. injection Heq as <-.
  exists url, (huaweidns.TrimLeft apiPath huaweidns.slashChar), statusCode, data.
  split; [reflexivity |]. split; [eapply resolveEndpoint_slash; exact Hurl |].
  split; [reflexivity |]. split; [apply TrimLeft_noLead |].
  split; [exact Hex |]. split; [lia | exact Hdata].
Qed.

Lemma call_answers_only_on_2xx_witness :
  exists url path statusCode data,
    huaweidns.resolveEndpoint demoNet demoProvider = huaweidns.Done url
    /\ huaweidns.HasSuffix url "/" = true
    /\ path = huaweidns.TrimLeft "/v2/zones" huaweidns.slashChar
    /\ noLead huaweidns.slashChar path
    /\ huaweidns.exchange demoNet demoProvider "GET" (url +:+ path) "/v2/zones" []
         huaweidns.NilBody
       = Ok (statusCode, data)
    /\ 200 <= statusCode < 300
    /\ huaweidns.unmarshal demoNet data
       = Ok (huaweidns.mkResponse [huaweidns.mkZone "zone-1" "example.com."] [] "").
Proof.
  apply (call_answers_only_on_2xx demoNet demoProvider "GET" "/v2/zones" [] huaweidns.NilBody).
  vm_compute. reflexivity.
Defined.

Lemma configured_regs (this : huaweidns.Provider) :
  configured this -> huaweidns.endpoint this <> "" -> huaweidns.regs this = true.
Proof.
  induction 1 as [| params this Hthis IH]; [intros H; contradiction |].
  unfold huaweidns.Auth. cbn [huaweidns.accessKeyId huaweidns.accessKeySecret].
  destruct (String.length (params "accessKeyId") =? 0)%nat; [exact IH |].
  destruct (String.length (params "accessKeySecret") =? 0)%nat; [exact IH |].
  intros _. reflexivity.
Qed.

Lemma configured_doAPI (net : huaweidns.Net) (this : huaweidns.Provider) method apiPath args
    bodyMap m :
  configured this ->
  huaweidns.doAPI net this method apiPath args bodyMap <> huaweidns.Crash m.
Proof.
  intros Hc. pose proof (configured_regs this Hc) as Hregs.
  unfold huaweidns.doAPI, huaweidns.resolveEndpoint.
  destruct (huaweidns.endpoint this) as [| a s] eqn:He; simpl.
  - destruct (huaweidns.urlParse net _); [discriminate |].
    destruct (huaweidns.exchange net _ _ _ _ _ _) as [[statusCode data] | e]; [| discriminate].
    destruct (statusCode =? 0); [discriminate |].
    destruct (huaweidns.unmarshal net data); [| discriminate].
    destruct ((statusCode <? 200) || (300 <=? statusCode)); discriminate.
  - rewrite Hregs by discriminate. simpl.
    repeat match goal with
           | |- context [match ?x with _ => _ end] =>
               lazymatch x with
               | context [match _ with _ => _ end] => fail
               | _ => destruct x
               end
           | |- context [if ?x then _ else _] =>
               lazymatch x with
               | context [match _ with _ => _ end] => fail
               | context [if _ then _ else _] => fail
               | _ => destruct x
               end
           end; discriminate.
Qed.

(** X26. However the provider was configured, by whatever [Auth] calls that
    succeeded or failed, no call dereferences the regular expressions of
    the endpoint before they are compiled: an endpoint is stored only by
    the [Auth] that compiles them. So listing, querying, adding, updating
    and deleting records never end with that panic, also after a failed
    [Auth], which keeps the endpoint of the last successful one but has
    stored the new credentials (lines 109-125, 2482-2502). *)
Theorem configured_provider_never_panics (net : huaweidns.Net) (this : huaweidns.Provider)
    (domain name recordType : string) (record newRecord : huaweidns.Record) (m : string) :
  configured this ->
  huaweidns.GetDomains net this <> huaweidns.Crash m
  /\ huaweidns.GetRecords net this domain <> huaweidns.Crash m
  /\ huaweidns.QueryRecord net this domain name recordType <> huaweidns.Crash m
  /\ huaweidns.QueryRecords net this domain name recordType <> huaweidns.Crash m
  /\ (huaweidns.AddRecord net this domain newRecord).1 <> huaweidns.Crash m
  /\ (huaweidns.UpdateRecord net this domain record newRecord).1 <> huaweidns.Crash m
  /\ huaweidns.DeleteRecord net this domain record <> huaweidns.Crash m
  /\ forall params,
       huaweidns.accessKeyId (huaweidns.Auth params this).2 = params "accessKeyId"
       /\ huaweidns.accessKeySecret (huaweidns.Auth params this).2 = params "accessKeySecret"
       /\ ((huaweidns.Auth params this).1 <> None ->
           huaweidns.endpoint (huaweidns.Auth params this).2 = huaweidns.endpoint this).
Proof.
  intros Hc.
  assert (Hapi : forall method apiPath args bodyMap,
            huaweidns.doAPI net this method apiPath args bodyMap <> huaweidns.Crash m)
    by (intros; apply configured_doAPI; exact Hc).
  assert (Hzone : huaweidns.findZoneIdWithDomain net this domain <> huaweidns.Crash m).
  { unfold huaweidns.findZoneIdWithDomain.
    specialize (Hapi "GET" "/v2/zones" [("name", domain)] huaweidns.NilBody).
    destruct (huaweidns.doAPI net this "GET" "/v2/zones" [("name", domain)] huaweidns.NilBody);
      [destruct (find _ _); discriminate | discriminate | congruence]. }
  repeat split.
  - unfold huaweidns.GetDomains.
    specialize (Hapi "GET" "/v2/zones" [] huaweidns.NilBody).
    destruct (huaweidns.doAPI net this "GET" "/v2/zones" [] huaweidns.NilBody);
      [discriminate | discriminate | congruence].
  - unfold huaweidns.GetRecords.
    destruct (huaweidns.findZoneIdWithDomain net this domain) as [zoneId | e | m0];
      [| discriminate | congruence].
    generalize (@nil huaweidns.Record). generalize (map Z.of_nat (seq 0 101)).
    intros pages. induction pages as [| i pages IH]; intros records; simpl; [discriminate |].
    match goal with
    | |- context [huaweidns.doAPI ?a ?b ?c ?d ?e ?f] =>
        specialize (Hapi c d e f); destruct (huaweidns.doAPI a b c d e f)
    end; [| discriminate | congruence].
    destruct (length (huaweidns.RecordSets a) =? 0)%nat; [discriminate | apply IH].
  - unfold huaweidns.QueryRecord.
    match goal with
    | |- context [huaweidns.doAPI ?a ?b ?c ?d ?e ?f] =>
        specialize (Hapi c d e f); destruct (huaweidns.doAPI a b c d e f) as [resp | e0 | m0]
    end; [| discriminate | congruence].
    destruct (huaweidns.RecordSets resp) as [| rs ?]; [discriminate |].
    destruct (huaweidns.rsRecords rs); discriminate.
  - unfold huaweidns.QueryRecords.
    match goal with
    | |- context [huaweidns.doAPI ?a ?b ?c ?d ?e ?f] =>
        specialize (Hapi c d e f); destruct (huaweidns.doAPI a b c d e f) as [resp | e0 | m0]
    end; [| discriminate | congruence].
    destruct (huaweidns.RecordSets resp); discriminate.
  - unfold huaweidns.AddRecord.
    destruct (huaweidns.findZoneIdWithDomain net this domain) as [zoneId | e | m0];
      [| discriminate | simpl; congruence].
    match goal with
    | |- context [huaweidns.doAPI ?a ?b ?c ?d ?e ?f] =>
        specialize (Hapi c d e f); destruct (huaweidns.doAPI a b c d e f) as [resp | e0 | m0]
    end; simpl; [discriminate | discriminate | congruence].
  - unfold huaweidns.UpdateRecord.
    destruct (huaweidns.findZoneIdWithDomain net this domain) as [zoneId | e | m0];
      [| discriminate | simpl; congruence].
    match goal with
    | |- context [huaweidns.doAPI ?a ?b ?c ?d ?e ?f] =>
        specialize (Hapi c d e f); destruct (huaweidns.doAPI a b c d e f) as [resp | e0 | m0]
    end; simpl; [discriminate | discriminate | congruence].
  - unfold huaweidns.DeleteRecord.
    destruct (huaweidns.findZoneIdWithDomain net this domain) as [zoneId | e | m0];
      [| discriminate | congruence].
    match goal with
    | |- context [huaweidns.doAPI ?a ?b ?c ?d ?e ?f] =>
        specialize (Hapi c d e f); destruct (huaweidns.doAPI a b c d e f) as [resp | e0 | m0]
    end; [discriminate | discriminate | congruence].
  - unfold huaweidns.Auth. cbn [huaweidns.accessKeyId huaweidns.accessKeySecret].
    destruct (String.length (params "accessKeyId") =? 0)%nat; [reflexivity |].
    destruct (String.length (params "accessKeySecret") =? 0)%nat; reflexivity.
  - unfold huaweidns.Auth. cbn [huaweidns.accessKeyId huaweidns.accessKeySecret].
    destruct (String.length (params "accessKeyId") =? 0)%nat; [reflexivity |].
    destruct (String.length (params "accessKeySecret") =? 0)%nat; reflexivity.
  - unfold huaweidns.Auth. cbn [huaweidns.accessKeyId huaweidns.accessKeySecret].
    destruct (String.length (params "accessKeyId") =? 0)%nat; [reflexivity |].
    destruct (String.length (params "accessKeySecret") =? 0)%nat; [reflexivity |].
    intros H. exfalso. apply H. reflexivity.
Qed.

Lemma configured_provider_never_panics_witness :
  huaweidns.GetRecords demoNet
    (huaweidns.Auth (fun key => if String.eqb key "endpoint" then "cn-east-2" else "")
       (huaweidns.Auth (fun key => if String.eqb key "endpoint" then "cn-east-2" else "key")
          (huaweidns.mkProvider "" "" "" false)).2).2
    "example.com"
  <> huaweidns.Crash "nil pointer dereference: endpointRegionReg".
Proof.
  refine (proj1 (proj2 (configured_provider_never_panics demoNet _ "example.com" "" ""
                          (huaweidns.mkRecord "" "" "" "" "" 0)
                          (huaweidns.mkRecord "" "" "" "" "" 0) _ _))).
  apply configured_auth, configured_auth, configured_zero.
Defined.

(** X27. QueryRecord and QueryRecords send the same request. The record
    QueryRecord returns is the first of the records QueryRecords returns;
    QueryRecord looks at the first record set only, so that it may return
    no record while QueryRecords returns the records of later record sets;
    and both return the same error (lines 2313-2375). *)
Theorem query_record_is_first_of_query_records (net : huaweidns.Net)
    (this : huaweidns.Provider) (domain name recordType : string) :
  match huaweidns.QueryRecord net this domain name recordType with
  | huaweidns.Done (Some record) =>
      exists rest, huaweidns.QueryRecords net this domain name recordType
                   = huaweidns.Done (Some (record :: rest))
  | huaweidns.Done None =>
      huaweidns.QueryRecords net this domain name recordType = huaweidns.Done None
      \/ exists resp records,
           huaweidns.doAPI net this "GET" "/v2.1/recordsets"
             [("name", name +:+ "." +:+ domain +:+ "."); ("type", recordType)]
             huaweidns.EmptyBody = huaweidns.Done resp
           /\ head (huaweidns.rsRecords <$> huaweidns.RecordSets resp) = Some []
           /\ huaweidns.QueryRecords net this domain name recordType
              = huaweidns.Done (Some records)
           /\ length records
              = length (concat (huaweidns.rsRecords <$> huaweidns.RecordSets resp))
  | huaweidns.Failure e =>
      huaweidns.QueryRecords net this domain name recordType = huaweidns.Failure e
  | huaweidns.Crash m =>
      huaweidns.QueryRecords net this domain name recordType = huaweidns.Crash m
  end.
Proof.
  unfold huaweidns.QueryRecord, huaweidns.QueryRecords.
  destruct (huaweidns.doAPI net this "GET" "/v2.1/recordsets" _ huaweidns.EmptyBody)
    as [resp | e | m]; [| reflexivity | reflexivity].
  destruct (huaweidns.RecordSets resp) as [| recordSet sets] eqn:Hsets; [left; reflexivity |].
  destruct (huaweidns.rsRecords recordSet) as [| value values] eqn:Hvalues.
  - right. eexists _, _. split; [reflexivity |]. rewrite Hsets.
    split; [simpl; rewrite Hvalues; reflexivity |]. split; [reflexivity |].
    rewrite !length_concat. f_equal.
    rewrite <- !list_fmap_compose. apply list_fmap_ext. intros i rs _. simpl.
    rewrite length_map. reflexivity.
  - eexists. cbn [map concat]. rewrite Hvalues. cbn [map app]. reflexivity.
Qed.

(** X30. A zone the service lists under the name of the domain with a final
    dot is listed by GetDomains as the domain, one name for each zone; and
    the calls that work on a domain find a zone of that name for it: the
    first the service answers with, whose id they use. When the answer
    holds no zone of that name, they fail with an error that names the
    domain (lines 136-148, 2598-2611). *)
Theorem listed_domain_resolves (net : huaweidns.Net) (this : huaweidns.Provider)
    (domain : string) (zone : huaweidns.Zone) (resp : huaweidns.Response) :
  huaweidns.doAPI net this "GET" "/v2/zones" [] huaweidns.NilBody = huaweidns.Done resp ->
  zone ∈ huaweidns.Zones resp ->
  huaweidns.zoneName zone = domain +:+ "." ->
  (exists domains,
     huaweidns.GetDomains net this = huaweidns.Done domains
     /\ domain ∈ domains
     /\ length domains = length (huaweidns.Zones resp))
  /\ (forall found,
        huaweidns.doAPI net this "GET" "/v2/zones" [("name", domain)] huaweidns.NilBody
        = huaweidns.Done found ->
        (zone ∈ huaweidns.Zones found ->
         exists zone',
           huaweidns.findZoneIdWithDomain net this domain
           = huaweidns.Done (huaweidns.zoneId zone')
           /\ zone' ∈ huaweidns.Zones found
           /\ huaweidns.zoneName zone' = huaweidns.zoneName zone)
        /\ ((forall zone', zone' ∈ huaweidns.Zones found ->
               huaweidns.zoneName zone' <> domain +:+ ".") ->
            huaweidns.findZoneIdWithDomain net this domain
            = huaweidns.Failure ("can not find zone id for '" +:+ domain +:+ "'"))).
Proof.
  intros Hlist Hzone Hname. split.
  - unfold huaweidns.GetDomains. rewrite Hlist. eexists. split; [reflexivity |].
    split; [| apply length_map].
    apply list_elem_of_In, in_map_iff. exists zone.
    split; [rewrite Hname; apply (TrimSuffix_app domain ".") | apply list_elem_of_In, Hzone].
  - intros found Hfound. unfold huaweidns.findZoneIdWithDomain. rewrite Hfound. split.
    + intros Hin.
      destruct (find (fun z => String.eqb (huaweidns.zoneName z) (domain +:+ "."))
                  (huaweidns.Zones found)) as [zone' |] eqn:Hfind.
      * apply find_some in Hfind as [Hin' Heq]. apply String.eqb_eq in Heq.
        exists zone'. split; [reflexivity |].
        split; [apply list_elem_of_In, Hin' | congruence].
      * exfalso. apply list_elem_of_In in Hin.
        pose proof (find_none _ _ Hfind zone Hin) as Hno. simpl in Hno.
        rewrite Hname, String.eqb_refl in Hno. discriminate.
    + intros Hnone.
      destruct (find (fun z => String.eqb (huaweidns.zoneName z) (domain +:+ "."))
                  (huaweidns.Zones found)) as [zone' |] eqn:Hfind; [| reflexivity].
      apply find_some in Hfind as [Hin' Heq]. apply String.eqb_eq in Heq.
      exfalso. apply (Hnone zone'); [apply list_elem_of_In, Hin' | exact Heq].
Qed.

Lemma listed_domain_resolves_witness :
  exists domains,
    huaweidns.GetDomains demoNet demoProvider = huaweidns.Done domains
    /\ "example.com" ∈ domains
    /\ length domains = 1%nat.
Proof.
  refine (proj1 (listed_domain_resolves demoNet demoProvider "example.com"
                   (huaweidns.mkZone "zone-1" "example.com.")
                   (huaweidns.mkResponse [huaweidns.mkZone "zone-1" "example.com."] [] "")
                   _ _ _)).
  - vm_compute. reflexivity.
  - apply list_elem_of_here.
  - reflexivity.
Defined.

(** * Properties of counting and listing the tasks *)

#[local] Instance pkGe_total : Total pkGe.
Proof. intros a b. unfold pkGe. lia. Qed.

#[local] Instance pkGe_transitive : Transitive pkGe.
Proof. intros a b c. unfold pkGe. lia. Qed.

Lemma sorted_keys_strict_desc (l : list (Z * ACMETask)) :
  StronglySorted pkGe l -> NoDup l ->
  (forall a b, a ∈ l -> b ∈ l -> a.1 = b.1 -> a = b) ->
  StronglySorted (fun a b => b.1 < a.1) l.
Proof.
  induction l as [| a l IH]; intros Hs Hn Hk; [constructor |].
  apply StronglySorted_cons in Hs as [Hall Hs]. apply NoDup_cons in Hn as [Hnot Hn].
  apply StronglySorted_cons. split.
  - rewrite Forall_forall in *. intros b Hb. specialize (Hall b Hb). unfold pkGe in Hall.
    destruct (decide (a.1 = b.1)) as [Heq | Hne]; [| lia].
    exfalso. apply Hnot. rewrite (Hk a b); [assumption | left | right; assumption | assumption].
  - apply IH; [assumption | assumption |].
    intros x y Hx Hy. apply Hk; right; assumption.
Qed.

Lemma certSatisfies_certOf (w : World) (cond : SSLCert -> bool) (P : SSLCert -> Prop)
    (t : ACMETask) :
  (forall c, cond c = true <-> P c) ->
  certSatisfies w cond t = true <-> certOf w t P.
Proof.
  intros Hcond. unfold certSatisfies, certOf.
  destruct (sslCerts w !! tCertId t) as [c |].
  - rewrite Hcond. split; [intros H; exists c; auto |].
    intros [c' [Heq H]]. injection Heq as ->. exact H.
  - split; [discriminate |]. intros [c' [Heq _]]. discriminate.
Qed.

Lemma ownerSelected_spec (userId : Z) (userOnly : bool) (t : ACMETask) :
  ownerSelected userId userOnly t = true
  <-> (0 < userId -> tUserId t = userId)
      /\ (userId <= 0 -> userOnly = true -> 0 < tUserId t)
      /\ (userId <= 0 -> userOnly = false -> tUserId t = 0).
Proof.
  unfold ownerSelected.
  destruct (Z.ltb_spec 0 userId) as [Hu | Hu]; [| destruct userOnly].
  - rewrite Z.eqb_eq. split; [intros H; repeat split; intros; (assumption || lia) |].
    intros [H _]. auto.
  - rewrite Z.ltb_lt. split; [intros H; repeat split; intros; (assumption || lia || discriminate) |].
    intros (_ & H & _). auto.
  - rewrite Z.eqb_eq. split; [intros H; repeat split; intros; (assumption || lia || discriminate) |].
    intros (_ & _ & H). auto.
Qed.

Lemma keywordSelected_spec (like : string -> string -> bool) (keyword : string)
    (t : ACMETask) :
  keywordSelected like keyword t = true
  <-> (keyword <> "" -> like (tDomains t) keyword = true).
Proof.
  unfold keywordSelected. destruct keyword as [| a k]; simpl.
  - split; [intros _ H; contradiction | reflexivity].
  - split; [auto | intros H; apply H; discriminate].
Qed.

Lemma certSelected_spec (w : World) (dbNow now : Z) (isAvailable isExpired : bool)
    (expiringDays : Z) (t : ACMETask) :
  certSelected w dbNow now isAvailable isExpired expiringDays t = true
  <-> (isAvailable = true \/ isExpired = true \/ 0 < expiringDays -> 0 < tCertId t)
      /\ (isAvailable = true ->
          certOf w t (fun c => cTimeBeginAt c <= dbNow /\ dbNow <= cTimeEndAt c))
      /\ (isExpired = true -> certOf w t (fun c => cTimeEndAt c < dbNow))
      /\ (0 < expiringDays ->
          certOf w t (fun c => dbNow < cTimeEndAt c
                               /\ cTimeEndAt c < int64 (now + int64 (expiringDays * 86400)))).
Proof.
  unfold certSelected.
  pose proof (certSatisfies_certOf w
                (fun c => (cTimeBeginAt c <=? dbNow) && (dbNow <=? cTimeEndAt c))
                (fun c => cTimeBeginAt c <= dbNow /\ dbNow <= cTimeEndAt c) t) as Ha.
  pose proof (certSatisfies_certOf w (fun c => cTimeEndAt c <? dbNow)
                (fun c => cTimeEndAt c < dbNow) t) as He.
  pose proof (certSatisfies_certOf w
                (fun c => (dbNow <? cTimeEndAt c)
                          && (cTimeEndAt c <? int64 (now + int64 (expiringDays * 86400))))
                (fun c => dbNow < cTimeEndAt c
                          /\ cTimeEndAt c < int64 (now + int64 (expiringDays * 86400))) t)
    as Hd.
  rewrite <- Ha, <- He, <- Hd; clear Ha He Hd.
  2: { intros c. rewrite andb_true_iff, !Z.ltb_lt. reflexivity. }
  2: { intros c. rewrite Z.ltb_lt. reflexivity. }
  2: { intros c. rewrite andb_true_iff, !Z.leb_le. reflexivity. }
  destruct (Z.ltb_spec 0 expiringDays) as [Hd | Hd];
    destruct isAvailable, isExpired; simpl;
    rewrite ?andb_true_iff, ?andb_true_r, ?Z.ltb_lt;
    repeat match goal with
           | |- context [certSatisfies ?w ?c ?t] =>
               let b := fresh "b" in generalize (certSatisfies w c t); intros b
           end;
    intuition (try discriminate; try lia; try congruence; auto).
Qed.

(** The rows ListEnabledACMETasks selects are those CountAllEnabledACMETasks
    counts, and they are the rows [listed] describes. *)
Lemma selected_listed (w : World) (like : string -> string -> bool) (dbNow now userId : Z)
    (isAvailable isExpired : bool) (expiringDays : Z) (keyword : string) (userOnly : bool)
    (t : ACMETask) :
  ownerSelected userId userOnly t
  && certSelected w dbNow now isAvailable isExpired expiringDays t
  && keywordSelected like keyword t
  && (tState t =? ACMETaskStateEnabled) = true
  <-> listed w like dbNow now userId isAvailable isExpired expiringDays keyword userOnly t.
Proof.
  unfold listed. rewrite !andb_true_iff, Z.eqb_eq.
  rewrite ownerSelected_spec, certSelected_spec, keywordSelected_spec. tauto.
Qed.

(** X28. The list and the count of the tasks agree. With the same arguments
    and the same clocks, and no storage error, there is one list of
    selected rows, in strictly descending order of the id, that holds
    exactly the rows of the store that are enabled and pass the selection
    by owner, by certificate and by keyword: CountAllEnabledACMETasks
    returns its length, and ListEnabledACMETasks returns its rows without
    the first [offset] of them and [size] at most. The condition on the
    keyword that the count adds twice selects as the single one of the
    list. Asking for available and expired certificates at once selects
    nothing (lines 137-214). *)
Theorem listing_matches_count (like : string -> string -> bool) (dbNow now userId : Z)
    (isAvailable isExpired : bool) (expiringDays : Z) (keyword : string) (userOnly : bool)
    (offset size : Z) (w : World) :
  0 <= offset ->
  0 < size ->
  exists selected : list (Z * ACMETask),
    StronglySorted (fun a b => b.1 < a.1) selected
    /\ (forall id t,
          (id, t) ∈ selected
          <-> acmeTasks w !! id = Some t
              /\ listed w like dbNow now userId isAvailable isExpired expiringDays keyword
                   userOnly t)
    /\ CountAllEnabledACMETasks None like dbNow now userId isAvailable isExpired expiringDays
         keyword userOnly w = Ok (Z.of_nat (length selected))
    /\ ListEnabledACMETasks None like dbNow now userId isAvailable isExpired expiringDays
         keyword userOnly offset size w
       = Ok (take (Z.to_nat size) (drop (Z.to_nat offset) selected)).*2
    /\ (isAvailable = true -> isExpired = true -> selected = []).
Proof.
  intros Hoffset Hsize.
  unfold CountAllEnabledACMETasks, ListEnabledACMETasks.
  set (P := fun kt : Z * ACMETask =>
              ownerSelected userId userOnly kt.2
              && certSelected w dbNow now isAvailable isExpired expiringDays kt.2
              && keywordSelected like keyword kt.2
              && (tState kt.2 =? ACMETaskStateEnabled) = true).
  set (F := filter P (map_to_list (acmeTasks w))).
  assert (Hcount : filter
            (fun kt : Z * ACMETask =>
               ownerSelected userId userOnly kt.2
               && certSelected w dbNow now isAvailable isExpired expiringDays kt.2
               && keywordSelected like keyword kt.2
               && keywordSelected like keyword kt.2
               && (tState kt.2 =? ACMETaskStateEnabled) = true)
            (map_to_list (acmeTasks w)) = F).
  { apply list_filter_iff. intros kt. unfold P.
    destruct (keywordSelected like keyword kt.2); rewrite ?andb_true_r, ?andb_false_r;
      simpl; rewrite ?andb_true_r, ?andb_false_r; reflexivity. }
  rewrite Hcount.
  set (S := merge_sort pkGe F).
  assert (Hmem : forall id t,
            (id, t) ∈ S
            <-> acmeTasks w !! id = Some t
                /\ listed w like dbNow now userId isAvailable isExpired expiringDays keyword
                     userOnly t).
  { intros id t. unfold S, F. rewrite merge_sort_Permutation, list_elem_of_filter.
    rewrite elem_of_map_to_list. unfold P. simpl. rewrite selected_listed. tauto. }
  assert (Hlen : length S = length F)
    by (apply Permutation_length, merge_sort_Permutation).
  assert (Hstrict : StronglySorted (fun a b => b.1 < a.1) S).
  { apply sorted_keys_strict_desc.
    - apply StronglySorted_merge_sort; apply _.
    - unfold S, F. rewrite merge_sort_Permutation. apply NoDup_filter, NoDup_map_to_list.
    - intros [k t] [k' t'] Ha Hb Heq. simpl in Heq. subst k'.
      apply Hmem in Ha as [Ha _]. apply Hmem in Hb as [Hb _]. congruence. }
  exists S.
  split; [exact Hstrict |]. split; [exact Hmem |].
  split; [rewrite Hlen; reflexivity |]. split; [reflexivity |].
  intros Ha He.
  assert (Hnone : forall kt, kt ∈ S -> False).
  { intros [id t] Hin. apply Hmem in Hin as [_ Hl]. unfold listed, certOf in Hl.
    destruct Hl as (_ & _ & _ & _ & _ & Havail & Hexp & _).
    destruct (Havail Ha) as [c [Hc [_ Hend]]]. destruct (Hexp He) as [c' [Hc' Hlt]].
    rewrite Hc in Hc'. injection Hc' as <-. lia. }
  destruct S as [| kt S']; [reflexivity |].
  exfalso. apply (Hnone kt). left.
Qed.

Lemma listing_matches_count_witness :
  exists selected : list (Z * ACMETask),
    (forall id t,
       (id, t) ∈ selected
       <-> acmeTasks worldRenew !! id = Some t
           /\ listed worldRenew (fun _ _ => true) 1700000000 1700000000 9 false false 0
                "" false t)
    /\ CountAllEnabledACMETasks None (fun _ _ => true) 1700000000 1700000000 9 false false 0
         "" false worldRenew = Ok (Z.of_nat (length selected))
    /\ ListEnabledACMETasks None (fun _ _ => true) 1700000000 1700000000 9 false false 0
         "" false 0 20 worldRenew = Ok (take (Z.to_nat 20) (drop (Z.to_nat 0) selected)).*2.
Proof.
  destruct (listing_matches_count (fun _ _ => true) 1700000000 1700000000 9 false false 0
              "" false 0 20 worldRenew) as (selected & _ & Hm & Hc & Hl & _); [lia | lia |].
  exists selected. split; [exact Hm |]. split; assumption.
Defined.

(** X29. CheckUserACMETask and the lookups agree. For a user id above 0 the
    check succeeds exactly when FindEnabledACMETask finds the task and
    FindACMETaskUserId names the user as its owner. For a user id that is
    not above 0 the owner is not looked at: the check succeeds for every
    enabled task, whoever owns it. A disabled task fails the check for
    everyone (lines 277-295, 100-109). *)
Theorem user_check_agrees_with_owner (E : Env) (userId acmeTaskId : Z) (w : World) :
  fault E (SFindEnabledACMETask acmeTaskId) = None ->
  (forall t, acmeTasks w !! acmeTaskId = Some t -> 0 <= tUserId t < 2 ^ 63) ->
  let found := (exec (FindEnabledACMETask E acmeTaskId) w).1 in
  (0 < userId ->
     CheckUserACMETask None userId acmeTaskId w = Ok true
     <-> (exists t, found = Returned (Ok (Some t)))
         /\ FindACMETaskUserId None acmeTaskId w = Ok userId)
  /\ (userId <= 0 ->
      CheckUserACMETask None userId acmeTaskId w = Ok true
      <-> exists t, found = Returned (Ok (Some t))).
Proof.
  intros Hf Hrange. cbv zeta.
  unfold CheckUserACMETask, FindACMETaskUserId, FindEnabledACMETask. unfold_proc.
  rewrite Hf. simpl.
  destruct (acmeTasks w !! acmeTaskId) as [t |] eqn:Ht.
  - specialize (Hrange t eq_refl). rewrite int64_id by lia. split; intros Hu.
    + rewrite (proj2 (Z.ltb_lt 0 userId) Hu).
      destruct (Z.eqb_spec (tUserId t) userId) as [Heq | Hne];
        destruct (tState t =? ACMETaskStateEnabled); simpl; split;
        try (intros H; discriminate H);
        try (intros [[t' H] H']; try discriminate H; congruence).
      intros _. split; [eexists; reflexivity | congruence].
    + rewrite (proj2 (Z.ltb_ge 0 userId) Hu).
      destruct (tState t =? ACMETaskStateEnabled); simpl; split;
        try (intros H; discriminate H); try (intros [t' H]; discriminate H);
        try (intros _; reflexivity).
      intros _. eexists. reflexivity.
  - split; intros Hu; split; try (intros H; discriminate H).
    + intros [[t' H] _]. discriminate H.
    + intros [t' H]. discriminate H.
Qed.

Lemma user_check_agrees_with_owner_witness :
  CheckUserACMETask None 9 1 world1 = Ok true
  <-> (exists t, (exec (FindEnabledACMETask quietEnv 1) world1).1 = Returned (Ok (Some t)))
      /\ FindACMETaskUserId None 1 world1 = Ok 9.
Proof.
  refine (proj1 (user_check_agrees_with_owner quietEnv 9 1 world1 eq_refl _) _); [| lia].
  intros t Ht. vm_compute in Ht. injection Ht as <-. simpl. lia.
Defined.

